(** * StrainGE: k-mer sets, strain search and variant calling

    A shallow embedding of the parts of [strainge/kmertools.py],
    [strainge/search_tool.py] and [strainge/variant_caller.py] that carry
    the data invariants and the scoring and calling rules, with the
    properties proved about them.

    Conventions of the embedding.
    - numpy integer arrays are [list Z]; index arrays are [list nat];
      boolean arrays are [list bool].
    - Python and numpy floating point values are exact rationals ([Q]):
      rounding, [inf] and [nan] are outside the model.  A division whose
      divisor is zero raises [ZeroDivisionError] on Python floats; on
      numpy scalars, where numpy warns and continues with [inf] or [nan],
      evaluation stops with the outcome [NumpyNonFinite], which is not a
      Python exception but marks the edge of the rational model.
    - Exceptions are values of [exn]; fallible code lives in the [res]
      monad. *)

From Stdlib Require Import ZArith QArith Qround Lqa Lia Bool.
From stdpp Require Import base list strings pretty gmap sorting.

Open Scope Z_scope.

(* ===================================================================== *)
(** * Python exceptions and the error monad                              *)
(* ===================================================================== *)

Inductive exn : Type :=
| AttributeError
| IndexError
| KeyError
| TypeError
| ValueError
| ZeroDivisionError
| NumpyNonFinite.

Inductive res (A : Type) : Type :=
| Ok (a : A)
| Raise (e : exn).
Arguments Ok {A} a.
Arguments Raise {A} e.

Definition res_bind {A B} (m : res A) (f : A -> res B) : res B :=
  match m with
  | Ok a => f a
  | Raise e => Raise e
  end.

Notation "'let*' x ':=' m 'in' k" := (res_bind m (fun x => k))
  (at level 10, x name, m at level 100, k at level 200).
Notation "'let*' ' p ':=' m 'in' k" :=
  (res_bind m (fun x => match x with p => k end))
  (at level 10, p pattern, m at level 100, k at level 200).

Definition res_to_option {A} (m : res A) : option A :=
  match m with
  | Ok a => Some a
  | Raise _ => None
  end.

Definition res_map {A B} (f : A -> B) (m : res A) : res B :=
  match m with
  | Ok a => Ok (f a)
  | Raise e => Raise e
  end.

Definition of_option {A} (e : exn) (o : option A) : res A :=
  match o with
  | Some a => Ok a
  | None => Raise e
  end.

(* ===================================================================== *)
(** * variant_caller.py: alleles                                         *)
(* ===================================================================== *)

Module Allele.

(** [class Allele(IntFlag)]: a value is the integer of its bit set. *)
Definition t := Z.

Definition N : t := 0.
Definition A : t := 1.
Definition C : t := 2.
Definition G : t := 4.
Definition T : t := 8.
Definition INS : t := 16.
Definition DEL : t := 32.

(** [Allele.rc]. *)
Definition rc (self : t) : t :=
  if self =? A then T
  else if self =? C then G
  else if self =? G then C
  else if self =? T then A
  else self.

(** The members other than [N], in definition order:
    [ALLELE_MASKS = numpy.array([v for v in Allele if v != Allele.N])]. *)
Definition ALLELE_MASKS : list Z := [A; C; G; T; INS; DEL].

(** [Allele.__members__]: the names and values, in definition
    order. *)
Definition members : list (string * t) :=
  [("N"%string, N); ("A"%string, A); ("C"%string, C); ("G"%string, G);
   ("T"%string, T); ("INS"%string, INS); ("DEL"%string, DEL)].

(** [cls.__members__[base]], and the reverse mapping
    [{v: k for k, v in Allele.__members__.items()}]. *)
Fixpoint member_of_name (d : list (string * t)) (base : string) : option t :=
  match d with
  | [] => None
  | (k, v) :: d' => if String.eqb k base then Some v else member_of_name d' base
  end.

Fixpoint name_of_member (d : list (string * t)) (value : t) : option string :=
  match d with
  | [] => None
  | (k, v) :: d' => if v =? value then Some k else name_of_member d' value
  end.

(** [Allele.from_str]. *)
Definition from_str (base : string) : t :=
  match member_of_name members base with
  | Some v => v
  | None => N
  end.

(** [Allele.__iter__]: the members [allele] with [self.value & allele]
    not zero, in definition order. *)
Definition iter (self : t) : list t :=
  List.filter (fun allele => negb (Z.land self allele =? 0))
              (map snd members).

(** [_allele_to_str]. *)
Definition allele_to_str (value : t) : res string :=
  of_option KeyError (name_of_member members value).

(** The strings of a generator, up to the first exception. *)
Fixpoint join_strs (l : list (res string)) : res (list string) :=
  match l with
  | [] => Ok []
  | Ok s :: l' => let* ss := join_strs l' in Ok (s :: ss)
  | Raise e :: _ => Raise e
  end.

(** [Allele.__str__], which calls itself on the alleles it yields;
    [fuel] bounds the depth of the calls, and [None] is a call chain
    deeper than that. *)
Fixpoint str_fuel (fuel : nat) (self : t) : option (res string) :=
  match fuel with
  | O => None
  | S fuel' =>
      match iter self with
      | [allele] => Some (allele_to_str allele)
      | alleles =>
          match mapM (str_fuel fuel') alleles with
          | Some strs => Some (res_map (String.concat ",") (join_strs strs))
          | None => None
          end
      end
  end.

End Allele.

(* ===================================================================== *)
(** * variant_caller.py: coordinates on a concatenated reference         *)
(* ===================================================================== *)

(** A FASTA record as read by [skbio.io.read]: [metadata['id']] and the
    bases. *)
Record SeqRecord := {
  metadata_id : string;
  seq_values : string
}.

Definition seq_len (s : SeqRecord) : Z := Z.of_nat (String.length (seq_values s)).

(** A Python [dict] keeps its keys in insertion order; assigning to a
    key that is present replaces the value in place. *)
Fixpoint dict_set {V} (d : list (string * V)) (k : string) (v : V)
  : list (string * V) :=
  match d with
  | [] => [(k, v)]
  | (k', v') :: d' =>
      if String.eqb k' k then (k', v) :: d' else (k', v') :: dict_set d' k v
  end.

Record Reference := {
  scaffolds : list (string * SeqRecord);
  lengths : list Z
}.

(** [Reference.__init__], after the file has been parsed into records. *)
Definition Reference_init (records : list SeqRecord) : Reference :=
  let scaffolds :=
    fold_left (fun d r => dict_set d (metadata_id r) r) records [] in
  {| scaffolds := scaffolds;
     lengths := map (fun kv => seq_len (snd kv)) scaffolds |}.

(** Python's [zip] stops at the shorter argument. *)
Fixpoint zip_py {A B} (l : list A) (k : list B) : list (A * B) :=
  match l, k with
  | a :: l', b :: k' => (a, b) :: zip_py l' k'
  | _, _ => []
  end.

(** The loop of [Reference.scaffold_coord], from a given [offset]. *)
Fixpoint scaffold_coord_loop (coord offset : Z)
    (items : list (SeqRecord * Z)) : option (string * Z) :=
  match items with
  | [] => None
  | (scaffold, length) :: rest =>
      if coord <? offset + length
      then Some (metadata_id scaffold, coord + 1 - offset)
      else scaffold_coord_loop coord (offset + length) rest
  end.

(** [Reference.scaffold_coord]; falling off the loop returns [None]. *)
Definition scaffold_coord (self : Reference) (coord : Z)
  : option (string * Z) :=
  scaffold_coord_loop coord 0 (zip_py (map snd (scaffolds self)) (lengths self)).

(** [scaffold.name] where [scaffold] is a key of [self.scaffolds], a
    Python [str]: [str] has no attribute [name]. *)
Definition str_getattr_name (scaffold : string) : res string :=
  Raise AttributeError.

(** The loop of [Reference.scaffold_to_genome_coord].  Iterating over the
    dictionary [self.scaffolds] yields its keys. *)
Fixpoint scaffold_to_genome_coord_loop (scaffold_name : string)
    (coord offset : Z) (items : list (string * Z)) : res (option Z) :=
  match items with
  | [] => Ok None
  | (scaffold, length) :: rest =>
      let* name := str_getattr_name scaffold in
      if String.eqb name scaffold_name
      then Ok (Some (offset + coord - 1))
      else scaffold_to_genome_coord_loop scaffold_name coord
             (offset + length) rest
  end.

Definition scaffold_to_genome_coord (self : Reference)
    (scaffold_name : string) (coord : Z) : res (option Z) :=
  scaffold_to_genome_coord_loop scaffold_name coord 0
    (zip_py (map fst (scaffolds self)) (lengths self)).

(** What the docstring of [scaffold_to_genome_coord] describes: the same
    loop with the key itself compared with [scaffold_name]. *)
Fixpoint documented_genome_coord_loop (scaffold_name : string)
    (coord offset : Z) (items : list (string * Z)) : option Z :=
  match items with
  | [] => None
  | (scaffold, length) :: rest =>
      if String.eqb scaffold scaffold_name
      then Some (offset + coord - 1)
      else documented_genome_coord_loop scaffold_name coord
             (offset + length) rest
  end.

Definition documented_genome_coord (self : Reference)
    (scaffold_name : string) (coord : Z) : option Z :=
  documented_genome_coord_loop scaffold_name coord 0
    (zip_py (map fst (scaffolds self)) (lengths self)).

(** Well-formed references: what [Reference_init] establishes. *)
Definition ref_wf (r : Reference) : Prop :=
  NoDup (map fst (scaffolds r))
  /\ Forall (fun kv => metadata_id (snd kv) = fst kv) (scaffolds r)
  /\ lengths r = map (fun kv => seq_len (snd kv)) (scaffolds r).

(** Sum of the lengths of the scaffolds that precede [name]. *)
Fixpoint prior_length (name : string) (d : list (string * SeqRecord)) : Z :=
  match d with
  | [] => 0
  | (k, v) :: d' =>
      if String.eqb k name then 0 else seq_len v + prior_length name d'
  end.

Fixpoint dict_get {V} (d : list (string * V)) (k : string) : option V :=
  match d with
  | [] => None
  | (k', v) :: d' => if String.eqb k' k then Some v else dict_get d' k
  end.

(* ===================================================================== *)
(** * numpy helpers                                                      *)
(* ===================================================================== *)

(** [a.sum()] of an integer array. *)
Definition np_sum (a : list Z) : Z := foldr Z.add 0 a.

(** [a.sum()] of a float array. *)
Definition np_sumQ (a : list Q) : Q := foldr Qplus 0%Q a.

(** Element-wise binary operation on one-dimensional arrays: equal
    lengths pair up, an array of length one is broadcast, anything else
    raises. *)
Definition np_zip {A B C} (f : A -> B -> C) (a : list A) (b : list B)
  : res (list C) :=
  if Nat.eqb (Datatypes.length a) (Datatypes.length b)
  then Ok (zip_with f a b)
  else match a, b with
       | [x], _ => Ok (map (f x) b)
       | _, [y] => Ok (map (fun x => f x y) a)
       | _, _ => Raise ValueError
       end.

(** [arr[mask] = v] for a boolean [mask], whose length must be that of
    [arr]. *)
Definition mask_assign (arr : list Z) (mask : list bool) (v : Z)
  : res (list Z) :=
  if Nat.eqb (Datatypes.length arr) (Datatypes.length mask)
  then Ok (zip_with (fun x (b : bool) => if b then v else x) arr mask)
  else Raise IndexError.

(** [arr[mask]] for a boolean [mask]. *)
Fixpoint mask_select {A} (arr : list A) (mask : list bool) : list A :=
  match arr, mask with
  | x :: arr', b :: mask' =>
      if b then x :: mask_select arr' mask' else mask_select arr' mask'
  | _, _ => []
  end.

Definition np_mask_select {A} (arr : list A) (mask : list bool)
  : res (list A) :=
  if Nat.eqb (Datatypes.length arr) (Datatypes.length mask)
  then Ok (mask_select arr mask)
  else Raise IndexError.

(** [arr[ix]] for an integer index array [ix]. *)
Definition np_take {A} (arr : list A) (ix : list nat) : res (list A) :=
  of_option IndexError (mapM (fun i => arr !! i) ix).

(** Monadic map: the first failure ends the traversal. *)
Fixpoint mapM_res {A B} (f : A -> res B) (l : list A) : res (list B) :=
  match l with
  | [] => Ok []
  | x :: l' =>
      let* y := f x in
      let* ys := mapM_res f l' in
      Ok (y :: ys)
  end.

(** [int(x)] of a float: truncation toward zero. *)
Definition py_int (x : Q) : Z :=
  if Qle_bool 0 x then Qfloor x else Qceiling x.

(** [x < y] and [x > y] on floats. *)
Definition Qlt_bool (x y : Q) : bool := negb (Qle_bool y x).

(* ===================================================================== *)
(** * variant_caller.py: per-scaffold call data                          *)
(* ===================================================================== *)

(** Modelled from the spec: [utils.lander_waterman] ([strainge/utils.py]
    is not among the sources); the Lander-Waterman estimate
    [1 - exp(-coverage)].  The exponential is the one of the [math]
    library and is taken as a parameter. *)
Definition lander_waterman (exp : Q -> Q) (coverage : Q) : Q :=
  (1 - exp (- coverage))%Q.

(** [scale_min_gap_size]. *)
Definition scale_min_gap_size (exp : Q -> Q) (min_gap : Z)
    (mean_coverage : Q) : Z :=
  let lw := lander_waterman exp mean_coverage in
  if Qlt_bool 0 lw then py_int (inject_Z min_gap / lw)%Q else min_gap.

Module Group.
(** A run of equal values: [data] is the run, [start, end_) its
    half-open interval. *)
Record t := mk {
  start : nat;
  end_ : nat;
  length : nat;
  data : list bool
}.
End Group.

(** Modelled from the spec: [utils.find_consecutive_groups]
    ([strainge/utils.py] is not among the sources): the maximal runs of
    equal values of [array], left to right, of which those of length at
    least [min_size] are kept.  [runs_from start cur n l] closes the run
    of [n] values [cur] that starts at [start] and is followed by [l]. *)
Fixpoint runs_from (start : nat) (cur : bool) (n : nat) (l : list bool)
  : list Group.t :=
  match l with
  | [] => [Group.mk start (start + n) n (replicate n cur)]
  | b :: l' =>
      if Bool.eqb b cur then runs_from start cur (S n) l'
      else Group.mk start (start + n) n (replicate n cur)
           :: runs_from (start + n) b 1 l'
  end.

Definition consecutive_runs (array : list bool) : list Group.t :=
  match array with
  | [] => []
  | b :: l => runs_from 0 b 1 l
  end.

Definition find_consecutive_groups (array : list bool) (min_size : Z)
  : list Group.t :=
  filter (fun g => min_size <= Z.of_nat (Group.length g))
         (consecutive_runs array).

(** [g] is a maximal run of the value [b] in [arr]. *)
Definition is_run (arr : list bool) (b : bool) (g : Group.t) : Prop :=
  Group.data g = replicate (Group.length g) b
  /\ Group.end_ g = (Group.start g + Group.length g)%nat
  /\ (1 <= Group.length g)%nat
  /\ (Group.end_ g <= Datatypes.length arr)%nat
  /\ (forall p : nat,
        (Group.start g <= p < Group.end_ g)%nat -> arr !! p = Some b)
  /\ (Group.start g = 0%nat
      \/ arr !! (Group.start g - 1)%nat = Some (negb b))
  /\ (Group.end_ g = Datatypes.length arr
      \/ arr !! Group.end_ g = Some (negb b)).

(** [numpy.any]. *)
Definition np_any (a : list bool) : bool := existsb id a.

Module ScaffoldCallData.

(** The numpy array [alleles] has shape [(length, 2, 6)]: per
    position, the row of read counts ([alleles[p, 0]]) and the row of
    quality sums ([alleles[p, 1]]), one entry per allele mask. *)
Record t := mk {
  name : string;
  length : Z;
  read_count : Z;
  refmask : list Z;
  alleles : list (list Z * list Z);
  bad : list Z;
  lowmq_count : list Z;
  lowmq : option (list bool);
  mq_sum : list Z;
  strong : option (list Z);
  weak : option (list Z);
  coverage : option (list Z);
  high_coverage : list bool;
  mean_coverage : Q;
  gaps : list Group.t
}.

Definition set_calls (self : t) (w s : list Z) : t :=
  mk (name self) (length self) (read_count self) (refmask self)
     (alleles self) (bad self) (lowmq_count self) (lowmq self)
     (mq_sum self) (Some s) (Some w) (coverage self)
     (high_coverage self) (mean_coverage self) (gaps self).

Definition set_gaps (self : t) (l : list bool) (g : list Group.t) : t :=
  mk (name self) (length self) (read_count self) (refmask self)
     (alleles self) (bad self) (lowmq_count self) (Some l)
     (mq_sum self) (strong self) (weak self) (coverage self)
     (high_coverage self) (mean_coverage self) g.

(** [(flags * ALLELE_MASKS[numpy.newaxis, :]).sum(axis=-1)] on one
    position: a flag counts as 1 or 0. *)
Definition mask_sum (flags : list bool) : Z :=
  np_sum (zip_with (fun (b : bool) m => if b then m else 0)
                   flags Allele.ALLELE_MASKS).

(** One entry of [numpy.divide(quals, qual_sums, where=qual_sums > 0)].
    No [out] array is passed, so where the condition is false the
    entry keeps whatever the fresh output buffer holds: [garbage]. *)
Definition qual_fraction (garbage : Q) (qual qual_sum : Z) : Q :=
  if 0 <? qual_sum then (inject_Z qual / inject_Z qual_sum)%Q
  else garbage.

Definition evidence (quals : list Z) : list bool :=
  map (fun q => 0 <? q) quals.

(** [(quals > min_pileup_qual) & (qual_fraction > min_qual_frac)] on
    one position; [garbage a] is the uninitialised entry of allele
    index [a]. *)
Definition confirmed (garbage : nat -> Q) (min_pileup_qual min_qual_frac : Q)
    (quals : list Z) : list bool :=
  let qual_sum := np_sum quals in
  imap (fun a q =>
          Qlt_bool min_pileup_qual (inject_Z q)
          && Qlt_bool min_qual_frac (qual_fraction (garbage a) q qual_sum))
       quals.

(** [call_alleles]; [garbage p a] is the content of the uninitialised
    output buffer of [numpy.divide] at position [p], allele index [a]. *)
Definition call_alleles (garbage : nat -> nat -> Q) (self : t)
    (min_pileup_qual min_qual_frac : Q) : res t :=
  let quals := map snd (alleles self) in
  let weak := map (fun row => mask_sum (evidence row)) quals in
  let strong :=
    imap (fun p row =>
            mask_sum (confirmed (garbage p) min_pileup_qual
                                min_qual_frac row)) quals in
  let* weak := mask_assign weak (high_coverage self) 0 in
  let* strong := mask_assign strong (high_coverage self) 0 in
  Ok (set_calls self weak strong).

(** The bitwise OR of the masks of the flagged alleles. *)
Definition mask_or (flags : list bool) : Z :=
  foldr Z.lor 0
    (zip_with (fun (b : bool) m => if b then m else 0)
              flags Allele.ALLELE_MASKS).

(** The positions [find_gaps] counts as covered, given the weak calls
    [w]: a weak call, or more than one low-mapping-quality read and
    more of them than good reads. *)
Definition is_covered (self : t) (w : list Z) (p : nat) : bool :=
  (0 <? nth p w 0)
  || ((1 <? nth p (lowmq_count self) 0)
      && (np_sum (fst (nth p (alleles self) ([], [])))
          <? nth p (lowmq_count self) 0)).

(** [g] is a maximal run of uncovered positions of an array of [len]
    positions: nothing in [start, end_) is covered, and the run cannot
    be extended on either side. *)
Definition maximal_uncovered_run (covered : nat -> bool) (len : nat)
    (g : Group.t) : Prop :=
  (Group.start g < Group.end_ g <= len)%nat
  /\ Group.length g = (Group.end_ g - Group.start g)%nat
  /\ (forall p : nat,
        (Group.start g <= p < Group.end_ g)%nat -> covered p = false)
  /\ (Group.start g = 0%nat \/ covered (Group.start g - 1)%nat = true)
  /\ (Group.end_ g = len \/ covered (Group.end_ g) = true).

(** [find_gaps].  Before [call_alleles] has run [self.weak] is [None]
    and the comparison [self.weak > 0] raises. *)
Definition find_gaps (exp : Q -> Q) (self : t) (min_size : Z) : res t :=
  let min_size := scale_min_gap_size exp min_size (mean_coverage self) in
  let depth := map (fun pos => np_sum (fst pos)) (alleles self) in
  let* lowmq :=
    np_zip (fun c d => (1 <? c) && (d <? c)) (lowmq_count self) depth in
  let* weak := of_option TypeError (weak self) in
  let* covered_array :=
    np_zip (fun w (l : bool) => (0 <? w) || l) weak lowmq in
  Ok (set_gaps self lowmq
        (filter (fun g => negb (np_any (Group.data g)))
                (find_consecutive_groups covered_array min_size))).

(** Shapes fixed by [__init__]: [length] positions everywhere, six
    alleles per row; cells are unsigned. *)
Definition wf (self : t) : Prop :=
  Datatypes.length (alleles self) = Z.to_nat (length self)
  /\ Datatypes.length (lowmq_count self) = Z.to_nat (length self)
  /\ Datatypes.length (high_coverage self) = Z.to_nat (length self)
  /\ Forall (fun pos => Datatypes.length (fst pos) = 6%nat
                        /\ Datatypes.length (snd pos) = 6%nat
                        /\ Forall (fun c => 0 <= c) (fst pos)
                        /\ Forall (fun q => 0 <= q) (snd pos))
            (alleles self).

End ScaffoldCallData.

(* ===================================================================== *)
(** * The kmerizer extension                                             *)
(* ===================================================================== *)

Module kmerizer.

(** Modelled from the spec: [kmerizer.intersect] (the C++ extension
    [strainge.kmerizer] is not among the sources): those elements of
    [a] present in [b], in [a]'s order. *)
Definition intersect (a b : list Z) : list Z :=
  filter (fun x => x ∈ b) a.

(** Modelled from the spec: [kmerizer.intersect_ix]: the companion of
    [intersect] that returns the indices into [a]. *)
Fixpoint intersect_ix_from (i : nat) (a b : list Z) : list nat :=
  match a with
  | [] => []
  | x :: a' =>
      if decide (x ∈ b) then i :: intersect_ix_from (S i) a' b
      else intersect_ix_from (S i) a' b
  end.

Definition intersect_ix (a b : list Z) : list nat :=
  intersect_ix_from 0 a b.

(** Modelled from the spec: [kmerizer.diff]: the elements of [a] not in
    [b], in [a]'s order. *)
Definition diff (a b : list Z) : list Z :=
  filter (fun x => x ∉ b) a.

(** Modelled from the spec: [kmerizer.count_common]: the number of
    common elements, by one walk over the two sorted arrays. *)
Fixpoint count_common (a : list Z) : list Z -> Z :=
  fix walk (b : list Z) : Z :=
    match a, b with
    | x :: a', y :: b' =>
        if x =? y then 1 + count_common a' b'
        else if x <? y then count_common a' b
        else walk b'
    | _, _ => 0
    end.

End kmerizer.

(* ===================================================================== *)
(** * kmertools.py: KmerSet                                              *)
(* ===================================================================== *)

(** [round(x)] of a float: to the nearest integer, halves to the even
    one. *)
Definition py_round (x : Q) : Z :=
  let f := Qfloor x in
  let r := (x - inject_Z f)%Q in
  if Qlt_bool r (1 # 2) then f
  else if Qlt_bool (1 # 2) r then f + 1
  else if Z.even f then f else f + 1.

(** [l[:n]]: a negative [n] counts from the end. *)
Definition py_slice_to {A} (l : list A) (n : Z) : list A :=
  if 0 <=? n then take (Z.to_nat n) l
  else take (Z.to_nat (Z.of_nat (Datatypes.length l) + n)) l.

(** [l[i]] for a Python integer [i]: a negative [i] counts from the
    end. *)
Definition py_index (l : list Z) (i : Z) : res Z :=
  let n := Z.of_nat (Datatypes.length l) in
  if (0 <=? i) && (i <? n) then of_option IndexError (l !! Z.to_nat i)
  else if (- n <=? i) && (i <? 0)
       then of_option IndexError (l !! Z.to_nat (n + i))
       else Raise IndexError.

(** Run-length encoding of a list: the values and how often each occurs
    in a row. *)
Fixpoint rle_from (cur : Z) (n : Z) (l : list Z) : list (Z * Z) :=
  match l with
  | [] => [(cur, n)]
  | x :: l' =>
      if x =? cur then rle_from cur (n + 1) l'
      else (cur, n) :: rle_from x 1 l'
  end.

(** [numpy.unique(a, return_counts=True)]: the sorted distinct values of
    [a] and the number of times each occurs. *)
Definition np_unique_counts (a : list Z) : list Z * list Z :=
  match merge_sort Z.le a with
  | [] => ([], [])
  | x :: l => let r := rle_from x 1 l in (map fst r, map snd r)
  end.

(** [BASES = "ACGT"], and [BASES[i]] for an index that is masked to
    two bits. *)
Definition BASES : string := "ACGT".

Definition BASES_at (i : Z) : Ascii.ascii :=
  match String.get (Z.to_nat i) BASES with
  | Some c => c
  | None => Ascii.zero
  end.

(** [(kmer >> (2 * j)) & 3]: the 2-bit field [j] of a k-mer. *)
Definition kmer_field (kmer j : Z) : Z := Z.land (Z.shiftr kmer (2 * j)) 3.

(** [kmer_string(k, kmer)]: the bases of the 2-bit fields [k - 1] down
    to 0. *)
Definition kmer_string (k kmer : Z) : string :=
  String.string_of_list_ascii
    (map (fun j => BASES_at (kmer_field kmer j)) (reverse (seqZ 0 k))).

(** What a call that can fail an [assert] comes to. *)
Inductive outcome (A : Type) : Type :=
| Returns (a : A)
| Raises (e : exn)
| AssertionError.
Arguments Returns {A} a.
Arguments Raises {A} e.
Arguments AssertionError {A}.

(** [x / y] on Python floats, as an [outcome]. *)
Definition float_div (x y : Q) : outcome Q :=
  if Qeq_bool y 0 then Raises ZeroDivisionError else Returns (x / y)%Q.

Definition Qsize {A} (l : list A) : Q := inject_Z (Z.of_nat (Datatypes.length l)).

(** [min] and [max] of two sizes. *)
Definition size_min {A} (a b : list A) : Q :=
  inject_Z (Z.min (Z.of_nat (Datatypes.length a)) (Z.of_nat (Datatypes.length b))).
Definition size_max {A} (a b : list A) : Q :=
  inject_Z (Z.max (Z.of_nat (Datatypes.length a)) (Z.of_nat (Datatypes.length b))).

(** [similarity_score]; [count_common] is [kmerizer.count_common], a
    parameter. *)
Definition similarity_score (count_common : list Z -> list Z -> Z)
    (kmers1 kmers2 : list Z) (scoring : string) : outcome Q :=
  let intersection := inject_Z (count_common kmers1 kmers2) in
  if String.eqb scoring "jaccard" then
    float_div intersection (Qsize kmers1 + Qsize kmers2 - intersection)
  else if String.eqb scoring "minsize" then
    float_div intersection (size_min kmers1 kmers2)
  else if String.eqb scoring "meansize" then
    float_div intersection ((Qsize kmers1 + Qsize kmers2) / 2)
  else if String.eqb scoring "maxsize" then
    float_div intersection (size_max kmers1 kmers2)
  else if String.eqb scoring "reference" then
    float_div intersection (Qsize kmers2)
  else AssertionError.

(** [similarity_numerator_denominator]: it has no branch for
    ["meansize"]. *)
Definition similarity_numerator_denominator
    (count_common : list Z -> list Z -> Z)
    (kmers1 kmers2 : list Z) (scoring : string) : outcome (Q * Q) :=
  let intersection := inject_Z (count_common kmers1 kmers2) in
  if String.eqb scoring "jaccard" then
    Returns (intersection, Qsize kmers1 + Qsize kmers2 - intersection)%Q
  else if String.eqb scoring "minsize" then
    Returns (intersection, size_min kmers1 kmers2)
  else if String.eqb scoring "maxsize" then
    Returns (intersection, size_max kmers1 kmers2)
  else if String.eqb scoring "reference" then
    Returns (intersection, Qsize kmers2)
  else AssertionError.

(** [a[i]] for an index [i] that the loop keeps within range. *)
Definition np_at (a : list Z) (i : nat) : Z := nth i a 0.

Module KmerSet.

Record t := mk {
  k : Z;
  kmers : list Z;
  counts : list Z;
  fingerprint : option (list Z);
  singletons : option Z;
  n_seqs : Z;
  n_bases : Z;
  n_kmers : Z
}.

Definition set_arrays (self : t) (new_kmers new_counts : list Z) : t :=
  mk (k self) new_kmers new_counts (fingerprint self) (singletons self)
     (n_seqs self) (n_bases self) (n_kmers self).

Definition set_fingerprint (self : t) (fp : list Z) : t :=
  mk (k self) (kmers self) (counts self) (Some fp) (singletons self)
     (n_seqs self) (n_bases self) (n_kmers self).

(** [KmerSet.intersect]. *)
Definition intersect (self : t) (other_kmers : list Z) : res t :=
  let ix := kmerizer.intersect_ix (kmers self) other_kmers in
  let* new_counts := np_take (counts self) ix in
  let* new_kmers := np_take (kmers self) ix in
  Ok (set_arrays self new_kmers new_counts).

(** [KmerSet.exclude]. *)
Definition exclude (self : t) (other_kmers : list Z) : res t :=
  let new_kmers := kmerizer.diff (kmers self) other_kmers in
  let ix := kmerizer.intersect_ix (kmers self) new_kmers in
  let* new_counts := np_take (counts self) ix in
  Ok (set_arrays self new_kmers new_counts).

(** [KmerSet.mutual_intersect]: both sets are modified; the pair is
    [(self, other)] afterwards. *)
Definition mutual_intersect (self other : t) : res (t * t) :=
  let ix := kmerizer.intersect_ix (kmers self) (kmers other) in
  let* self_kmers := np_take (kmers self) ix in
  let* self_counts := np_take (counts self) ix in
  let self' := set_arrays self self_kmers self_counts in
  let ix := kmerizer.intersect_ix (kmers other) (kmers self') in
  let* other_kmers := np_take (kmers other) ix in
  let* other_counts := np_take (counts other) ix in
  Ok (self', set_arrays other other_kmers other_counts).

(** [KmerSet.freq_filter(min_freq=1, max_freq=None)]; [if max_freq:]
    is false for [None] and for [0]. *)
Definition freq_filter (self : t) (min_freq : Z) (max_freq : option Z)
  : res t :=
  let condition := map (fun c => min_freq <=? c) (counts self) in
  let condition :=
    match max_freq with
    | Some m =>
        if m =? 0 then condition
        else zip_with andb condition (map (fun c => c <=? m) (counts self))
    | None => condition
    end in
  let* new_kmers := np_mask_select (kmers self) condition in
  let* new_counts := np_mask_select (counts self) condition in
  Ok (set_arrays self new_kmers new_counts).

(** [KmerSet.min_hash].  [fnvhash_kmers] is the hash of the C++
    extension and [argsort] numpy's (unstable) index sort; both are
    parameters. *)
Definition min_hash (fnvhash_kmers : Z -> list Z -> list Z)
    (argsort : list Z -> list nat) (self : t) (frac : Q)
  : res (t * list Z) :=
  let nkmers :=
    py_round (inject_Z (Z.of_nat (Datatypes.length (kmers self))) * frac)%Q in
  let order :=
    py_slice_to (argsort (fnvhash_kmers (k self) (kmers self))) nkmers in
  let* selected := np_take (kmers self) order in
  let fp := merge_sort Z.le selected in
  Ok (set_fingerprint self fp, fp).

(** [KmerSet.spectrum]. *)
Definition spectrum (self : t) : list Z * list Z :=
  np_unique_counts (counts self).

(** The local variables of [spectrum_min_max]; [i] is the loop
    variable, which keeps its last value after the loop. *)
Record smm_state := mk_smm {
  min_index : nat;
  max_index : nat;
  have_min : bool;
  have_max : bool;
  last_freq : Z;
  i : nat
}.

(** The [for i in range(freq.size)] loop over the remaining indices
    [idx]; a [break] returns the state with [i] at the index where the
    loop stopped. *)
Fixpoint smm_loop (freq cnts : list Z) (delta : Q) (max_copy_number : Z)
    (st : smm_state) (idx : list nat) : smm_state :=
  match idx with
  | [] => st
  | i :: rest =>
      let count := np_at cnts i in
      let zero := last_freq st + 1 <? np_at freq i in
      if have_max st
         && (zero || (np_at freq (max_index st) * max_copy_number
                      <? np_at freq i))
      then mk_smm (min_index st) (max_index st) (have_min st)
                  (have_max st) (last_freq st) i
      else
        let st' :=
          if have_min st then
            let max_index' :=
              if np_at cnts (max_index st) <? count then i
              else max_index st in
            let have_max' :=
              if Qlt_bool (inject_Z count)
                   (inject_Z (np_at cnts max_index') * (1 - delta))%Q
              then true else have_max st in
            mk_smm (min_index st) max_index' true have_max'
                   (np_at freq i) i
          else if (1000 <? count)
                  && Qlt_bool
                       (inject_Z (np_at cnts (min_index st)) * (1 + delta))%Q
                       (inject_Z count)
          then mk_smm (min_index st) (max_index st) true (have_max st)
                      (np_at freq i) i
          else if zero || (count <? np_at cnts (min_index st))
          then mk_smm i i false (have_max st) (np_at freq i) i
          else if np_at cnts i <? np_at cnts (min_index st)
          then mk_smm i i false (have_max st) (np_at freq i) i
          else mk_smm (min_index st) (max_index st) false (have_max st)
                      (np_at freq i) i in
        smm_loop freq cnts delta max_copy_number st' rest
  end.

Definition smm_init : smm_state := mk_smm 0 0 false false 0 0.

(** The tail of [spectrum_min_max]: the test and the returned
    triple.  [min_index and max_index] is false when either is 0. *)
Definition smm_result (freq cnts : list Z) (delta : Q) (st : smm_state)
  : res (option (Z * Z * Z)) :=
  if negb (Nat.eqb (min_index st) 0) && negb (Nat.eqb (max_index st) 0)
     && Qlt_bool (inject_Z (np_at cnts (min_index st)) * (1 + delta))%Q
                 (inject_Z (np_at cnts (max_index st)))
  then
    let* lo := py_index freq (Z.of_nat (min_index st)) in
    let* hi := py_index freq (Z.of_nat (max_index st)) in
    let* up := py_index freq (Z.of_nat (i st) - 1) in
    Ok (Some (lo, hi, up))
  else Ok None.

(** [spectrum_min_max] on a given spectrum. *)
Definition spectrum_min_max_of (freq cnts : list Z) (delta : Q)
    (max_copy_number : Z) : res (option (Z * Z * Z)) :=
  smm_result freq cnts delta
    (smm_loop freq cnts delta max_copy_number smm_init
              (seq 0 (Datatypes.length freq))).

(** [KmerSet.spectrum_min_max(delta=.5, max_copy_number=20)]. *)
Definition spectrum_min_max (self : t) (delta : Q) (max_copy_number : Z)
  : res (option (Z * Z * Z)) :=
  let '(freq, cnts) := spectrum self in
  spectrum_min_max_of freq cnts delta max_copy_number.

(** A spectrum without an error valley: no entry above 1000 exceeds
    [(1 + delta)] times an earlier one. *)
Definition no_error_valley (cnts : list Z) (delta : Q) : Prop :=
  forall i j : nat,
    (j < i < Datatypes.length cnts)%nat ->
    ~ (1000 < np_at cnts i
       /\ (inject_Z (np_at cnts j) * (1 + delta) < inject_Z (np_at cnts i))%Q).

(** [KmerSet.prune_singletons]; the field [singletons] is not
    touched. *)
Definition prune_singletons (self : t) : res t :=
  let keepers := map (fun c => 1 <? c) (counts self) in
  let* new_kmers := np_mask_select (kmers self) keepers in
  let* new_counts := np_mask_select (counts self) keepers in
  Ok (set_arrays self new_kmers new_counts).

(** [KmerSet.kmerize_seq]; [kmerize] is the k-mer scanner of the C++
    extension, a parameter.  [n_kmers] is assigned, not added to. *)
Definition kmerize_seq (kmerize : Z -> string -> list Z) (self : t)
    (seq : string) : t :=
  let found := kmerize (k self) seq in
  let '(new_kmers, new_counts) := np_unique_counts found in
  mk (k self) new_kmers new_counts (fingerprint self) (singletons self)
     (n_seqs self + 1) (n_bases self + Z.of_nat (String.length seq))
     (Z.of_nat (Datatypes.length found)).

(** [KmerSet.spectrum_filter(max_copy_number=20)]: the thresholds are
    taken with the defaults of [spectrum_min_max], whatever
    [max_copy_number] is; a triple is always true in [if thresholds:].
    Returns the set and the thresholds. *)
Definition spectrum_filter (self : t) (max_copy_number : Z)
  : res (t * option (Z * Z * Z)) :=
  let* thresholds := spectrum_min_max self (1 # 2) 20 in
  match thresholds with
  | Some (lo, _, up) =>
      let* self' := freq_filter self lo (Some up) in
      Ok (self', thresholds)
  | None => Ok (self, thresholds)
  end.

(** The invariants (K-1), (K-2), (K-3). *)
Definition inv (self : t) : Prop :=
  Datatypes.length (kmers self) = Datatypes.length (counts self)
  /\ StronglySorted Z.lt (kmers self)
  /\ Forall (fun c => 1 <= c) (counts self).

(** The condition of [freq_filter] on one count: [if max_freq:] skips
    the upper bound for [None] and for 0. *)
Definition in_freq_range (min_freq : Z) (max_freq : option Z) (c : Z) : bool :=
  (min_freq <=? c)
  && match max_freq with
     | Some m => (m =? 0) || (c <=? m)
     | None => true
     end.

End KmerSet.

(* ===================================================================== *)
(** * search_tool.py                                                     *)
(* ===================================================================== *)

(** [x / y] where both are numpy scalars (or one is): a zero divisor
    leaves the rational model. *)
Definition np_div (x y : Q) : res Q :=
  if Qeq_bool y 0 then Raise NumpyNonFinite else Ok (x / y)%Q.

(** [x / y] on Python numbers. *)
Definition py_div (x y : Q) : res Q :=
  if Qeq_bool y 0 then Raise ZeroDivisionError else Ok (x / y)%Q.

(** [min(x, y)] on floats: [y] when [y < x], else [x]. *)
Definition py_min (x y : Q) : Q := if Qlt_bool y x then y else x.

(** [numpy.median]: the middle of the sorted values, the mean of the two
    middle ones for an even number of them; [nan] for none. *)
Definition np_median (a : list Z) : res Q :=
  let s := merge_sort Z.le a in
  let n := Datatypes.length s in
  if Nat.eqb n 0 then Raise NumpyNonFinite
  else if Nat.odd n then Ok (inject_Z (np_at s (n / 2)))
  else Ok ((inject_Z (np_at s (n / 2 - 1)) + inject_Z (np_at s (n / 2))) / 2)%Q.

Definition Zlen {A} (l : list A) : Z := Z.of_nat (Datatypes.length l).

Module Sample.
(** [class Sample(KmerSet)]: the k-mer set and the totals recorded
    when the sample was loaded. *)
Record t := mk {
  base : KmerSet.t;
  name : string;
  total_kmers : Z;
  distinct_kmers : Z
}.

Definition set_base (self : t) (b : KmerSet.t) : t :=
  mk b (name self) (total_kmers self) (distinct_kmers self).

Definition kmers (self : t) := KmerSet.kmers (base self).
Definition counts (self : t) := KmerSet.counts (base self).

(** The tail of [Sample.__init__], once the arrays are loaded. *)
Definition init (name : string) (b : KmerSet.t) : t :=
  mk b name (np_sum (KmerSet.counts b)) (Zlen (KmerSet.kmers b)).
End Sample.

Module StrainKmerSet.
(** [class StrainKmerSet(KmerSet)]. *)
Record t := mk {
  base : KmerSet.t;
  name : string;
  distinct_kmers : Z;
  total_kmers : Z
}.

Definition set_base (self : t) (b : KmerSet.t) : t :=
  mk b (name self) (distinct_kmers self) (total_kmers self).

Definition kmers (self : t) := KmerSet.kmers (base self).
Definition counts (self : t) := KmerSet.counts (base self).
End StrainKmerSet.

Module H5Group.
(** A group of an HDF5 file, as far as [KmerSet.load_hdf5] reads it:
    the attributes [type], [k] and [nSeqs] and the datasets
    [fingerprint], [kmers] and [counts]; each of them may be missing. *)
Record t := mk {
  attr_type : option string;
  attr_k : option Z;
  attr_nSeqs : option Z;
  fingerprint : option (list Z);
  kmers : option (list Z);
  counts : option (list Z)
}.
End H5Group.

(** [KmerSet.save_hdf5]: the group written for a k-mer set that has
    its arrays. *)
Definition save_hdf5 (self : KmerSet.t) : H5Group.t :=
  H5Group.mk (Some "KmerSet"%string) (Some (KmerSet.k self))
             (Some (KmerSet.n_seqs self)) (KmerSet.fingerprint self)
             (Some (KmerSet.kmers self)) (Some (KmerSet.counts self)).

Module PanGenome.
(** [class PanGenome(KmerSet)]: the union set, the members of the HDF5
    file by name, and the cache of loaded strains.  No attribute
    [fingerprint_fraction] is ever assigned, and [__init__] itself fails
    in fingerprint mode (it calls [fingerprint_override]), so
    [use_fingerprint] is true only where it is set afterwards. *)
Record t := mk {
  base : KmerSet.t;
  h5 : gmap string H5Group.t;
  strain_names : list string;
  strainCache : gmap string StrainKmerSet.t;
  use_fingerprint : bool
}.

Definition kmers (self : t) := KmerSet.kmers (base self).
Definition counts (self : t) := KmerSet.counts (base self).

Definition set_cache (self : t) (c : gmap string StrainKmerSet.t) : t :=
  mk (base self) (h5 self) (strain_names self) c (use_fingerprint self).
End PanGenome.

(** [StrainKmerSet.__init__(pan, name)].  [pan.h5[name]] raises
    [KeyError] for an unknown name; [load_hdf5] reads the attribute
    [type] ([KeyError] when missing, [ValueError] when it is not
    KmerSet) and [k], and the datasets that exist, the other arrays
    staying [None].  In fingerprint mode [fingerprint_override] is
    called, a method that no class defines: [AttributeError].  Then
    [self.kmers.size] and [self.counts.sum()] raise [AttributeError]
    on an array that is [None]. *)
Definition StrainKmerSet_init (pan : PanGenome.t) (name : string)
  : res StrainKmerSet.t :=
  let* group := of_option KeyError (PanGenome.h5 pan !! name) in
  let* type := of_option KeyError (H5Group.attr_type group) in
  if negb (String.eqb type "KmerSet") then Raise ValueError
  else
    let* k := of_option KeyError (H5Group.attr_k group) in
    let n_seqs := default 0 (H5Group.attr_nSeqs group) in
    if PanGenome.use_fingerprint pan then Raise AttributeError
    else
      let* kmers := of_option AttributeError (H5Group.kmers group) in
      let* counts := of_option AttributeError (H5Group.counts group) in
      Ok (StrainKmerSet.mk
            (KmerSet.mk k kmers counts (H5Group.fingerprint group) None
                        n_seqs 0 0)
            name (Zlen kmers) (np_sum counts)).

Module StrainGSTResult.
Record t (S : Type) := mk {
  pan_kmers : Z;
  pan_kcov : Q;
  pan_pct : Q;
  strains : list (string * S)
}.
Arguments mk {S}.
Arguments pan_kmers {S}.
Arguments pan_kcov {S}.
Arguments pan_pct {S}.
Arguments strains {S}.
End StrainGSTResult.

Module Strain.
(** [Strain = namedtuple('Strain', ...)]. *)
Record t := mk {
  strain : string;
  gkmers : Z;
  ikmers : Z;
  skmers : Z;
  cov : Q;
  kcov : Q;
  gcov : Q;
  acct : Q;
  even : Q;
  wcov : Q;
  spec : Q;
  score0 : Q;
  score : Q
}.
End Strain.

Module StrainGST.

(** The configuration held by a [StrainGST] object; the pan-genome it
    refers to is passed next to it, since scoring updates its cache. *)
Record t := mk {
  use_fingerprint : bool;
  iterations : nat;
  top : nat;
  min_score : Q;
  min_evenness : Q;
  min_frac : Q;
  min_acct : Q;
  universal : Q
}.

(** The head of [find_close_references], up to the construction of
    [result]: the sample is reduced to the pan-genome, the k-mers above
    the universal limit are excluded, and the metrics are taken.  The
    iteration loop that follows appends to [result.strains] only.
    Returns the sample, [excludes] and [result].  In fingerprint mode
    the percentage is to be divided by [pangenome.fingerprint_fraction],
    an attribute that is never assigned: [AttributeError]. *)
Definition find_close_references_head (self : t) (pan : PanGenome.t)
    (sample : Sample.t)
  : res (Sample.t * list Z * StrainGSTResult.t Strain.t) :=
  let* s := KmerSet.intersect (Sample.base sample) (PanGenome.kmers pan) in
  let sample := Sample.set_base sample s in
  let* median := np_median (Sample.counts sample) in
  let universal_limit := (median * universal self)%Q in
  let* excludes :=
    np_mask_select (Sample.kmers sample)
      (map (fun c => Qlt_bool universal_limit (inject_Z c))
           (Sample.counts sample)) in
  let* s := KmerSet.exclude (Sample.base sample) excludes in
  let sample := Sample.set_base sample s in
  let sample_pan_kmers := np_sum (Sample.counts sample) in
  let* sample_pan_kcov :=
    np_div (inject_Z sample_pan_kmers) (inject_Z (Zlen (Sample.kmers sample))) in
  let* sample_pan_pct :=
    np_div (inject_Z sample_pan_kmers * 100)
           (inject_Z (Sample.total_kmers sample)) in
  let* sample_pan_pct :=
    if use_fingerprint self
    then Raise AttributeError
    else Ok sample_pan_pct in
  Ok (sample, excludes,
      StrainGSTResult.mk (Zlen (Sample.kmers sample)) sample_pan_kcov
                         sample_pan_pct []).



(** The k-mers of a strain that are left once [excludes] is taken
    out. *)
Definition strain_left (strain : StrainKmerSet.t)
    (excludes : option (list Z)) : list Z :=
  match excludes with
  | Some e => kmerizer.diff (StrainKmerSet.kmers strain) e
  | None => StrainKmerSet.kmers strain
  end.

(** The counts of these k-mers. *)
Definition counts_left (strain : StrainKmerSet.t)
    (excludes : option (list Z)) : list Z :=
  match excludes with
  | Some e =>
      mask_select (StrainKmerSet.counts strain)
                  (map (fun x => bool_decide (x ∉ e))
                       (StrainKmerSet.kmers strain))
  | None => StrainKmerSet.counts strain
  end.

(** The sum of the counts of the sample k-mers that are among
    [keys]. *)
Definition sample_count_on (sample : Sample.t) (keys : list Z) : Z :=
  np_sum
    ((List.filter (fun kc => bool_decide (fst kc ∈ keys))
                  (zip (Sample.kmers sample) (Sample.counts sample))).*2).

Section Scoring.

(** [math.exp]. *)
Variable exp : Q -> Q.

(** [PanGenome.load_strain]: the cached object if there is one,
    else a new [StrainKmerSet], which then enters the cache. *)
Definition load_strain (pan : PanGenome.t) (name : string)
  : res (PanGenome.t * StrainKmerSet.t) :=
  match PanGenome.strainCache pan !! name with
  | Some strain => Ok (pan, strain)
  | None =>
      let* strain := StrainKmerSet_init pan name in
      Ok (PanGenome.set_cache pan
            (<[name := strain]> (PanGenome.strainCache pan)), strain)
  end.

(** The metrics of [score_strain], from the comparison of
    [accounted] with [min_acct] on. *)
Definition score_metrics (self : t) (strain_name : string)
    (strain_kmerset : StrainKmerSet.t) (sample : Sample.t)
    (kmers counts pan_counts sample_counts : list Z) (accounted : Q)
  : res Strain.t :=
  let sample_count := np_sum sample_counts in
  let* covered :=
    py_div (inject_Z (Zlen kmers))
           (inject_Z (Zlen (StrainKmerSet.kmers strain_kmerset))) in
  let* kmer_coverage :=
    np_div (inject_Z sample_count) (inject_Z (Zlen sample_counts)) in
  let* genome_coverage :=
    np_div (inject_Z sample_count)
           (inject_Z (np_sum (StrainKmerSet.counts strain_kmerset))) in
  let est_covered := (1 - exp (- genome_coverage))%Q in
  let* evenness := py_div covered est_covered in
  let* inv_evenness := py_div 1 evenness in
  let score := (covered * accounted * py_min evenness inv_evenness)%Q in
  let* weights := mapM_res (fun c => np_div 1 (inject_Z c)) pan_counts in
  let* strain_w := np_zip (fun c w => (inject_Z c * w)%Q) counts weights in
  let strain_total_weight := np_sumQ strain_w in
  let* sample_w :=
    np_zip (fun c w => (inject_Z c * w)%Q) sample_counts weights in
  let sample_total_weight := np_sumQ sample_w in
  let* weighted_coverage :=
    np_div sample_total_weight strain_total_weight in
  let* strain_mean_weight :=
    np_div strain_total_weight (inject_Z (np_sum counts)) in
  let* sample_mean_weight :=
    np_div sample_total_weight (inject_Z sample_count) in
  let* specificity := np_div sample_mean_weight strain_mean_weight in
  let* inv_specificity := np_div 1 specificity in
  let weighted_score := (score * py_min specificity inv_specificity)%Q in
  Ok (Strain.mk strain_name
        (StrainKmerSet.distinct_kmers strain_kmerset)
        (Zlen (StrainKmerSet.kmers strain_kmerset))
        (Zlen (Sample.kmers sample))
        covered kmer_coverage genome_coverage accounted evenness
        weighted_coverage specificity score weighted_score).

(** [StrainGST.score_strain].  The strain object is the cached one,
    so the exclusion is written back to the cache; the new
    pan-genome is returned with the score. *)
Definition score_strain (self : t) (pan : PanGenome.t)
    (strain_name : string) (sample : Sample.t)
    (excludes : option (list Z))
  : res (PanGenome.t * option Strain.t) :=
  let* '(pan, strain_kmerset) := load_strain pan strain_name in
  let* strain_kmerset :=
    match excludes with
    | Some e =>
        let* b := KmerSet.exclude (StrainKmerSet.base strain_kmerset) e in
        Ok (StrainKmerSet.set_base strain_kmerset b)
    | None => Ok strain_kmerset
    end in
  let pan :=
    PanGenome.set_cache pan
      (<[strain_name := strain_kmerset]> (PanGenome.strainCache pan)) in
  if Qlt_bool (inject_Z (Zlen (StrainKmerSet.kmers strain_kmerset)))
              (min_frac self
               * inject_Z (StrainKmerSet.distinct_kmers strain_kmerset))%Q
  then Ok (pan, None)
  else
    let ix :=
      kmerizer.intersect_ix (PanGenome.kmers pan)
                            (StrainKmerSet.kmers strain_kmerset) in
    let* strain_pan_counts := np_take (PanGenome.counts pan) ix in
    let kmers :=
      kmerizer.intersect (StrainKmerSet.kmers strain_kmerset)
                         (Sample.kmers sample) in
    if Nat.eqb (Datatypes.length kmers) 0 then Ok (pan, None)
    else
      let ix :=
        kmerizer.intersect_ix (StrainKmerSet.kmers strain_kmerset) kmers in
      let* counts := np_take (StrainKmerSet.counts strain_kmerset) ix in
      let* pan_counts := np_take strain_pan_counts ix in
      let ix := kmerizer.intersect_ix (Sample.kmers sample) kmers in
      let* sample_counts := np_take (Sample.counts sample) ix in
      let sample_count := np_sum sample_counts in
      let* accounted :=
        np_div (inject_Z sample_count)
               (inject_Z (np_sum (Sample.counts sample))) in
      if Qlt_bool accounted (min_acct self) then Ok (pan, None)
      else
        let* r :=
          score_metrics self strain_name strain_kmerset sample kmers
                        counts pan_counts sample_counts accounted in
        Ok (pan, Some r).

(** The scores of all of [strains], in their order; every call goes
    through the cache of the pan-genome. *)
Fixpoint score_all (self : t) (pan : PanGenome.t) (strains : list string)
    (sample : Sample.t) (excludes : list Z)
  : res (PanGenome.t * list (option Strain.t)) :=
  match strains with
  | [] => Ok (pan, [])
  | strain :: rest =>
      let* '(pan, s) := score_strain self pan strain sample (Some excludes) in
      let* '(pan, ss) := score_all self pan rest sample excludes in
      Ok (pan, s :: ss)
  end.

(** [s for s in iter if s is not None and s.even >= self.min_evenness]. *)
Definition even_scores (self : t) (scored : list (option Strain.t))
  : list Strain.t :=
  List.filter (fun s => Qle_bool (min_evenness self) (Strain.even s))
              (omap id scored).

(** [strain_scores.sort(key=lambda e: e.score, reverse=True)]: the
    sort is stable, so records with equal scores keep their order. *)
Fixpoint insert_by_score (x : Strain.t) (l : list Strain.t) : list Strain.t :=
  match l with
  | [] => [x]
  | y :: l' =>
      if Qlt_bool (Strain.score x) (Strain.score y)
      then y :: insert_by_score x l'
      else x :: l
  end.

Definition sort_by_score (l : list Strain.t) : list Strain.t :=
  foldr insert_by_score [] l.

(** [str(i) if self.top == 1 else f"{i}.{t}"]. *)
Definition pos (top i t : nat) : string :=
  if Nat.eqb top 1 then pretty i
  else pretty i +:+ "." +:+ pretty t.

(** The [for i in range(self.iterations)] loop of
    [find_close_references], with [n] iterations left; a [break]
    returns at once.  The debug file is left out
    ([debug_hdf5 = None]). *)
Fixpoint find_close_references_loop (self : t) (strains : list string)
    (n i : nat) (pan : PanGenome.t) (sample : Sample.t) (excludes : list Z)
    (result : StrainGSTResult.t Strain.t)
  : res (PanGenome.t * Sample.t * StrainGSTResult.t Strain.t) :=
  match n with
  | O => Ok (pan, sample, result)
  | S n' =>
      let* '(pan, scored) := score_all self pan strains sample excludes in
      let strain_scores := sort_by_score (even_scores self scored) in
      match strain_scores with
      | [] => Ok (pan, sample, result)
      | winner :: _ =>
          if Qlt_bool (Strain.score winner) (min_score self)
          then Ok (pan, sample, result)
          else
            let result :=
              StrainGSTResult.mk
                (StrainGSTResult.pan_kmers result)
                (StrainGSTResult.pan_kcov result)
                (StrainGSTResult.pan_pct result)
                (StrainGSTResult.strains result
                 ++ imap (fun t s => (pos (top self) i t, s))
                         (take (top self) strain_scores)) in
            let* '(pan, winning_strain) :=
              load_strain pan (Strain.strain winner) in
            let excludes := StrainKmerSet.kmers winning_strain in
            let* s := KmerSet.exclude (Sample.base sample) excludes in
            find_close_references_loop self strains n' (S i) pan
              (Sample.set_base sample s) excludes result
      end
  end.

(** [score_strains or self.pangenome.strain_names]: the strain names
    of the pan-genome for [None] and for an empty list. *)
Definition scored_strains (pan : PanGenome.t)
    (score_strains : option (list string)) : list string :=
  match score_strains with
  | Some (name :: rest) => name :: rest
  | _ => PanGenome.strain_names pan
  end.

(** [StrainGST.find_close_references(sample, score_strains=None)].
    Returns the pan-genome and the sample as they are left, and the
    result. *)
Definition find_close_references (self : t) (pan : PanGenome.t)
    (sample : Sample.t) (score_strains : option (list string))
  : res (PanGenome.t * Sample.t * StrainGSTResult.t Strain.t) :=
  let strains := scored_strains pan score_strains in
  let* '(sample, excludes, result) :=
    find_close_references_head self pan sample in
  find_close_references_loop self strains (iterations self) 0 pan sample
                             excludes result.

(** The data model of the search: the pan-genome set satisfies the
    invariants, every strain to score is a group of the file or in the
    cache, and every strain, as it is read from the file or as it is
    cached, satisfies the invariants and has its k-mers among those of
    the pan-genome (so every group of the file can be read). *)
Definition strain_in_model (pan : PanGenome.t) (b : KmerSet.t) : Prop :=
  KmerSet.inv b
  /\ forall x, x ∈ KmerSet.kmers b -> x ∈ PanGenome.kmers pan.

Definition data_model (pan : PanGenome.t) (strains : list string) : Prop :=
  KmerSet.inv (PanGenome.base pan)
  /\ (forall name, name ∈ strains ->
        is_Some (PanGenome.h5 pan !! name)
        \/ is_Some (PanGenome.strainCache pan !! name))
  /\ (forall name, is_Some (PanGenome.h5 pan !! name) ->
        exists s : StrainKmerSet.t,
          StrainKmerSet_init pan name = Ok s
          /\ strain_in_model pan (StrainKmerSet.base s))
  /\ (forall name s, PanGenome.strainCache pan !! name = Some s ->
        strain_in_model pan (StrainKmerSet.base s)).

End Scoring.

(** A strain in the cache all of whose k-mers are among [excludes]:
    the next exclusion leaves it without k-mers. *)
Definition spent (pan : PanGenome.t) (excludes : list Z) (name : string)
  : Prop :=
  exists s : StrainKmerSet.t,
    PanGenome.strainCache pan !! name = Some s
    /\ forall x, x ∈ StrainKmerSet.kmers s -> x ∈ excludes.

End StrainGST.

(* ===================================================================== *)
(** * variant_caller.py: transitions and transversions                   *)
(* ===================================================================== *)

(** The [frozenset] of [count_ts_tv]. *)
Definition transition_pairs : list (Allele.t * Allele.t) :=
  [(Allele.A, Allele.G); (Allele.G, Allele.A);
   (Allele.C, Allele.T); (Allele.T, Allele.C)].

(** The loop of [count_ts_tv] over the pairs of [zip]. *)
Fixpoint count_ts_tv_loop (transitions transversions : Z)
    (pairs : list (Allele.t * Allele.t)) : Z * Z :=
  match pairs with
  | [] => (transitions, transversions)
  | p :: rest =>
      if bool_decide (p ∈ transition_pairs)
      then count_ts_tv_loop (transitions + 1) transversions rest
      else count_ts_tv_loop transitions (transversions + 1) rest
  end.

(** [count_ts_tv]. *)
Definition count_ts_tv (array1 array2 : list Allele.t) : outcome (Z * Z) :=
  if Nat.eqb (Datatypes.length array1) (Datatypes.length array2)
  then Returns (count_ts_tv_loop 0 0 (zip_py array1 array2))
  else AssertionError.

(* ===================================================================== *)
(** * variant_caller.py: recording reads                                 *)
(* ===================================================================== *)

(** [ALLELE_INDEX[allele]]: the position of a single allele among the
    alleles other than [N]; any other key is a [KeyError]. *)
Definition ALLELE_INDEX (allele : Allele.t) : res nat :=
  of_option KeyError
    (fst <$> list_find (fun a => a = allele) Allele.ALLELE_MASKS).

(** An integer index into an axis of [n] entries: a negative one counts
    from the end. *)
Definition np_axis_index (n : nat) (i : Z) : res nat :=
  if (0 <=? i) && (i <? Z.of_nat n) then Ok (Z.to_nat i)
  else if (- Z.of_nat n <=? i) && (i <? 0)
       then Ok (Z.to_nat (Z.of_nat n + i))
       else Raise IndexError.

(** A value stored into a [uint32] cell. *)
Definition uint32 (x : Z) : Z := x mod 2 ^ 32.

(** [arr[i] += v] on a one-dimensional [uint32] array. *)
Definition np_iadd_at (arr : list Z) (i : Z) (v : Z) : res (list Z) :=
  let* ix := np_axis_index (Datatypes.length arr) i in
  Ok (alter (fun x => uint32 (x + v)) ix arr).

(** [alleles[pos, row, ix] += v], where [row] 0 is the read counts and
    row 1 the quality sums. *)
Definition alleles_iadd (alleles : list (list Z * list Z)) (pos : Z)
    (row : bool) (ix : nat) (v : Z) : res (list (list Z * list Z)) :=
  let* p := np_axis_index (Datatypes.length alleles) pos in
  let* '(cnts, quals) := of_option IndexError (alleles !! p) in
  if row then
    let* quals := np_iadd_at quals (Z.of_nat ix) v in
    Ok (<[p := (cnts, quals)]> alleles)
  else
    let* cnts := np_iadd_at cnts (Z.of_nat ix) v in
    Ok (<[p := (cnts, quals)]> alleles).

Module ScaffoldReads.
(** The updates that [VariantCallData] makes on one
    [ScaffoldCallData] object. *)
Import ScaffoldCallData.

Definition set_alleles (self : t) (a : list (list Z * list Z)) (mq : list Z)
  : t :=
  mk (name self) (length self) (read_count self) (refmask self)
     a (bad self) (lowmq_count self) (lowmq self)
     mq (strong self) (weak self) (coverage self)
     (high_coverage self) (mean_coverage self) (gaps self).

Definition set_bad (self : t) (b : list Z) : t :=
  mk (name self) (length self) (read_count self) (refmask self)
     (alleles self) b (lowmq_count self) (lowmq self)
     (mq_sum self) (strong self) (weak self) (coverage self)
     (high_coverage self) (mean_coverage self) (gaps self).

Definition set_lowmq_count (self : t) (c : list Z) : t :=
  mk (name self) (length self) (read_count self) (refmask self)
     (alleles self) (bad self) c (lowmq self)
     (mq_sum self) (strong self) (weak self) (coverage self)
     (high_coverage self) (mean_coverage self) (gaps self).

Definition set_read_count (self : t) (n : Z) : t :=
  mk (name self) (length self) n (refmask self)
     (alleles self) (bad self) (lowmq_count self) (lowmq self)
     (mq_sum self) (strong self) (weak self) (coverage self)
     (high_coverage self) (mean_coverage self) (gaps self).

(** The body of [good_read] on the scaffold, once the allele index is
    known. *)
Definition good_read (self : t) (pos : Z) (ix : nat)
    (base_quality mapping_quality : Z) : res t :=
  let* a := alleles_iadd (alleles self) pos false ix 1 in
  let* a := alleles_iadd a pos true ix base_quality in
  let* mq := np_iadd_at (mq_sum self) pos mapping_quality in
  Ok (set_alleles self a mq).

(** [bad[pos] += 1]. *)
Definition bad_read (self : t) (pos : Z) : res t :=
  let* b := np_iadd_at (bad self) pos 1 in
  Ok (set_bad self b).

(** The body of [low_mapping_quality]: a position at or past the
    length is ignored with a warning. *)
Definition low_mapping_quality (self : t) (pos : Z) : res t :=
  if length self <=? pos then Ok self
  else
    let* c := np_iadd_at (lowmq_count self) pos 1 in
    Ok (set_lowmq_count self c).

(** [mq_sum[pos] += mapping_quality]. *)
Definition update_mapping_quality (self : t) (pos : Z) (mapping_quality : Z)
  : res t :=
  let* mq := np_iadd_at (mq_sum self) pos mapping_quality in
  Ok (set_alleles self (alleles self) mq).

(** [ScaffoldCallData.depth], [qual_total] and [total_depth]. *)
Definition depth (self : t) (loc : Z) : res Z :=
  let* p := np_axis_index (Datatypes.length (alleles self)) loc in
  let* '(cnts, _) := of_option IndexError (alleles self !! p) in
  Ok (np_sum cnts).

Definition qual_total (self : t) (loc : Z) : res Z :=
  let* p := np_axis_index (Datatypes.length (alleles self)) loc in
  let* '(_, quals) := of_option IndexError (alleles self !! p) in
  Ok (np_sum quals).

Definition total_depth (self : t) (loc : Z) : res Z :=
  let* d := depth self loc in
  let* l := py_index (lowmq_count self) loc in
  Ok (d + l).

(** [allele_count] and [allele_qual]. *)
Definition allele_count (self : t) (loc : Z) (allele : Allele.t) : res Z :=
  let* ix := ALLELE_INDEX allele in
  let* p := np_axis_index (Datatypes.length (alleles self)) loc in
  let* '(cnts, _) := of_option IndexError (alleles self !! p) in
  of_option IndexError (cnts !! ix).

Definition allele_qual (self : t) (loc : Z) (allele : Allele.t) : res Z :=
  let* ix := ALLELE_INDEX allele in
  let* p := np_axis_index (Datatypes.length (alleles self)) loc in
  let* '(_, quals) := of_option IndexError (alleles self !! p) in
  of_option IndexError (quals !! ix).

(** [ref_count], [ref_qual] and [ref_fraction]. *)
Definition ref_count (self : t) (loc : Z) : res Z :=
  let* ref := py_index (refmask self) loc in
  allele_count self loc ref.

Definition ref_qual (self : t) (loc : Z) : res Z :=
  let* ref := py_index (refmask self) loc in
  let* ix := ALLELE_INDEX ref in
  let* p := np_axis_index (Datatypes.length (alleles self)) loc in
  let* '(_, quals) := of_option IndexError (alleles self !! p) in
  of_option IndexError (quals !! ix).

Definition ref_fraction (self : t) (loc : Z) : res Q :=
  let* q := ref_qual self loc in
  let* total := qual_total self loc in
  np_div (inject_Z q) (inject_Z total).

(** [mean_mq]: [self.mq_sum[loc] / d if d else 0]. *)
Definition mean_mq (self : t) (loc : Z) : res Q :=
  let* d := depth self loc in
  if d =? 0 then Ok 0%Q
  else
    let* mq := py_index (mq_sum self) loc in
    np_div (inject_Z mq) (inject_Z d).

End ScaffoldReads.

(** [poisson_coverage_cutoff(mean, cutoff=0.9999999)]; [poisson_ppf]
    is [scipy.stats.poisson.ppf], a parameter. *)
Definition poisson_coverage_cutoff (poisson_ppf : Q -> Q -> Q) (mean : Q) : Q :=
  if Qlt_bool mean 50 then poisson_ppf (9999999 # 10000000) mean
  else inject_Z (Qceiling (mean * (3 # 2) + 15)).

(** [max(x, y)] on floats: [y] when [y > x], else [x]. *)
Definition py_max (x y : Q) : Q := if Qlt_bool x y then y else x.

Module ScaffoldCoverage.
Import ScaffoldCallData.

Definition set_coverage (self : t) (c : list Z) (h : list bool) (m : Q) : t :=
  mk (name self) (length self) (read_count self) (refmask self)
     (alleles self) (bad self) (lowmq_count self) (lowmq self)
     (mq_sum self) (strong self) (weak self) (Some c) h m (gaps self).

(** [ScaffoldCallData.calculate_coverage]; the attributes
    [median_coverage] and [coverage_cutoff] it sets are returned next
    to the object. *)
Definition calculate_coverage (poisson_ppf : Q -> Q -> Q) (self : t)
  : res (t * Q * Q) :=
  let depth := map (fun pos => np_sum (fst pos)) (alleles self) in
  let* coverage := np_zip Z.add depth (lowmq_count self) in
  let* mean := np_div (inject_Z (np_sum coverage)) (inject_Z (length self)) in
  let* median := np_median coverage in
  let cutoff := poisson_coverage_cutoff poisson_ppf (py_max (1 # 2) median) in
  let high := map (fun c => Qlt_bool cutoff (inject_Z c)) coverage in
  Ok (set_coverage self coverage high mean, median, cutoff).

End ScaffoldCoverage.

Module VariantCallData.

(** [class VariantCallData]; [scaffolds_data] is a [dict] in insertion
    order. *)
Record t := mk {
  min_gap_size : Z;
  reference_length : Z;
  scaffolds_data : list (string * ScaffoldCallData.t);
  mean_coverage : Q;
  median_coverage : Q;
  uniquely_mapped_reads : Z
}.

(** [self.scaffolds_data[scaffold]], and the same object after an
    update in place. *)
Definition scaffold_data (self : t) (scaffold : string)
  : res ScaffoldCallData.t :=
  of_option KeyError (dict_get (scaffolds_data self) scaffold).

Definition set_scaffold (self : t) (scaffold : string)
    (d : ScaffoldCallData.t) : t :=
  mk (min_gap_size self) (reference_length self)
     (dict_set (scaffolds_data self) scaffold d)
     (mean_coverage self) (median_coverage self)
     (uniquely_mapped_reads self).

(** [inc_uniquely_mapped_reads]. *)
Definition inc_uniquely_mapped_reads (self : t) (scaffold : string) : res t :=
  let self :=
    mk (min_gap_size self) (reference_length self) (scaffolds_data self)
       (mean_coverage self) (median_coverage self)
       (uniquely_mapped_reads self + 1) in
  let* d := scaffold_data self scaffold in
  Ok (set_scaffold self scaffold
        (ScaffoldReads.set_read_count d (ScaffoldCallData.read_count d + 1))).

(** [bad_read]. *)
Definition bad_read (self : t) (scaffold : string) (pos : Z) : res t :=
  let* d := scaffold_data self scaffold in
  let* d := ScaffoldReads.bad_read d pos in
  Ok (set_scaffold self scaffold d).

(** [low_mapping_quality]. *)
Definition low_mapping_quality (self : t) (scaffold : string) (pos : Z)
  : res t :=
  let* d := scaffold_data self scaffold in
  let* d := ScaffoldReads.low_mapping_quality d pos in
  Ok (set_scaffold self scaffold d).

(** [update_mapping_quality]. *)
Definition update_mapping_quality (self : t) (scaffold : string) (pos : Z)
    (mapping_quality : Z) : res t :=
  let* d := scaffold_data self scaffold in
  let* d := ScaffoldReads.update_mapping_quality d pos mapping_quality in
  Ok (set_scaffold self scaffold d).

(** [good_read]: the allele index is looked up before the scaffold. *)
Definition good_read (self : t) (scaffold : string) (pos : Z)
    (allele : Allele.t) (base_quality mapping_quality : Z) (rc : bool)
  : res t :=
  let base := if rc then Allele.rc allele else allele in
  let* ix := ALLELE_INDEX base in
  let* d := scaffold_data self scaffold in
  let* d := ScaffoldReads.good_read d pos ix base_quality mapping_quality in
  Ok (set_scaffold self scaffold d).

End VariantCallData.

(* ===================================================================== *)
(** * variant_caller.py: the summary                                     *)
(* ===================================================================== *)

Definition outcome_bind {A B} (m : outcome A) (f : A -> outcome B)
  : outcome B :=
  match m with
  | Returns a => f a
  | Raises e => Raises e
  | AssertionError => AssertionError
  end.

Definition of_res {A} (m : res A) : outcome A :=
  match m with
  | Ok a => Returns a
  | Raise e => Raises e
  end.

Notation "'let+' x ':=' m 'in' k" := (outcome_bind m (fun x => k))
  (at level 10, x name, m at level 100, k at level 200).
Notation "'let+' ' p ':=' m 'in' k" :=
  (outcome_bind m (fun x => match x with p => k end))
  (at level 10, p pattern, m at level 100, k at level 200).

(** [numpy.count_nonzero] of an integer and of a boolean array. *)
Definition count_nonzero (a : list Z) : Z :=
  Zlen (List.filter (fun x => negb (x =? 0)) a).

Definition count_true (a : list bool) : Z := Zlen (List.filter id a).

(** [sum] of Python floats. *)
Definition py_sumQ (a : list Q) : Q := fold_left Qplus a 0%Q.

Module Summary.

(** One dictionary that [summarize] yields. *)
Record row := mk_row {
  name : string;
  length : Z;
  repetitiveness : Q;
  coverage : Q;
  median : Q;
  uReads : Z;
  abundance : Q;
  callable : Z;
  callablePct : Q;
  confirmed : Z;
  confirmedPct : Q;
  snps : Z;
  snpPct : Q;
  multi : Z;
  multiPct : Q;
  lowmq : Z;
  lowmqPct : Q;
  high : Z;
  highPct : Q;
  gapCount : Z;
  gapLength : Z;
  transitions : Z;
  tsPct : Q;
  transversions : Z;
  tvPct : Q
}.

(** The local variables of [summarize] that add up over the
    scaffolds. *)
Record totals := mk_totals {
  total_callable : Z;
  all_coverages : list Q;
  total_confirmed : Z;
  total_snps : Z;
  total_multi : Z;
  total_lowmq : Z;
  total_high_cov : Z;
  total_gaps : Z;
  total_gap_length : Z;
  total_ts : Z;
  total_tv : Z;
  total_singles : Z
}.

Definition totals0 : totals := mk_totals 0 [] 0 0 0 0 0 0 0 0 0 0.

Section Summarize.

(** [strainge.utils.pct] is not among the sources: any function of its
    two arguments, which may raise.  The attribute [repetitiveness] of a
    scaffold, a Python float (0.0, or read from the JSON metadata), is
    not a field of the record [ScaffoldCallData.t]. *)
Variable pct : Z -> Z -> outcome Q.
Variable repetitiveness_of : ScaffoldCallData.t -> Q.

(** The dictionary comprehensions [{scaffold.name: f(scaffold) ...}]
    over the scaffolds, in their order. *)
Fixpoint by_name (f : ScaffoldCallData.t -> res Q)
    (scaffolds : list ScaffoldCallData.t) (d : list (string * Q))
  : res (list (string * Q)) :=
  match scaffolds with
  | [] => Ok d
  | scaffold :: rest =>
      let* v := f scaffold in
      by_name f rest (dict_set d (ScaffoldCallData.name scaffold) v)
  end.

(** [abun], after the normalisation.  The lengths and the read counts
    are Python integers, so a zero divisor raises. *)
Definition abundances (scaffolds : list ScaffoldCallData.t)
  : res (list (string * Q)) :=
  let* scaffold_uniq_len :=
    by_name (fun scaffold =>
               Ok (inject_Z (ScaffoldCallData.length scaffold)
                   - inject_Z (ScaffoldCallData.length scaffold)
                     * repetitiveness_of scaffold)%Q)
            scaffolds [] in
  let* abun :=
    by_name (fun scaffold =>
               let* len :=
                 of_option KeyError
                   (dict_get scaffold_uniq_len
                             (ScaffoldCallData.name scaffold)) in
               py_div (inject_Z (ScaffoldCallData.read_count scaffold)) len)
            scaffolds [] in
  let summed_abun := py_sumQ (map snd abun) in
  mapM_res (fun kv => let* v := py_div (snd kv) summed_abun in Ok (fst kv, v))
           abun.

(** [(x & (x - 1)) == 0] and [x > 0]: exactly one allele. *)
Definition single (x : Z) : bool :=
  (Z.land x (x - 1) =? 0) && (0 <? x).

(** [arr[ix]] for an array [ix] of integers: they are indices, a
    negative one counting from the end. *)
Definition np_take_int (arr : list Z) (ix : list Z) : res (list Z) :=
  mapM_res (py_index arr) ix.

(** [(scaffold.strong & ~scaffold.refmask) & singles]: [refmask] holds
    unsigned bytes, so [~r] is [255 - r]; the boolean array [singles]
    enters the bitwise [&] as 1 and 0, and the result is an array of
    integers. *)
Definition snps_of (strong refmask : list Z) (singles : list bool)
  : res (list Z) :=
  let* not_ref := np_zip (fun s r => Z.land s (255 - r)) strong refmask in
  np_zip (fun x (b : bool) => Z.land x (if b then 1 else 0)) not_ref singles.

(** The body of the loop over the scaffolds, for a scaffold whose
    [high_coverage] has been computed: the counters after it and the
    dictionary it yields. *)
Definition scaffold_step (abun : list (string * Q)) (acc : totals)
    (scaffold : ScaffoldCallData.t) : outcome (totals * row) :=
  let+ strong :=
    of_res (of_option TypeError (ScaffoldCallData.strong scaffold)) in
  let refmask := ScaffoldCallData.refmask scaffold in
  let+ confirmed := of_res (np_zip Z.land strong refmask) in
  let singles := map single strong in
  let num_singles := count_true singles in
  let+ snps := of_res (snps_of strong refmask singles) in
  let multi := map (fun x => 0 <? Z.land x (x - 1)) strong in
  let num_callable := count_nonzero strong in
  let+ callable_pct := pct num_callable (ScaffoldCallData.length scaffold) in
  let normal_coverage := map negb (ScaffoldCallData.high_coverage scaffold) in
  let+ cov :=
    of_res (of_option TypeError (ScaffoldCallData.coverage scaffold)) in
  let+ normal := of_res (np_mask_select cov normal_coverage) in
  let+ lowmq :=
    of_res (of_option AttributeError (ScaffoldCallData.lowmq scaffold)) in
  let summed_coverage := np_sum normal + count_true lowmq in
  let+ coverage :=
    of_res (np_div (inject_Z summed_coverage)
                   (inject_Z (ScaffoldCallData.length scaffold))) in
  let+ with_lowmq :=
    of_res (np_zip (fun x (b : bool) => x + (if b then 1 else 0)) cov lowmq) in
  let+ median_coverage := of_res (np_median with_lowmq) in
  let num_confirmed := count_nonzero confirmed in
  let+ confirmed_pct := pct num_confirmed num_callable in
  let num_snps := count_nonzero snps in
  let+ snp_pct := pct num_snps num_callable in
  let num_multi := count_true multi in
  let+ multi_pct := pct num_multi num_callable in
  let num_lowmq := count_true lowmq in
  let+ lowmq_pct := pct num_lowmq (ScaffoldCallData.length scaffold) in
  let num_high_cov := count_true (ScaffoldCallData.high_coverage scaffold) in
  let+ high_pct := pct num_high_cov (ScaffoldCallData.length scaffold) in
  let num_gaps := Zlen (ScaffoldCallData.gaps scaffold) in
  let gap_length :=
    np_sum (map (fun g => Z.of_nat (Group.length g))
                (ScaffoldCallData.gaps scaffold)) in
  let+ ref_snps := of_res (np_take_int refmask snps) in
  let+ strong_snps := of_res (np_take_int strong snps) in
  let+ '(transitions, transversions) := count_ts_tv ref_snps strong_snps in
  let+ ts_pct := pct transitions num_singles in
  let+ tv_pct := pct transversions num_singles in
  let+ abundance :=
    of_res (of_option KeyError
              (dict_get abun (ScaffoldCallData.name scaffold))) in
  Returns
    (mk_totals (total_callable acc + num_callable)
               (all_coverages acc ++ [coverage])
               (total_confirmed acc + num_confirmed)
               (total_snps acc + num_snps)
               (total_multi acc + num_multi)
               (total_lowmq acc + num_lowmq)
               (total_high_cov acc + num_high_cov)
               (total_gaps acc + num_gaps)
               (total_gap_length acc + gap_length)
               (total_ts acc + transitions)
               (total_tv acc + transversions)
               (total_singles acc + num_singles),
     mk_row (ScaffoldCallData.name scaffold)
            (ScaffoldCallData.length scaffold)
            (repetitiveness_of scaffold)
            coverage median_coverage
            (ScaffoldCallData.read_count scaffold)
            abundance
            num_callable callable_pct
            num_confirmed confirmed_pct
            num_snps snp_pct
            num_multi multi_pct
            num_lowmq lowmq_pct
            num_high_cov high_pct
            num_gaps gap_length
            transitions ts_pct
            transversions tv_pct).

(** The loop over the scaffolds: the counters and the dictionaries
    yielded so far. *)
Fixpoint summarize_loop (abun : list (string * Q))
    (scaffolds : list ScaffoldCallData.t) (acc : totals)
    (yielded : list row) : outcome (totals * list row) :=
  match scaffolds with
  | [] => Returns (acc, yielded)
  | scaffold :: rest =>
      let+ '(acc', r) := scaffold_step abun acc scaffold in
      summarize_loop abun rest acc' (yielded ++ [r])
  end.

(** [VariantCallData.summarize], a generator, run to its end: the
    dictionaries it yields, one per scaffold and a last one for the
    genome, or the exception that ends it (the dictionaries yielded
    before that exception are not reported). *)
Definition summarize (self : VariantCallData.t) : outcome (list row) :=
  let scaffolds := map snd (VariantCallData.scaffolds_data self) in
  let+ abun := of_res (abundances scaffolds) in
  let+ '(acc, yielded) := summarize_loop abun scaffolds totals0 [] in
  let lengths := map ScaffoldCallData.length scaffolds in
  let+ avg_repetitiveness :=
    of_res (py_div (py_sumQ (map repetitiveness_of scaffolds))
                   (inject_Z (Zlen scaffolds))) in
  let reference_length := VariantCallData.reference_length self in
  let+ coverage :=
    of_res (np_div (py_sumQ (zip_with (fun v l => (v * inject_Z l)%Q)
                                      (all_coverages acc) lengths))
                   (inject_Z reference_length)) in
  let+ callable_pct := pct (total_callable acc) reference_length in
  let+ confirmed_pct := pct (total_confirmed acc) (total_callable acc) in
  let+ snp_pct := pct (total_snps acc) (total_callable acc) in
  let+ multi_pct := pct (total_multi acc) (total_callable acc) in
  let+ lowmq_pct := pct (total_lowmq acc) reference_length in
  let+ high_pct := pct (total_high_cov acc) reference_length in
  let+ ts_pct := pct (total_ts acc) (total_singles acc) in
  let+ tv_pct := pct (total_tv acc) (total_singles acc) in
  Returns
    (yielded
     ++ [mk_row "TOTAL" reference_length avg_repetitiveness coverage
                (VariantCallData.median_coverage self)
                (VariantCallData.uniquely_mapped_reads self)
                1
                (total_callable acc) callable_pct
                (total_confirmed acc) confirmed_pct
                (total_snps acc) snp_pct
                (total_multi acc) multi_pct
                (total_lowmq acc) lowmq_pct
                (total_high_cov acc) high_pct
                (total_gaps acc) (total_gap_length acc)
                (total_ts acc) ts_pct
                (total_tv acc) tv_pct]).

End Summarize.

End Summary.

(* ===================================================================== *)
(** * Sample data                                                        *)
(* ===================================================================== *)

Module Samples.

(** Two k-mer sets: 5 twice and 9 once; 5 three times and 7 four
    times. *)
Definition ks_a : KmerSet.t :=
  KmerSet.mk 23 [5; 9] [2; 1] None None 0 0 0.
(** A pan-genome of three k-mers and two strains, a sample with two
    of its k-mers and one foreign k-mer, and a search configuration. *)
Definition strain_x : KmerSet.t :=
  KmerSet.mk 23 [1; 2] [1; 1] None None 0 0 0.
Definition strain_y : KmerSet.t :=
  KmerSet.mk 23 [2; 3] [1; 2] None None 0 0 0.
Definition pan3 : PanGenome.t :=
  PanGenome.mk (KmerSet.mk 23 [1; 2; 3] [1; 2; 1] None None 0 0 0)
               {[ "X"%string := save_hdf5 strain_x;
                  "Y"%string := save_hdf5 strain_y ]}
               ["X"%string; "Y"%string] ∅ false.
(** Strain X as [load_strain] builds it, and the pan-genome with X
    in its cache. *)
Definition strain_x_loaded : StrainKmerSet.t :=
  StrainKmerSet.mk strain_x "X" 2 2.
Definition pan3_x : PanGenome.t :=
  PanGenome.set_cache pan3 {[ "X"%string := strain_x_loaded ]}.
Definition sample3 : Sample.t :=
  Sample.init "reads" (KmerSet.mk 23 [1; 2; 9] [2; 3; 4] None None 0 0 0).
Definition cfg : StrainGST.t :=
  StrainGST.mk false 5 1 (2 # 100) (6 # 10) (1 # 100) 0 10.

(** A k-mer set of 3155 k-mers whose spectrum is: 3 k-mers seen once,
    1 seen twice, 1001 seen three times, 1100 seen four times and 1050
    seen five times. *)
Definition ks_spectrum : KmerSet.t :=
  KmerSet.mk 23 (map Z.of_nat (seq 0 3155))
    (replicate 3 1 ++ replicate 1 2 ++ replicate 1001 3
     ++ replicate 1100 4 ++ replicate 1050 5)
    None None 0 0 0.

(** The k-mers of [ks_a] with other counts and an old fingerprint. *)
Definition ks_a2 : KmerSet.t :=
  KmerSet.mk 23 [5; 9] [7; 7] (Some [9]) None 0 0 0.
Definition ks_b : KmerSet.t :=
  KmerSet.mk 23 [5; 7] [3; 4] None None 0 0 0.

(** A scaffold of three positions: quality on A and C at position 0,
    nothing at position 1, quality on T at position 2 (flagged as too
    highly covered). *)
Definition scd3 : ScaffoldCallData.t :=
  ScaffoldCallData.mk "s1" 3 0 [1; 2; 8]
    [([2; 1; 0; 0; 0; 0], [60; 30; 0; 0; 0; 0]);
     ([0; 0; 0; 0; 0; 0], [0; 0; 0; 0; 0; 0]);
     ([0; 0; 0; 9; 0; 0], [0; 0; 0; 270; 0; 0])]
    [0; 0; 0] [0; 0; 0] None [0; 0; 0] None None None
    [false; false; true] (1 # 1) [].

(** A scaffold of one position without any read. *)
Definition scd_empty : ScaffoldCallData.t :=
  ScaffoldCallData.mk "s1" 1 0 [1]
    [([0; 0; 0; 0; 0; 0], [0; 0; 0; 0; 0; 0])]
    [0] [0] None [0] None None None [false] 0 [].

(** A scaffold of six positions with reads on positions 0, 1 and 5,
    after [call_alleles]. *)
Definition scd_gap : ScaffoldCallData.t :=
  ScaffoldCallData.mk "s1" 6 0 [1; 1; 1; 1; 1; 1]
    [([1; 0; 0; 0; 0; 0], [30; 0; 0; 0; 0; 0]);
     ([1; 0; 0; 0; 0; 0], [30; 0; 0; 0; 0; 0]);
     ([0; 0; 0; 0; 0; 0], [0; 0; 0; 0; 0; 0]);
     ([0; 0; 0; 0; 0; 0], [0; 0; 0; 0; 0; 0]);
     ([0; 0; 0; 0; 0; 0], [0; 0; 0; 0; 0; 0]);
     ([1; 0; 0; 0; 0; 0], [30; 0; 0; 0; 0; 0])]
    [0; 0; 0; 0; 0; 0] [0; 0; 0; 0; 0; 0] None [0; 0; 0; 0; 0; 0]
    (Some [1; 1; 0; 0; 0; 1]) (Some [1; 1; 0; 0; 0; 1]) None
    [false; false; false; false; false; false] 1 [].

(** A reference of two scaffolds, of five and of two bases. *)
Definition ref2 : Reference :=
  Reference_init [{| metadata_id := "s1"; seq_values := "ACGTA" |};
                  {| metadata_id := "s2"; seq_values := "GG" |}].

(** A scaffold of four positions after the calls: strong calls A, C,
    A and none on the reference bases C, A, A and G; two reads. *)
Definition scd_called : ScaffoldCallData.t :=
  ScaffoldCallData.mk "s1" 4 2 [2; 1; 1; 4]
    [([1; 0; 0; 0; 0; 0], [30; 0; 0; 0; 0; 0]);
     ([0; 1; 0; 0; 0; 0], [0; 30; 0; 0; 0; 0]);
     ([1; 0; 0; 0; 0; 0], [30; 0; 0; 0; 0; 0]);
     ([0; 0; 0; 0; 0; 0], [0; 0; 0; 0; 0; 0])]
    [0; 0; 0; 0] [0; 0; 0; 0] (Some [false; false; false; false])
    [0; 0; 0; 0] (Some [1; 2; 1; 0]) (Some [1; 2; 1; 0])
    (Some [1; 1; 1; 0]) [false; false; false; false] (3 # 4) [].

Definition vcd_called : VariantCallData.t :=
  VariantCallData.mk 1 4 [("s1"%string, scd_called)] (3 # 4) 1 2.

(** A percentage that is 0 for a zero total. *)
Definition pct100 (numerator denominator : Z) : outcome Q :=
  Returns (if denominator =? 0 then 0
           else inject_Z (100 * numerator) / inject_Z denominator)%Q.

(** Call data with the one scaffold [scd3]. *)
Definition vcd3 : VariantCallData.t :=
  VariantCallData.mk 1 3 [("s1"%string, scd3)] 0 0 0.

(** A stable index sort: the indices ordered by their key, equal
    keys by position. *)
Definition key_le (a b : Z * nat) : Prop := fst a <= fst b.

#[global] Instance key_le_dec (a b : Z * nat) : Decision (key_le a b).
Proof. unfold key_le. apply _. Defined.

Definition argsort_stable (h : list Z) : list nat :=
  (merge_sort key_le (zip h (seq 0 (Datatypes.length h)))).*2.

(** A multiplicative stand-in for the 64-bit hash of the extension. *)
Definition mul_hash (k : Z) (kmers : list Z) : list Z :=
  map (fun x => (x * 1099511628211) mod 2 ^ 64) kmers.

(** A rational stand-in for [math.exp]: [1 / (1 - x)] for [x <= 0]
    and [1 + x] above; it is 1 at 0, below 1 left of it and above 1
    right of it. *)
Definition exp_rational (x : Q) : Q :=
  if Qle_bool x 0 then (1 / (1 - x))%Q else (1 + x)%Q.

(** An output buffer that holds zeros, and one that holds ones. *)
Definition zeros : nat -> nat -> Q := fun _ _ => 0%Q.
Definition ones : nat -> nat -> Q := fun _ _ => 1%Q.

End Samples.

(* ===================================================================== *)
(** * Properties: alleles                                                *)
(* ===================================================================== *)

(** C9.  [Allele.rc] is an involution on every value; it swaps A with T
    and C with G; it leaves N, INS and DEL unchanged, and every value
    that is not one of the four single bases (in particular every
    combination of several bits) is returned as it is. *)
Theorem Allele_rc_involution (v : Allele.t) :
  Allele.rc (Allele.rc v) = v
  /\ Allele.rc Allele.A = Allele.T /\ Allele.rc Allele.T = Allele.A
  /\ Allele.rc Allele.C = Allele.G /\ Allele.rc Allele.G = Allele.C
  /\ Allele.rc Allele.N = Allele.N /\ Allele.rc Allele.INS = Allele.INS
  /\ Allele.rc Allele.DEL = Allele.DEL
  /\ (v = Allele.A \/ v = Allele.C \/ v = Allele.G \/ v = Allele.T
      \/ Allele.rc v = v).
Proof.
  repeat split; try reflexivity.
  - unfold Allele.rc, Allele.A, Allele.C, Allele.G, Allele.T.
    destruct (v =? 1) eqn:E1; [apply Z.eqb_eq in E1; now subst|].
    destruct (v =? 2) eqn:E2; [apply Z.eqb_eq in E2; now subst|].
    destruct (v =? 4) eqn:E4; [apply Z.eqb_eq in E4; now subst|].
    destruct (v =? 8) eqn:E8; [apply Z.eqb_eq in E8; now subst|].
    now rewrite E1, E2, E4, E8.
  - unfold Allele.rc, Allele.A, Allele.C, Allele.G, Allele.T.
    destruct (v =? 1) eqn:E1; [apply Z.eqb_eq in E1; auto|].
    destruct (v =? 2) eqn:E2; [apply Z.eqb_eq in E2; auto|].
    destruct (v =? 4) eqn:E4; [apply Z.eqb_eq in E4; auto|].
    destruct (v =? 8) eqn:E8; [apply Z.eqb_eq in E8; auto 6|].
    auto 6.
Qed.

(* ===================================================================== *)
(** * Properties: reference coordinates                                  *)
(* ===================================================================== *)

Lemma zip_py_fst_map {A B} (f : A -> B) (l : list A) :
  zip_py l (map f l) = map (fun x => (x, f x)) l.
Proof. induction l as [|x l IH]; simpl; [done | by rewrite IH]. Qed.

Lemma dict_get_prior_length_bounds name d v :
  dict_get d name = Some v -> 0 <= prior_length name d.
Proof.
  induction d as [|[k w] d IH]; simpl; [done|].
  destruct (String.eqb k name); [lia|].
  intros H. specialize (IH H). unfold seq_len. lia.
Qed.

(** On a well-formed key/record list, the documented computation finds
    the offset of [name], and [scaffold_coord] inverts it. *)
Lemma coord_loops_roundtrip name local v d offset :
  Forall (fun kv : string * SeqRecord => metadata_id (snd kv) = fst kv) d ->
  dict_get d name = Some v ->
  1 <= local <= seq_len v ->
  documented_genome_coord_loop name local offset
    (map (fun kv => (fst kv, seq_len (snd kv))) d)
  = Some (offset + prior_length name d + local - 1)
  /\ scaffold_coord_loop (offset + prior_length name d + local - 1) offset
       (map (fun kv => (snd kv, seq_len (snd kv))) d)
     = Some (name, local).
Proof.
  revert offset.
  induction d as [|[k w] d IH]; intros offset Hid Hget Hloc;
    simpl in *; [done|].
  apply Forall_cons in Hid as [Hkw Hid]. simpl in Hkw.
  destruct (String.eqb k name) eqn:Ek.
  - apply String.eqb_eq in Ek. injection Hget as ->. subst name. split.
    + f_equal. lia.
    + destruct (Z.ltb_spec (offset + 0 + local - 1) (offset + seq_len v));
        [|lia].
      rewrite Hkw. do 2 f_equal. lia.
  - destruct (IH (offset + seq_len w) Hid Hget Hloc) as [IH1 IH2].
    pose proof (dict_get_prior_length_bounds _ _ _ Hget) as Hp.
    split.
    + rewrite IH1. f_equal. lia.
    + destruct (Z.ltb_spec (offset + (seq_len w + prior_length name d)
                            + local - 1) (offset + seq_len w)); [lia|].
      replace (offset + (seq_len w + prior_length name d) + local - 1)
        with (offset + seq_len w + prior_length name d + local - 1) by lia.
      exact IH2.
Qed.

(** The two directions as the docstrings describe them: for a scaffold
    [name] of a well-formed reference and a local coordinate within it,
    the documented global coordinate is the sum of the prior lengths
    plus [local - 1], and [scaffold_coord] maps it back. *)
Lemma scaffold_coord_inverts_documented (r : Reference) name local v :
  ref_wf r ->
  dict_get (scaffolds r) name = Some v ->
  1 <= local <= seq_len v ->
  documented_genome_coord r name local
  = Some (prior_length name (scaffolds r) + local - 1)
  /\ scaffold_coord r (prior_length name (scaffolds r) + local - 1)
     = Some (name, local).
Proof.
  intros (_ & Hid & Hlen) Hget Hloc.
  unfold documented_genome_coord, scaffold_coord. rewrite Hlen.
  pose proof (coord_loops_roundtrip name local v (scaffolds r) 0 Hid Hget Hloc)
    as [H1 H2].
  rewrite Z.add_0_l in H1, H2.
  split.
  - rewrite <- H1. f_equal.
    clear. induction (scaffolds r) as [|[k w] d IH]; simpl; [done|].
    by rewrite IH.
  - rewrite <- H2. f_equal.
    clear. induction (scaffolds r) as [|[k w] d IH]; simpl; [done|].
    by rewrite IH.
Qed.

Lemma dict_set_keys {V} (d : list (string * V)) (k : string) (v : V) :
  forall k', k' ∈ map fst (dict_set d k v) -> k' = k \/ k' ∈ map fst d.
Proof.
  induction d as [|[k0 v0] d IH]; simpl; intros k' Hk'.
  - apply elem_of_cons in Hk' as [->|Hk']; [by left|by right].
  - destruct (String.eqb k0 k) eqn:E; simpl in Hk'.
    + by right.
    + apply elem_of_cons in Hk' as [->|Hk']; [right; by left|].
      destruct (IH k' Hk') as [->|H]; [by left|right; by right].
Qed.

Lemma dict_set_wf (d : list (string * SeqRecord)) (r : SeqRecord) :
  NoDup (map fst d) ->
  Forall (fun kv => metadata_id (snd kv) = fst kv) d ->
  NoDup (map fst (dict_set d (metadata_id r) r))
  /\ Forall (fun kv => metadata_id (snd kv) = fst kv)
            (dict_set d (metadata_id r) r).
Proof.
  induction d as [|[k0 v0] d IH]; simpl; intros Hnd Hid.
  - split; repeat constructor. by intros ?%elem_of_nil.
  - apply NoDup_cons in Hnd as [Hk0 Hnd].
    apply Forall_cons in Hid as [Hid0 Hid]. simpl in Hid0.
    destruct (String.eqb k0 (metadata_id r)) eqn:E; simpl.
    + apply String.eqb_eq in E. split.
      * by apply NoDup_cons.
      * constructor; [by simpl|done].
    + destruct (IH Hnd Hid) as [IH1 IH2]. split.
      * apply NoDup_cons. split; [|done]. intros Hin.
        apply dict_set_keys in Hin as [->|Hin]; [|done].
        by rewrite String.eqb_refl in E.
      * by constructor.
Qed.

(** [Reference.__init__] yields a well-formed reference. *)
Lemma Reference_init_wf (records : list SeqRecord) :
  ref_wf (Reference_init records).
Proof.
  unfold ref_wf, Reference_init. simpl.
  assert (forall d : list (string * SeqRecord),
            NoDup (map fst d) ->
            Forall (fun kv => metadata_id (snd kv) = fst kv) d ->
            NoDup (map fst (fold_left (fun d r => dict_set d (metadata_id r) r)
                                      records d))
            /\ Forall (fun kv => metadata_id (snd kv) = fst kv)
                 (fold_left (fun d r => dict_set d (metadata_id r) r)
                            records d)) as H.
  { induction records as [|r records IH]; intros d Hnd Hid; simpl; [done|].
    destruct (dict_set_wf d r Hnd Hid) as [H1 H2]. by apply IH. }
  destruct (H [] (NoDup_nil_2) (Forall_nil_2 _)) as [H1 H2].
  repeat split; done.
Qed.

(** C2.  [Reference.scaffold_to_genome_coord] iterates over the keys of
    the scaffold dictionary and reads [.name] of a key: on every
    reference with at least one scaffold the call raises
    [AttributeError], whatever the name and the coordinate, instead of
    returning the global coordinate. *)
Theorem scaffold_to_genome_coord_raises
    (k : string) (v : SeqRecord) (rest : list (string * SeqRecord))
    (len : Z) (lens : list Z) (scaffold_name : string) (coord : Z) :
  scaffold_to_genome_coord
    {| scaffolds := (k, v) :: rest; lengths := len :: lens |}
    scaffold_name coord
  = Raise AttributeError.
Proof. reflexivity. Qed.

(** One scaffold ["s1"] of five bases, local coordinate 1. *)
Example scaffold_to_genome_coord_s1 :
  let r := Reference_init [{| metadata_id := "s1"; seq_values := "ACGTA" |}] in
  scaffold_to_genome_coord r "s1" 1 = Raise AttributeError
  /\ documented_genome_coord r "s1" 1 = Some 0
  /\ scaffold_coord r 0 = Some ("s1"%string, 1).
Proof. repeat split. Qed.

(* ===================================================================== *)
(** * Properties: allele calls                                           *)
(* ===================================================================== *)

Section CallAlleles.

Import ScaffoldCallData.

(** Adding the selected masks is the same as OR-ing them: the masks
    are distinct powers of two. *)
Lemma mask_sum_is_or (flags : list bool) : mask_sum flags = mask_or flags.
Proof.
  unfold mask_sum, mask_or, Allele.ALLELE_MASKS.
  do 6 (destruct flags as [|[] flags]; [reflexivity| |]);
    destruct flags; reflexivity.
Qed.

Lemma mask_sum_subset (f g : list bool) :
  Forall2 (fun x y : bool => x = true -> y = true) f g ->
  Z.land (mask_sum f) (Z.lnot (mask_sum g)) = 0.
Proof.
  unfold mask_sum, Allele.ALLELE_MASKS. intros H.
  do 6 (destruct H as [|[] [] ? ? ? H];
        try reflexivity;
        try (exfalso;
             match goal with
             | Hxy : true = true -> false = true |- _ =>
                 discriminate (Hxy eq_refl)
             end)).
  all: destruct H; reflexivity.
Qed.

Lemma np_sum_nonneg (l : list Z) : Forall (fun q => 0 <= q) l -> 0 <= np_sum l.
Proof. induction 1; simpl; lia. Qed.

Lemma np_sum_zero_all_zero (l : list Z) :
  Forall (fun q => 0 <= q) l -> np_sum l <= 0 -> Forall (fun q => q = 0) l.
Proof.
  induction 1 as [|q l Hq Hl IH]; simpl; intros Hs; [constructor|].
  pose proof (np_sum_nonneg l Hl). constructor; [lia|]. apply IH. lia.
Qed.

Lemma Qlt_bool_true (x y : Q) : Qlt_bool x y = true <-> (x < y)%Q.
Proof.
  unfold Qlt_bool. rewrite negb_true_iff.
  destruct (Qle_bool y x) eqn:E.
  - apply Qle_bool_iff in E. split; [done|]. intros H.
    exfalso. apply (Qlt_not_le _ _ H E).
  - split; [|done]. intros _. apply Qnot_le_lt. intros H.
    apply Qle_bool_iff in H. congruence.
Qed.

Lemma Qlt_bool_false (x y : Q) : Qlt_bool x y = false <-> (y <= x)%Q.
Proof.
  unfold Qlt_bool. rewrite negb_false_iff. apply Qle_bool_iff.
Qed.

(** A confirmed allele has evidence as soon as the quality threshold
    is not negative. *)
Lemma confirmed_evidence garbage (mpq mqf : Q) (quals : list Z) :
  (0 <= mpq)%Q ->
  Forall2 (fun x y : bool => x = true -> y = true)
          (confirmed garbage mpq mqf quals) (evidence quals).
Proof.
  intros Hmpq. unfold confirmed, evidence.
  generalize (np_sum quals) as qs. intros qs.
  revert garbage.
  induction quals as [|q quals IH]; intros garbage; simpl; constructor.
  - intros H. apply andb_true_iff in H as [H _].
    apply Qlt_bool_true in H. apply Z.ltb_lt.
    assert (0 < inject_Z q)%Q as H0 by (eapply Qle_lt_trans; eauto).
    unfold Qlt, inject_Z in H0. simpl in H0. lia.
  - apply (IH (fun a => garbage (S a))).
Qed.

(** With a threshold that is not negative the content of the
    uninitialised buffer never reaches the result: the confirmed flags
    are those computed with the fraction taken as 0 where the quality
    sum is 0. *)
Lemma confirmed_garbage_irrelevant garbage (mpq mqf : Q) (quals : list Z) :
  (0 <= mpq)%Q ->
  Forall (fun q => 0 <= q) quals ->
  confirmed garbage mpq mqf quals = confirmed (fun _ => 0%Q) mpq mqf quals.
Proof.
  intros Hmpq Hq. unfold confirmed.
  destruct (Z.ltb_spec 0 (np_sum quals)) as [Hs|Hs].
  - apply imap_ext. intros a q _. unfold qual_fraction.
    by destruct (Z.ltb_spec 0 (np_sum quals)); [|lia].
  - pose proof (np_sum_zero_all_zero quals Hq Hs) as Hz.
    apply imap_ext. intros a q Ha.
    assert (q = 0) as -> by
      (eapply Forall_forall in Hz; [exact Hz|]; by eapply list_elem_of_lookup_2).
    assert (Qlt_bool mpq (inject_Z 0) = false) as ->
      by (by apply Qlt_bool_false).
    reflexivity.
Qed.

(** What [call_alleles] stores, position by position. *)
Lemma call_alleles_lookup garbage (scd : t) (mpq mqf : Q) :
  Datatypes.length (high_coverage scd) = Datatypes.length (alleles scd) ->
  exists w s : list Z,
    call_alleles garbage scd mpq mqf = Ok (set_calls scd w s)
    /\ Datatypes.length w = Datatypes.length (alleles scd)
    /\ Datatypes.length s = Datatypes.length (alleles scd)
    /\ forall (p : nat) (cnts quals : list Z) (h : bool),
         alleles scd !! p = Some (cnts, quals) ->
         high_coverage scd !! p = Some h ->
         w !! p = Some (if h then 0 else mask_sum (evidence quals))
         /\ s !! p = Some (if h then 0
                           else mask_sum (confirmed (garbage p) mpq mqf quals)).
Proof.
  intros Hlen. unfold call_alleles, mask_assign.
  rewrite length_map, length_imap, length_map, Hlen, Nat.eqb_refl. simpl.
  eexists _, _. split; [reflexivity|].
  rewrite !length_zip_with, length_map, length_imap, length_map, Hlen.
  repeat split; try lia.
  - rewrite lookup_zip_with, list_lookup_fmap, list_lookup_fmap, H, H0.
    simpl. by destruct h.
  - rewrite lookup_zip_with, list_lookup_imap, list_lookup_fmap, H, H0.
    simpl. by destruct h.
Qed.

End CallAlleles.

(** C10.  After [call_alleles] with a quality threshold that is not
    negative, the strong call is a sub-bitset of the weak call at every
    position ([strong[p] & ~weak[p] = 0]), and both are 0 at the
    positions flagged [high_coverage]; this holds whatever the
    uninitialised part of the fraction buffer contains. *)
Theorem strong_subset_of_weak (garbage : nat -> nat -> Q)
    (scd : ScaffoldCallData.t) (min_pileup_qual min_qual_frac : Q) :
  ScaffoldCallData.wf scd ->
  (0 <= min_pileup_qual)%Q ->
  exists (scd' : ScaffoldCallData.t) (w s : list Z),
    ScaffoldCallData.call_alleles garbage scd min_pileup_qual min_qual_frac
      = Ok scd'
    /\ ScaffoldCallData.weak scd' = Some w
    /\ ScaffoldCallData.strong scd' = Some s
    /\ Datatypes.length w = Z.to_nat (ScaffoldCallData.length scd)
    /\ Datatypes.length s = Z.to_nat (ScaffoldCallData.length scd)
    /\ (forall (p : nat) (wp sp : Z),
          w !! p = Some wp -> s !! p = Some sp ->
          Z.land sp (Z.lnot wp) = 0)
    /\ (forall p : nat,
          ScaffoldCallData.high_coverage scd !! p = Some true ->
          w !! p = Some 0 /\ s !! p = Some 0).
Proof.
  intros (Hal & Hlq & Hhc & Hrows) Hmpq.
  destruct (call_alleles_lookup garbage scd min_pileup_qual min_qual_frac)
    as (w & s & Hcall & Hw & Hs & Hlook); [congruence|].
  exists (ScaffoldCallData.set_calls scd w s), w, s.
  repeat split; try done; try congruence.
  - intros p wp sp Hwp Hsp.
    destruct (lookup_lt_is_Some_2 (ScaffoldCallData.alleles scd) p)
      as [[cnts quals] Hpos];
      [rewrite <- Hw; by eapply lookup_lt_Some|].
    destruct (lookup_lt_is_Some_2 (ScaffoldCallData.high_coverage scd) p)
      as [h Hh]; [rewrite Hhc, <- Hal; by eapply lookup_lt_Some|].
    destruct (Hlook p cnts quals h Hpos Hh) as [Hw' Hs'].
    rewrite Hwp in Hw'. rewrite Hsp in Hs'.
    injection Hw' as ->. injection Hs' as ->.
    destruct h; [reflexivity|].
    apply mask_sum_subset. by apply confirmed_evidence.
  - destruct (lookup_lt_is_Some_2 (ScaffoldCallData.alleles scd) p)
      as [[cnts quals] Hpos];
      [rewrite Hal, <- Hhc; by eapply lookup_lt_Some|].
    by destruct (Hlook p cnts quals true Hpos H).
  - destruct (lookup_lt_is_Some_2 (ScaffoldCallData.alleles scd) p)
      as [[cnts quals] Hpos];
      [rewrite Hal, <- Hhc; by eapply lookup_lt_Some|].
    by destruct (Hlook p cnts quals true Hpos H).
Qed.

Lemma scd3_wf : ScaffoldCallData.wf Samples.scd3.
Proof.
  repeat split; try reflexivity.
  repeat constructor; simpl; lia.
Qed.

Lemma strong_subset_of_weak_witness :
  ScaffoldCallData.wf Samples.scd3
  /\ (0 <= 50)%Q
  /\ exists (scd' : ScaffoldCallData.t) (w s : list Z),
       ScaffoldCallData.call_alleles Samples.ones Samples.scd3 50 (1 # 10)
         = Ok scd'
       /\ ScaffoldCallData.weak scd' = Some w
       /\ ScaffoldCallData.strong scd' = Some s
       /\ Datatypes.length w = Z.to_nat (ScaffoldCallData.length Samples.scd3)
       /\ Datatypes.length s = Z.to_nat (ScaffoldCallData.length Samples.scd3)
       /\ (forall (p : nat) (wp sp : Z),
             w !! p = Some wp -> s !! p = Some sp ->
             Z.land sp (Z.lnot wp) = 0)
       /\ (forall p : nat,
             ScaffoldCallData.high_coverage Samples.scd3 !! p = Some true ->
             w !! p = Some 0 /\ s !! p = Some 0).
Proof.
  split; [exact scd3_wf|]. split; [discriminate|].
  apply (strong_subset_of_weak Samples.ones Samples.scd3 50 (1 # 10));
    [exact scd3_wf | discriminate].
Defined.

(** The calls on the sample scaffold: A and C weakly, A strongly at
    position 0; nothing elsewhere. *)
Example call_alleles_scd3 :
  exists scd',
    ScaffoldCallData.call_alleles Samples.ones Samples.scd3 50 (1 # 2)
      = Ok scd'
    /\ ScaffoldCallData.weak scd' = Some [3; 0; 0]
    /\ ScaffoldCallData.strong scd' = Some [1; 0; 0].
Proof. eexists. repeat split. Qed.

(** With a threshold that is not negative [call_alleles] computes what
    the call rule says: at a position that is not flagged, [weak] is the
    OR of the masks of the alleles with a positive quality sum and
    [strong] the OR of the masks of the alleles whose quality sum is
    above [min_pileup_qual] and whose share of the total is above
    [min_qual_frac], the share being 0 where the total is 0; at a flagged
    position both are 0. *)
Lemma call_alleles_rule (garbage : nat -> nat -> Q)
    (scd : ScaffoldCallData.t) (min_pileup_qual min_qual_frac : Q) :
  ScaffoldCallData.wf scd ->
  (0 <= min_pileup_qual)%Q ->
  exists w s : list Z,
    ScaffoldCallData.call_alleles garbage scd min_pileup_qual min_qual_frac
      = Ok (ScaffoldCallData.set_calls scd w s)
    /\ forall (p : nat) (cnts quals : list Z) (h : bool),
         ScaffoldCallData.alleles scd !! p = Some (cnts, quals) ->
         ScaffoldCallData.high_coverage scd !! p = Some h ->
         w !! p = Some (if h then 0
                        else ScaffoldCallData.mask_or
                               (ScaffoldCallData.evidence quals))
         /\ s !! p = Some (if h then 0
                           else ScaffoldCallData.mask_or
                                  (ScaffoldCallData.confirmed
                                     (fun _ => 0%Q) min_pileup_qual
                                     min_qual_frac quals)).
Proof.
  intros (Hal & Hlq & Hhc & Hrows) Hmpq.
  destruct (call_alleles_lookup garbage scd min_pileup_qual min_qual_frac)
    as (w & s & Hcall & Hw & Hs & Hlook); [congruence|].
  exists w, s. split; [exact Hcall|].
  intros p cnts quals h Hpos Hh.
  destruct (Hlook p cnts quals h Hpos Hh) as [Hw' Hs'].
  rewrite Hw', Hs', !mask_sum_is_or.
  split; [reflexivity|]. destruct h; [reflexivity|].
  rewrite (confirmed_garbage_irrelevant (garbage p)); [reflexivity|done|].
  eapply Forall_lookup_1 in Hrows; [|exact Hpos]. simpl in Hrows. tauto.
Qed.

(** C4.  On a position without any read, [call_alleles(-1, 0.1)] with an
    output buffer of [numpy.divide] that happens to hold ones calls all
    six alleles strongly, where the call rule (fraction 0 for a zero
    quality sum) gives no allele: the [where=] argument leaves the
    fraction uninitialised instead of 0. *)
Theorem call_alleles_uninitialised_fraction :
  exists scd',
    ScaffoldCallData.call_alleles Samples.ones Samples.scd_empty
                                  (-1) (1 # 10) = Ok scd'
    /\ ScaffoldCallData.weak scd' = Some [0]
    /\ ScaffoldCallData.strong scd' = Some [63]
    /\ ScaffoldCallData.mask_or
         (ScaffoldCallData.confirmed (fun _ => 0%Q) (-1) (1 # 10)
                                     [0; 0; 0; 0; 0; 0]) = 0.
Proof. eexists. repeat split. Qed.

(* ===================================================================== *)
(** * Properties: gaps                                                   *)
(* ===================================================================== *)

Section Runs.

Lemma runs_from_spec (arr : list bool) (l : list bool) :
  forall (start : nat) (cur : bool) (n : nat),
    (1 <= n)%nat ->
    Datatypes.length arr = (start + n + Datatypes.length l)%nat ->
    (forall p : nat, (start <= p < start + n)%nat -> arr !! p = Some cur) ->
    (forall j : nat, arr !! (start + n + j)%nat = l !! j) ->
    (start = 0%nat \/ arr !! (start - 1)%nat = Some (negb cur)) ->
    Forall (fun g => exists b, is_run arr b g) (runs_from start cur n l).
Proof.
  induction l as [|b l IH]; intros start cur n Hn Hlen Hrun Hrest Hleft;
    simpl in *.
  - constructor; [|constructor]. exists cur. unfold is_run; simpl.
    repeat split; try lia; try done.
  - destruct (Bool.eqb b cur) eqn:Eb.
    + apply Bool.eqb_prop in Eb. subst b.
      apply IH; try lia; try done.
      * intros p Hp. destruct (decide (p = start + n)%nat) as [->|Hne].
        -- specialize (Hrest 0%nat). rewrite Nat.add_0_r in Hrest.
           by rewrite Hrest.
        -- apply Hrun. lia.
      * intros j. specialize (Hrest (S j)).
        replace (start + S n + j)%nat with (start + n + S j)%nat by lia.
        by rewrite Hrest.
    + assert (b = negb cur) as Eb' by (by destruct b, cur).
      assert (arr !! (start + n)%nat = Some b) as Hb.
      { specialize (Hrest 0%nat). rewrite Nat.add_0_r in Hrest.
        by rewrite Hrest. }
      constructor.
      * exists cur. unfold is_run; simpl.
        split; [done|]. split; [done|]. split; [done|]. split; [lia|].
        split; [done|]. split; [done|].
        right. by rewrite Hb, Eb'.
      * apply IH; try lia.
        -- intros p Hp. by replace p with (start + n)%nat by lia.
        -- intros j. specialize (Hrest (S j)).
           replace (start + n + 1 + j)%nat with (start + n + S j)%nat by lia.
           by rewrite Hrest.
        -- right. rewrite Eb', negb_involutive. apply Hrun. lia.
Qed.

Lemma consecutive_runs_spec (arr : list bool) :
  Forall (fun g => exists b, is_run arr b g) (consecutive_runs arr).
Proof.
  destruct arr as [|b l]; simpl; [constructor|].
  apply runs_from_spec; simpl; try lia; auto.
  intros p Hp. by replace p with 0%nat by lia.
Qed.

Lemma np_any_replicate (n : nat) (b : bool) :
  (1 <= n)%nat -> np_any (replicate n b) = b.
Proof.
  intros Hn. destruct b.
  - destruct n; [lia|reflexivity].
  - clear Hn. unfold np_any. induction n; simpl; auto.
Qed.

End Runs.

Section FindGaps.

Import ScaffoldCallData.

Lemma nth_lookup_Z (l : list Z) (p : nat) (x : Z) :
  l !! p = Some x -> nth p l 0 = x.
Proof. intros H. by rewrite nth_lookup, H. Qed.

(** The array [covered_array] of [find_gaps], entry by entry. *)
Lemma covered_array_lookup (scd : t) (w : list Z) (p : nat) :
  Datatypes.length (lowmq_count scd) = Datatypes.length (alleles scd) ->
  Datatypes.length w = Datatypes.length (alleles scd) ->
  (p < Datatypes.length (alleles scd))%nat ->
  zip_with (fun x (l : bool) => (0 <? x) || l) w
    (zip_with (fun c d => (1 <? c) && (d <? c)) (lowmq_count scd)
              (map (fun pos => np_sum (fst pos)) (alleles scd))) !! p
  = Some (is_covered scd w p).
Proof.
  intros Hlq Hw Hp.
  destruct (lookup_lt_is_Some_2 (alleles scd) p Hp) as [pos Hpos].
  destruct (lookup_lt_is_Some_2 (lowmq_count scd) p) as [c Hc]; [lia|].
  destruct (lookup_lt_is_Some_2 w p) as [x Hx]; [lia|].
  rewrite !lookup_zip_with, list_lookup_fmap, Hx, Hc, Hpos. simpl.
  unfold is_covered.
  rewrite (nth_lookup_Z _ _ _ Hx), (nth_lookup_Z _ _ _ Hc).
  by rewrite nth_lookup, Hpos.
Qed.

Lemma find_gaps_runs (exp : Q -> Q) (scd : t) (min_size : Z) (w : list Z) :
  wf scd ->
  weak scd = Some w ->
  Datatypes.length w = Z.to_nat (length scd) ->
  exists scd' : t,
    find_gaps exp scd min_size = Ok scd'
    /\ Forall (fun g =>
                 maximal_uncovered_run (is_covered scd w)
                                       (Z.to_nat (length scd)) g
                 /\ scale_min_gap_size exp min_size (mean_coverage scd)
                    <= Z.of_nat (Group.length g))
              (gaps scd').
Proof.
  intros (Hal & Hlq & Hhc & Hrows) Hweak Hw.
  unfold find_gaps, np_zip.
  rewrite length_map, Hlq, Hal, Nat.eqb_refl. simpl.
  rewrite Hweak. simpl.
  rewrite length_zip_with, length_map, Hw, Hlq, Hal, Nat.min_id,
    Nat.eqb_refl. simpl.
  eexists. split; [reflexivity|]. simpl.
  set (arr := zip_with _ w _).
  assert (Datatypes.length arr = Z.to_nat (length scd)) as Harr.
  { unfold arr. rewrite !length_zip_with, length_map. lia. }
  assert (forall p, (p < Z.to_nat (length scd))%nat ->
                    arr !! p = Some (is_covered scd w p)) as Hlook.
  { intros p Hp. apply covered_array_lookup; lia. }
  apply Forall_forall. intros g Hg.
  apply list_elem_of_filter in Hg as [Hany Hg].
  unfold find_consecutive_groups in Hg.
  apply list_elem_of_filter in Hg as [Hmin Hg].
  pose proof (consecutive_runs_spec arr) as Hruns.
  eapply Forall_forall in Hruns; [|exact Hg].
  destruct Hruns as (b & Hdata & Hend & Hpos & Hle & Hin & Hl & Hr).
  assert (b = false) as ->.
  { rewrite Hdata, np_any_replicate in Hany by done. by destruct b. }
  split; [|exact Hmin].
  unfold maximal_uncovered_run. rewrite Harr in *.
  split; [lia|]. split; [lia|]. split; [|split].
  - intros p Hp. specialize (Hin p Hp). rewrite Hlook in Hin by lia.
    by injection Hin.
  - destruct Hl as [Hl|Hl]; [by left|right].
    rewrite Hlook in Hl by lia. by injection Hl.
  - destruct Hr as [Hr|Hr]; [by left|right].
    assert (Group.end_ g < Z.to_nat (length scd))%nat as Hlt.
    { apply lookup_lt_Some in Hr. lia. }
    rewrite Hlook in Hr by lia. by injection Hr.
Qed.

Lemma Forall_absurd_nil {A} (P : A -> Prop) (l : list A) :
  Forall P l -> (forall x, P x -> False) -> l = [].
Proof. destruct 1 as [|x l Hx _]; [done|]. intros H. destruct (H x Hx). Qed.

End FindGaps.

(** C8.  On a scaffold whose weak calls [w] are in place, [find_gaps]
    returns, and every gap it keeps is a maximal run of positions that
    are not covered (no weak call and not dominated by low-mapping-quality
    reads), at least as long as the coverage-scaled minimum gap size; in
    particular, when every position is covered the gap list is empty. *)
Theorem find_gaps_maximal_uncovered_runs (exp : Q -> Q)
    (scd : ScaffoldCallData.t) (min_size : Z) (w : list Z) :
  ScaffoldCallData.wf scd ->
  ScaffoldCallData.weak scd = Some w ->
  Datatypes.length w = Z.to_nat (ScaffoldCallData.length scd) ->
  exists scd' : ScaffoldCallData.t,
    ScaffoldCallData.find_gaps exp scd min_size = Ok scd'
    /\ ((forall p : nat,
           (p < Z.to_nat (ScaffoldCallData.length scd))%nat ->
           ScaffoldCallData.is_covered scd w p = true) ->
        ScaffoldCallData.gaps scd' = [])
    /\ Forall (fun g =>
                 ScaffoldCallData.maximal_uncovered_run
                   (ScaffoldCallData.is_covered scd w)
                   (Z.to_nat (ScaffoldCallData.length scd)) g
                 /\ scale_min_gap_size exp min_size
                      (ScaffoldCallData.mean_coverage scd)
                    <= Z.of_nat (Group.length g))
              (ScaffoldCallData.gaps scd').
Proof.
  intros Hwf Hweak Hw.
  destruct (find_gaps_runs exp scd min_size w Hwf Hweak Hw)
    as (scd' & Hfind & Hall).
  exists scd'. split; [exact Hfind|]. split; [|exact Hall].
  intros Hcov. eapply Forall_absurd_nil; [exact Hall|].
  intros g [(Hse & _ & Hin & _) _].
  specialize (Hin (Group.start g)). rewrite Hcov in Hin by lia.
  discriminate Hin. lia.
Qed.

Lemma scd_gap_wf : ScaffoldCallData.wf Samples.scd_gap.
Proof.
  repeat split; try reflexivity.
  repeat constructor; simpl; lia.
Qed.

Lemma find_gaps_maximal_uncovered_runs_witness :
  ScaffoldCallData.wf Samples.scd_gap
  /\ ScaffoldCallData.weak Samples.scd_gap = Some [1; 1; 0; 0; 0; 1]
  /\ Datatypes.length [1; 1; 0; 0; 0; 1]
     = Z.to_nat (ScaffoldCallData.length Samples.scd_gap)
  /\ exists scd' : ScaffoldCallData.t,
       ScaffoldCallData.find_gaps Samples.exp_rational Samples.scd_gap 1
         = Ok scd'
       /\ ((forall p : nat,
              (p < Z.to_nat (ScaffoldCallData.length Samples.scd_gap))%nat ->
              ScaffoldCallData.is_covered Samples.scd_gap
                                          [1; 1; 0; 0; 0; 1] p = true) ->
           ScaffoldCallData.gaps scd' = [])
       /\ Forall (fun g =>
                    ScaffoldCallData.maximal_uncovered_run
                      (ScaffoldCallData.is_covered Samples.scd_gap
                                                   [1; 1; 0; 0; 0; 1])
                      (Z.to_nat (ScaffoldCallData.length Samples.scd_gap)) g
                    /\ scale_min_gap_size Samples.exp_rational 1
                         (ScaffoldCallData.mean_coverage Samples.scd_gap)
                       <= Z.of_nat (Group.length g))
                 (ScaffoldCallData.gaps scd').
Proof.
  split; [exact scd_gap_wf|]. split; [reflexivity|]. split; [reflexivity|].
  apply (find_gaps_maximal_uncovered_runs Samples.exp_rational
           Samples.scd_gap 1 [1; 1; 0; 0; 0; 1]);
    [exact scd_gap_wf | reflexivity | reflexivity].
Defined.

(** The sample scaffold has one gap, positions 2 to 4; the scaled
    minimum size is 2 at mean coverage 1. *)
Example find_gaps_scd_gap :
  exists scd',
    ScaffoldCallData.find_gaps Samples.exp_rational Samples.scd_gap 1
      = Ok scd'
    /\ ScaffoldCallData.gaps scd'
       = [Group.mk 2 5 3 [false; false; false]]
    /\ scale_min_gap_size Samples.exp_rational 1 1 = 2.
Proof. eexists. repeat split. Qed.


(* ===================================================================== *)
(** * Properties: k-mer set mutators                                     *)
(* ===================================================================== *)

Section Masks.

Context {A : Type}.
Implicit Types (l : list A) (m : list bool).

Lemma mask_select_Forall (P : A -> Prop) l m :
  Forall P l -> Forall P (mask_select l m).
Proof.
  intros H. revert m. induction H as [|x l Hx Hl IH]; intros [|[] m];
    simpl; auto.
Qed.

Lemma mask_select_elem_of x l m : x ∈ mask_select l m -> x ∈ l.
Proof.
  revert m. induction l as [|y l IH]; intros [|[] m]; simpl;
    try (by intros ?%elem_of_nil).
  - intros [->|H]%elem_of_cons; [left|right; eauto].
  - intros H. right. eauto.
Qed.

Lemma mask_select_length_eq {B} l (k : list B) m :
  Datatypes.length l = Datatypes.length k ->
  Datatypes.length (mask_select l m) = Datatypes.length (mask_select k m).
Proof.
  revert k m. induction l as [|x l IH]; intros [|y k] [|[] m] Hlen;
    simpl in *; try done; try (f_equal; apply IH; lia); apply IH; lia.
Qed.

Lemma mask_select_filter (P : A -> Prop) `{forall x, Decision (P x)} l :
  mask_select l (map (fun x => bool_decide (P x)) l) = filter P l.
Proof.
  induction l as [|x l IH]; simpl; [done|].
  rewrite filter_cons. destruct (decide (P x)) as [Hx|Hx].
  - by rewrite bool_decide_true, IH.
  - by rewrite bool_decide_false, IH.
Qed.

Lemma mask_select_map_ext {B} (f g : B -> bool) l (a : list B) :
  (forall x, x ∈ a -> f x = g x) ->
  mask_select l (map f a) = mask_select l (map g a).
Proof.
  revert l. induction a as [|y a IH]; intros l Hfg; simpl; [done|].
  destruct l as [|x l]; [done|]. simpl.
  rewrite (Hfg y) by left. rewrite IH; [done|].
  intros z Hz. apply Hfg. by right.
Qed.

Lemma mask_select_zip {B} l (k : list B) m :
  zip (mask_select l m) (mask_select k m) = mask_select (zip l k) m.
Proof.
  revert k m. induction l as [|x l IH]; intros [|y k] [|[] m]; simpl;
    try done; try (by rewrite IH).
  all: by destruct (mask_select l m).
Qed.

Lemma mask_select_StronglySorted (R : relation A) l m :
  StronglySorted R l -> StronglySorted R (mask_select l m).
Proof.
  intros H. revert m. induction H as [|x l Hl IH Hx]; intros [|[] m];
    simpl; try constructor; auto.
  by apply mask_select_Forall.
Qed.

(** Gathering by the indices of [intersect_ix] selects by the mask
    "is in [b]". *)
Lemma mapM_intersect_ix (a b : list Z) :
  forall (pre l : list A),
    (Datatypes.length a <= Datatypes.length l)%nat ->
    mapM (fun i => (pre ++ l) !! i)
         (kmerizer.intersect_ix_from (Datatypes.length pre) a b)
    = Some (mask_select l (map (fun x => bool_decide (x ∈ b)) a)).
Proof.
  induction a as [|x a IH]; intros pre l Hlen; simpl.
  - by destruct l.
  - destruct l as [|y l]; simpl in Hlen; [lia|].
    assert (mapM (fun i => (pre ++ y :: l) !! i)
              (kmerizer.intersect_ix_from (S (Datatypes.length pre)) a b)
            = Some (mask_select l (map (fun x => bool_decide (x ∈ b)) a)))
      as Hrest.
    { specialize (IH (pre ++ [y]) l).
      rewrite length_app, Nat.add_1_r, <- app_assoc in IH. simpl in IH.
      apply IH. lia. }
    destruct (decide (x ∈ b)) as [Hx|Hx].
    + rewrite bool_decide_true by done. simpl.
      rewrite list_lookup_middle by done. simpl.
      by rewrite Hrest.
    + rewrite bool_decide_false by done. exact Hrest.
Qed.

Lemma np_take_intersect_ix (a b : list Z) l :
  (Datatypes.length a <= Datatypes.length l)%nat ->
  np_take l (kmerizer.intersect_ix a b)
  = Ok (mask_select l (map (fun x => bool_decide (x ∈ b)) a)).
Proof.
  intros Hlen. unfold np_take, kmerizer.intersect_ix.
  pose proof (mapM_intersect_ix a b [] l Hlen) as H. simpl in H.
  by rewrite H.
Qed.

End Masks.

Section KmerSetMutators.

Import KmerSet.

(** Selecting keys and counts by one mask keeps the invariants. *)
Lemma inv_mask_select (self : t) (m : list bool) :
  inv self ->
  inv (set_arrays self (mask_select (kmers self) m)
                       (mask_select (counts self) m)).
Proof.
  intros (Hlen & Hsorted & Hpos). repeat split; simpl.
  - by apply mask_select_length_eq.
  - by apply mask_select_StronglySorted.
  - by apply mask_select_Forall.
Qed.

Lemma intersect_eq (self : t) (other_kmers : list Z) :
  Datatypes.length (kmers self) = Datatypes.length (counts self) ->
  let m := map (fun x => bool_decide (x ∈ other_kmers)) (kmers self) in
  intersect self other_kmers
  = Ok (set_arrays self (mask_select (kmers self) m)
                        (mask_select (counts self) m)).
Proof.
  intros Hlen m. unfold intersect.
  rewrite !np_take_intersect_ix by lia. reflexivity.
Qed.

Lemma exclude_eq (self : t) (other_kmers : list Z) :
  Datatypes.length (kmers self) = Datatypes.length (counts self) ->
  let m := map (fun x => bool_decide (x ∉ other_kmers)) (kmers self) in
  exclude self other_kmers
  = Ok (set_arrays self (mask_select (kmers self) m)
                        (mask_select (counts self) m)).
Proof.
  intros Hlen m. unfold exclude.
  rewrite np_take_intersect_ix by lia. simpl. do 2 f_equal.
  - unfold kmerizer.diff. symmetry. apply mask_select_filter.
  - apply mask_select_map_ext. intros x Hx.
    apply bool_decide_ext. unfold kmerizer.diff.
    rewrite list_elem_of_filter. tauto.
Qed.

Lemma freq_filter_eq (self : t) (min_freq : Z) (max_freq : option Z) :
  Datatypes.length (kmers self) = Datatypes.length (counts self) ->
  exists m : list bool,
    freq_filter self min_freq max_freq
    = Ok (set_arrays self (mask_select (kmers self) m)
                          (mask_select (counts self) m)).
Proof.
  intros Hlen. unfold freq_filter, np_mask_select.
  set (m := match max_freq with Some _ => _ | None => _ end).
  assert (Datatypes.length m = Datatypes.length (counts self)) as Hm.
  { unfold m. destruct max_freq as [mf|]; [destruct (mf =? 0)|];
      rewrite ?length_zip_with, !length_map; lia. }
  exists m. by rewrite Hm, Hlen, !Nat.eqb_refl.
Qed.

Lemma mutual_intersect_eq (self other : t) :
  Datatypes.length (kmers self) = Datatypes.length (counts self) ->
  Datatypes.length (kmers other) = Datatypes.length (counts other) ->
  exists m m' : list bool,
    mutual_intersect self other
    = Ok (set_arrays self (mask_select (kmers self) m)
                          (mask_select (counts self) m),
          set_arrays other (mask_select (kmers other) m')
                           (mask_select (counts other) m')).
Proof.
  intros Hs Ho. unfold mutual_intersect.
  rewrite !np_take_intersect_ix by lia. simpl.
  rewrite !np_take_intersect_ix by lia. simpl.
  by eexists _, _.
Qed.

End KmerSetMutators.

(** C5.  On a k-mer set that satisfies the invariants (as many counts as
    k-mers, k-mers strictly ascending, counts at least 1), [intersect]
    and [exclude] with a sorted key array, [mutual_intersect] with
    another such set and [freq_filter] all return, and leave the set
    (both sets, for [mutual_intersect]) satisfying the invariants. *)
Theorem mutators_preserve_invariants (self other : KmerSet.t)
    (keys : list Z) (min_freq : Z) (max_freq : option Z) :
  KmerSet.inv self ->
  KmerSet.inv other ->
  StronglySorted Z.lt keys ->
  (exists s, KmerSet.intersect self keys = Ok s /\ KmerSet.inv s)
  /\ (exists s, KmerSet.exclude self keys = Ok s /\ KmerSet.inv s)
  /\ (exists s o,
        KmerSet.mutual_intersect self other = Ok (s, o)
        /\ KmerSet.inv s /\ KmerSet.inv o)
  /\ (exists s,
        KmerSet.freq_filter self min_freq max_freq = Ok s /\ KmerSet.inv s).
Proof.
  intros Hself Hother _.
  pose proof Hself as (Hlen & _). pose proof Hother as (Hlen' & _).
  repeat split.
  - eexists. split; [by apply intersect_eq|]. by apply inv_mask_select.
  - eexists. split; [by apply exclude_eq|]. by apply inv_mask_select.
  - destruct (mutual_intersect_eq self other Hlen Hlen') as (m & m' & ->).
    eexists _, _. split; [reflexivity|].
    split; by apply inv_mask_select.
  - destruct (freq_filter_eq self min_freq max_freq Hlen) as (m & ->).
    eexists. split; [reflexivity|]. by apply inv_mask_select.
Qed.

Lemma ks_a_inv : KmerSet.inv Samples.ks_a.
Proof. repeat split; simpl; repeat constructor; lia. Qed.

Lemma ks_b_inv : KmerSet.inv Samples.ks_b.
Proof. repeat split; simpl; repeat constructor; lia. Qed.

Lemma mutators_preserve_invariants_witness :
  KmerSet.inv Samples.ks_a
  /\ KmerSet.inv Samples.ks_b
  /\ StronglySorted Z.lt [5; 7]
  /\ (exists s, KmerSet.intersect Samples.ks_a [5; 7] = Ok s /\ KmerSet.inv s)
  /\ (exists s, KmerSet.exclude Samples.ks_a [5; 7] = Ok s /\ KmerSet.inv s)
  /\ (exists s o,
        KmerSet.mutual_intersect Samples.ks_a Samples.ks_b = Ok (s, o)
        /\ KmerSet.inv s /\ KmerSet.inv o)
  /\ (exists s,
        KmerSet.freq_filter Samples.ks_a 2 (Some 3) = Ok s /\ KmerSet.inv s).
Proof.
  split; [exact ks_a_inv|]. split; [exact ks_b_inv|].
  split; [repeat constructor; lia|].
  apply (mutators_preserve_invariants Samples.ks_a Samples.ks_b [5; 7] 2
                                      (Some 3));
    [exact ks_a_inv | exact ks_b_inv | repeat constructor; lia].
Defined.

(** The mutators on the sample sets. *)
Example mutators_on_samples :
  (KmerSet.kmers <$> res_to_option (KmerSet.intersect Samples.ks_a [5; 7])) = Some [5]
  /\ (KmerSet.counts <$> res_to_option (KmerSet.exclude Samples.ks_a [5; 7])) = Some [1]
  /\ (KmerSet.counts <$> res_to_option (KmerSet.freq_filter Samples.ks_a 2 (Some 3)))
     = Some [2].
Proof. repeat split. Qed.

(* ===================================================================== *)
(** * Properties: MinHash fingerprint                                    *)
(* ===================================================================== *)

Lemma py_round_whole (n : Z) : py_round (inject_Z n * 1) = n.
Proof.
  unfold py_round, Qlt_bool, Qle_bool, Qfloor, Qminus, Qplus, Qopp, Qmult,
    inject_Z. simpl.
  rewrite Z.div_1_r.
  change (Z.pos (1 * 1 * 1)) with 1. change (Z.pos (1 * 1)) with 1.
  destruct (Z.leb_spec (1 * 1) ((n * 1 * 1 + - (n * 1) * 1) * 2)); [lia|].
  simpl. lia.
Qed.

Lemma py_slice_to_all {A} (l : list A) :
  py_slice_to l (Z.of_nat (Datatypes.length l)) = l.
Proof.
  unfold py_slice_to.
  destruct (Z.leb_spec 0 (Z.of_nat (Datatypes.length l))); [|lia].
  rewrite Nat2Z.id. by apply take_ge.
Qed.

Lemma map_nth_seq (l : list Z) :
  map (fun i => nth i l 0) (seq 0 (Datatypes.length l)) = l.
Proof.
  apply list_eq. intros i. rewrite list_lookup_fmap.
  destruct (decide (i < Datatypes.length l)%nat) as [Hi|Hi].
  - rewrite lookup_seq_lt by done. simpl.
    destruct (lookup_lt_is_Some_2 l i Hi) as [x Hx].
    by rewrite Hx, nth_lookup, Hx.
  - rewrite (lookup_ge_None_2 l) by lia.
    rewrite lookup_ge_None_2; [done|]. rewrite length_seq. lia.
Qed.

(** Gathering along a permutation of all the indices gives a
    permutation of the array. *)
Lemma np_take_permutation (l : list Z) (order : list nat) :
  order ≡ₚ seq 0 (Datatypes.length l) ->
  exists sel, np_take l order = Ok sel /\ sel ≡ₚ l.
Proof.
  intros Hperm. exists (map (fun i => nth i l 0) order). split.
  - unfold np_take.
    assert (mapM (fun i => l !! i) order
            = Some (map (fun i => nth i l 0) order)) as ->; [|done].
    apply mapM_Some. apply Forall2_fmap_r, Forall_Forall2_diag.
    apply Forall_forall. intros i Hi.
    rewrite Hperm in Hi. apply elem_of_seq in Hi.
    destruct (lookup_lt_is_Some_2 l i) as [x Hx]; [lia|].
    unfold compose. by rewrite (nth_lookup_Some _ _ _ _ Hx).
  - rewrite Hperm. by rewrite map_nth_seq.
Qed.

Lemma StronglySorted_lt_Sorted_le (l : list Z) :
  StronglySorted Z.lt l -> Sorted Z.le l.
Proof.
  intros H. apply StronglySorted_Sorted.
  induction H as [|x l Hl IH Hx]; constructor; [done|].
  eapply Forall_impl; [exact Hx|]. intros y Hy. simpl in Hy. lia.
Qed.

Section MinHash.

Variable fnvhash_kmers : Z -> list Z -> list Z.
Variable argsort : list Z -> list nat.

(** The hash maps every k-mer to one hash value, and [argsort]
    returns a reordering of all the indices. *)
Hypothesis fnvhash_length :
  forall k kmers,
    Datatypes.length (fnvhash_kmers k kmers) = Datatypes.length kmers.
Hypothesis argsort_permutation :
  forall h, argsort h ≡ₚ seq 0 (Datatypes.length h).

(** C7.  On a k-mer set with strictly ascending, non-empty k-mers,
    [min_hash(1.0)] returns, and stores, a fingerprint equal to the
    k-mer array; and the fingerprint of [min_hash(f)] is a function of
    [k], the k-mer array and [f] alone: two sets that agree on these
    get the same fingerprint (or the same exception). *)
Theorem min_hash_full_and_deterministic (ks ks2 : KmerSet.t) (f : Q) :
  StronglySorted Z.lt (KmerSet.kmers ks) ->
  KmerSet.kmers ks <> [] ->
  KmerSet.k ks2 = KmerSet.k ks ->
  KmerSet.kmers ks2 = KmerSet.kmers ks ->
  (exists ks',
     KmerSet.min_hash fnvhash_kmers argsort ks 1 = Ok (ks', KmerSet.kmers ks)
     /\ KmerSet.fingerprint ks' = Some (KmerSet.kmers ks)
     /\ KmerSet.kmers ks' = KmerSet.kmers ks
     /\ KmerSet.counts ks' = KmerSet.counts ks)
  /\ res_map snd (KmerSet.min_hash fnvhash_kmers argsort ks2 f)
     = res_map snd (KmerSet.min_hash fnvhash_kmers argsort ks f).
Proof.
  intros Hsorted _ Hk Hkmers. split.
  - unfold KmerSet.min_hash. rewrite py_round_whole.
    set (order := argsort _).
    assert (order ≡ₚ seq 0 (Datatypes.length (KmerSet.kmers ks))) as Hord.
    { unfold order. rewrite argsort_permutation.
      by rewrite fnvhash_length. }
    assert (Datatypes.length (KmerSet.kmers ks) = Datatypes.length order)
      as ->.
    { by rewrite (Permutation_length Hord), length_seq. }
    rewrite py_slice_to_all.
    destruct (np_take_permutation (KmerSet.kmers ks) order Hord)
      as (sel & -> & Hsel).
    simpl.
    assert (merge_sort Z.le sel = KmerSet.kmers ks) as ->.
    { apply (Sorted_unique Z.le).
      - apply Sorted_merge_sort. apply _.
      - by apply StronglySorted_lt_Sorted_le.
      - by rewrite merge_sort_Permutation. }
    by eexists.
  - unfold KmerSet.min_hash. rewrite Hk, Hkmers.
    by destruct (np_take _ _).
Qed.

End MinHash.

Lemma argsort_stable_permutation (h : list Z) :
  Samples.argsort_stable h ≡ₚ seq 0 (Datatypes.length h).
Proof.
  unfold Samples.argsort_stable. rewrite merge_sort_Permutation.
  rewrite snd_zip; [done|]. by rewrite length_seq.
Qed.

Lemma mul_hash_length (k : Z) (kmers : list Z) :
  Datatypes.length (Samples.mul_hash k kmers) = Datatypes.length kmers.
Proof. apply length_map. Qed.

Lemma min_hash_full_and_deterministic_witness :
  StronglySorted Z.lt (KmerSet.kmers Samples.ks_a)
  /\ KmerSet.kmers Samples.ks_a <> []
  /\ (exists ks',
        KmerSet.min_hash Samples.mul_hash Samples.argsort_stable
                         Samples.ks_a 1
        = Ok (ks', KmerSet.kmers Samples.ks_a)
        /\ KmerSet.fingerprint ks' = Some (KmerSet.kmers Samples.ks_a)
        /\ KmerSet.kmers ks' = KmerSet.kmers Samples.ks_a
        /\ KmerSet.counts ks' = KmerSet.counts Samples.ks_a)
  /\ res_map snd (KmerSet.min_hash Samples.mul_hash Samples.argsort_stable
                                   Samples.ks_a2 (1 # 2))
     = res_map snd (KmerSet.min_hash Samples.mul_hash Samples.argsort_stable
                                     Samples.ks_a (1 # 2)).
Proof.
  split; [simpl; repeat constructor; lia|]. split; [discriminate|].
  apply (min_hash_full_and_deterministic Samples.mul_hash
           Samples.argsort_stable mul_hash_length argsort_stable_permutation
           Samples.ks_a Samples.ks_a2 (1 # 2));
    [simpl; repeat constructor; lia | discriminate | reflexivity
    | reflexivity].
Defined.

(** Half of the two k-mers of the sample set: the one with the smaller
    hash. *)
Example min_hash_half :
  res_map snd (KmerSet.min_hash Samples.mul_hash Samples.argsort_stable
                                Samples.ks_a (1 # 2))
  = Ok [5].
Proof. reflexivity. Qed.

(* ===================================================================== *)
(** * Properties: spectrum thresholds                                    *)
(* ===================================================================== *)

(** C6.  On a k-mer set whose spectrum has the frequencies 1 to 5 with
    3, 1, 1001, 1100 and 1050 k-mers, the loop of [spectrum_min_max]
    visits all five entries without a [break] (its variable [i] ends at
    4, the entry of frequency 5), and the function returns [(2, 4, 4)]:
    the third component is [freq[i - 1]], the entry before the last one
    visited, and lies below the last frequency 5. *)
Theorem spectrum_min_max_upper_is_second_to_last :
  KmerSet.spectrum Samples.ks_spectrum
    = ([1; 2; 3; 4; 5], [3; 1; 1001; 1100; 1050])
  /\ KmerSet.i (KmerSet.smm_loop [1; 2; 3; 4; 5] [3; 1; 1001; 1100; 1050]
                  (1 # 2) 20 KmerSet.smm_init (seq 0 5)) = 4%nat
  /\ KmerSet.spectrum_min_max Samples.ks_spectrum (1 # 2) 20
     = Ok (Some (2, 4, 4)).
Proof. vm_compute. repeat split. Qed.

(** With a gap in the frequencies after the peak the loop stops at a
    [break], and [freq[i - 1]] is the last entry before it. *)
Example spectrum_min_max_break :
  KmerSet.spectrum_min_max_of [1; 2; 3; 4; 5; 7]
                              [10000; 50; 2000; 1900; 10; 5] (1 # 2) 20
  = Ok (Some (2, 4, 5))
  /\ KmerSet.i (KmerSet.smm_loop [1; 2; 3; 4; 5; 7]
                  [10000; 50; 2000; 1900; 10; 5] (1 # 2) 20
                  KmerSet.smm_init (seq 0 6)) = 5%nat.
Proof. split; reflexivity. Qed.

Section SpectrumMinMax.

Import KmerSet.

Lemma py_index_in_range (l : list Z) (i : nat) :
  (i < Datatypes.length l)%nat ->
  py_index l (Z.of_nat i) = Ok (np_at l i).
Proof.
  intros Hi. unfold py_index.
  destruct (Z.leb_spec 0 (Z.of_nat i)); [|lia].
  destruct (Z.ltb_spec (Z.of_nat i) (Z.of_nat (Datatypes.length l))); [|lia].
  simpl. rewrite Nat2Z.id.
  destruct (lookup_lt_is_Some_2 l i Hi) as [x Hx].
  rewrite Hx. simpl. unfold np_at. by rewrite (nth_lookup_Some _ _ _ _ Hx).
Qed.

(** What a returned triple is made of: the frequencies at [min_index]
    and [max_index] and the frequency at [i - 1]; and the count at
    [max_index] exceeds [(1 + delta)] times the count at [min_index]. *)
Lemma smm_result_triple (freq cnts : list Z) (delta : Q) (st : smm_state)
    (lo hi up : Z) :
  smm_result freq cnts delta st = Ok (Some (lo, hi, up)) ->
  py_index freq (Z.of_nat (min_index st)) = Ok lo
  /\ py_index freq (Z.of_nat (max_index st)) = Ok hi
  /\ py_index freq (Z.of_nat (i st) - 1) = Ok up
  /\ (inject_Z (np_at cnts (min_index st)) * (1 + delta)
      < inject_Z (np_at cnts (max_index st)))%Q.
Proof.
  unfold smm_result.
  destruct (negb (min_index st =? 0)%nat && negb (max_index st =? 0)%nat
            && Qlt_bool _ _) eqn:E; [|discriminate].
  apply andb_true_iff in E as [_ E]. apply Qlt_bool_true in E.
  destruct (py_index freq (Z.of_nat (min_index st))) as [lo'|]; [|discriminate].
  destruct (py_index freq (Z.of_nat (max_index st))) as [hi'|]; [|discriminate].
  destruct (py_index freq (Z.of_nat (i st) - 1)) as [up'|]; [|discriminate].
  simpl. intros [= -> -> ->]. done.
Qed.

Lemma not_above_self (c : Z) (delta : Q) :
  0 <= c -> (0 <= delta)%Q ->
  Qlt_bool (inject_Z c * (1 + delta)) (inject_Z c) = false.
Proof.
  intros Hc Hd. apply Qlt_bool_false.
  assert (0 <= inject_Z c)%Q as Hc'.
  { unfold Qle, inject_Z. simpl. lia. }
  nra.
Qed.

Lemma smm_loop_no_valley (freq cnts : list Z) (delta : Q) (mcn : Z) :
  (0 <= delta)%Q ->
  Forall (fun c => 0 <= c) cnts ->
  no_error_valley cnts delta ->
  forall (n a : nat) (st : smm_state),
    (a + n <= Datatypes.length cnts)%nat ->
    have_min st = false ->
    min_index st = max_index st ->
    (min_index st <= a)%nat ->
    let st' := smm_loop freq cnts delta mcn st (seq a n) in
    have_min st' = false /\ min_index st' = max_index st'.
Proof.
  intros Hd Hpos Hnv. induction n as [|n IH]; intros a st Hlen Hm Heq Hle;
    simpl; [done|].
  destruct (have_max st && _) eqn:Ebreak; [done|].
  rewrite Hm.
  assert (0 <= np_at cnts a) as Ha.
  { unfold np_at. destruct (nth_lookup_or_length cnts a 0) as [Hx|Hx]; [|lia].
    eapply Forall_lookup_1 in Hpos; [exact Hpos|exact Hx]. }
  assert ((1000 <? np_at cnts a)
          && Qlt_bool (inject_Z (np_at cnts (min_index st)) * (1 + delta))
                      (inject_Z (np_at cnts a)) = false) as ->.
  { apply andb_false_iff.
    destruct (decide (min_index st = a)) as [->|Hne].
    - right. by apply not_above_self.
    - destruct (Z.ltb_spec 1000 (np_at cnts a)) as [H1|H1]; [|by left].
      right. apply not_true_iff_false. intros H2%Qlt_bool_true.
      apply (Hnv a (min_index st)); [lia|done]. }
  destruct ((last_freq st + 1 <? np_at freq a)
            || (np_at cnts a <? np_at cnts (min_index st)));
    [apply IH; simpl; try done; lia|].
  destruct (np_at cnts a <? np_at cnts (min_index st));
    apply IH; simpl; try done; lia.
Qed.

(** On a spectrum without an error valley, [spectrum_min_max] returns
    nothing. *)
Lemma spectrum_min_max_no_valley (freq cnts : list Z) (delta : Q)
    (mcn : Z) :
  (0 <= delta)%Q ->
  Datatypes.length freq = Datatypes.length cnts ->
  Forall (fun c => 0 <= c) cnts ->
  no_error_valley cnts delta ->
  spectrum_min_max_of freq cnts delta mcn = Ok None.
Proof.
  intros Hd Hlen Hpos Hnv. unfold spectrum_min_max_of.
  destruct (smm_loop_no_valley freq cnts delta mcn Hd Hpos Hnv
              (Datatypes.length freq) 0%nat smm_init) as [Hm Heq];
    simpl; try done; try lia.
  unfold smm_result. rewrite <- Heq.
  rewrite not_above_self; [|
    unfold np_at;
    destruct (nth_lookup_or_length cnts
                (min_index (smm_loop freq cnts delta mcn smm_init
                              (seq 0 (Datatypes.length freq)))) 0)
      as [Hx|Hx];
    [eapply Forall_lookup_1 in Hpos; [exact Hpos|exact Hx]
    |rewrite nth_overflow by lia; lia] | done].
  by rewrite andb_false_r.
Qed.

Lemma rle_from_shape (l : list Z) :
  forall cur n, 1 <= n -> Forall (fun p => 1 <= snd p) (rle_from cur n l).
Proof.
  induction l as [|x l IH]; intros cur n Hn; simpl.
  - by repeat constructor.
  - destruct (x =? cur); [apply IH; lia|].
    constructor; [done|]. apply IH. lia.
Qed.

Lemma spectrum_shape (self : t) :
  Datatypes.length (fst (spectrum self))
  = Datatypes.length (snd (spectrum self))
  /\ Forall (fun c => 0 <= c) (snd (spectrum self)).
Proof.
  unfold spectrum, np_unique_counts.
  destruct (merge_sort Z.le (counts self)) as [|x l]; simpl; [done|].
  rewrite !length_map. split; [done|].
  apply Forall_fmap. eapply Forall_impl; [by apply rle_from_shape|].
  intros p Hp. unfold compose. simpl in *. lia.
Qed.

(** On a k-mer set whose spectrum has no error valley,
    [spectrum_min_max] returns nothing. *)
Lemma spectrum_min_max_unimodal (self : t) (delta : Q) (mcn : Z) :
  (0 <= delta)%Q ->
  no_error_valley (snd (spectrum self)) delta ->
  spectrum_min_max self delta mcn = Ok None.
Proof.
  intros Hd Hnv. unfold spectrum_min_max.
  destruct (spectrum_shape self) as [Hlen Hpos].
  destruct (spectrum self) as [freq cnts]. simpl in *.
  by apply spectrum_min_max_no_valley.
Qed.

End SpectrumMinMax.

(* ===================================================================== *)
(** * Properties: pan-genome metrics of a sample                         *)
(* ===================================================================== *)

Section Pairs.

Lemma mask_select_fmap {A B} (f : A -> B) (l : list A) (m : list bool) :
  mask_select (f <$> l) m = f <$> mask_select l m.
Proof.
  revert m. induction l as [|x l IH]; intros [|[] m]; simpl; try done.
  all: by rewrite IH.
Qed.

Lemma mask_select_map_filter {A} (f : A -> bool) (l : list A) :
  mask_select l (map f l) = List.filter f l.
Proof.
  induction l as [|x l IH]; simpl; [done|].
  destruct (f x); by rewrite IH.
Qed.

Lemma StronglySorted_lt_NoDup (l : list Z) :
  StronglySorted Z.lt l -> NoDup l.
Proof.
  induction 1 as [|x l Hl IH Hx]; constructor; [|done].
  intros Hin. eapply Forall_forall in Hx; [|exact Hin]. lia.
Qed.




Lemma select_pairs {A B} (g : A * B -> bool) (ks : list A) (cs : list B) :
  Datatypes.length ks = Datatypes.length cs ->
  mask_select ks (map g (zip ks cs)) = (List.filter g (zip ks cs)).*1
  /\ mask_select cs (map g (zip ks cs)) = (List.filter g (zip ks cs)).*2.
Proof.
  revert cs. induction ks as [|k ks IH]; intros [|c cs] Hlen;
    simpl in *; try done.
  destruct (IH cs) as [IH1 IH2]; [lia|].
  destruct (g (k, c)); simpl; by rewrite IH1, IH2.
Qed.

Lemma map_fst_zip {A B C} (f : A -> C) (ks : list A) (cs : list B) :
  Datatypes.length ks = Datatypes.length cs ->
  map f ks = map (fun kc => f (fst kc)) (zip ks cs).
Proof.
  revert cs. induction ks as [|k ks IH]; intros [|c cs] Hlen;
    simpl in *; try done.
  f_equal. apply IH. lia.
Qed.

Lemma map_snd_zip {A B C} (f : B -> C) (ks : list A) (cs : list B) :
  Datatypes.length ks = Datatypes.length cs ->
  map f cs = map (fun kc => f (snd kc)) (zip ks cs).
Proof.
  revert cs. induction ks as [|k ks IH]; intros [|c cs] Hlen;
    simpl in *; try done.
  f_equal. apply IH. lia.
Qed.

End Pairs.

Section Metrics.

Import StrainGST.





End Metrics.



Lemma sample3_inv : KmerSet.inv (Sample.base Samples.sample3).
Proof. repeat split; simpl; repeat constructor; lia. Qed.



(* ===================================================================== *)
(** * Properties: scoring a strain                                       *)
(* ===================================================================== *)

Section Positivity.

Lemma inject_Z_pos (n : Z) : 1 <= n -> (0 < inject_Z n)%Q.
Proof. intros Hn. unfold Qlt, inject_Z. simpl. lia. Qed.

Lemma Qeq_bool_pos (x : Q) : (0 < x)%Q -> Qeq_bool x 0 = false.
Proof.
  intros Hx. apply not_true_iff_false. intros H%Qeq_bool_iff.
  rewrite H in Hx. by apply Qlt_irrefl in Hx.
Qed.

Lemma Qdiv_pos (x y : Q) : (0 < x)%Q -> (0 < y)%Q -> (0 < x / y)%Q.
Proof.
  intros Hx Hy. unfold Qdiv. apply Qmult_lt_0_compat; [done|].
  by apply Qinv_lt_0_compat.
Qed.

Lemma np_div_pos (x y : Q) :
  (0 < y)%Q -> np_div x y = Ok (x / y)%Q.
Proof. intros Hy. unfold np_div. by rewrite Qeq_bool_pos. Qed.

Lemma py_div_pos (x y : Q) :
  (0 < y)%Q -> py_div x y = Ok (x / y)%Q.
Proof. intros Hy. unfold py_div. by rewrite Qeq_bool_pos. Qed.

Lemma np_sum_pos (l : list Z) :
  Forall (fun c => 1 <= c) l -> l <> [] -> 1 <= np_sum l.
Proof.
  intros H Hne. destruct H as [|c l Hc Hl]; [done|]. simpl.
  assert (0 <= np_sum l); [|lia].
  clear Hne Hc. induction Hl; simpl; lia.
Qed.

(** The weights [1.0 / pan_counts]. *)
Lemma weights_ok (pan_counts : list Z) :
  Forall (fun c => 1 <= c) pan_counts ->
  exists ws : list Q,
    mapM_res (fun c => np_div 1 (inject_Z c)) pan_counts = Ok ws
    /\ Datatypes.length ws = Datatypes.length pan_counts
    /\ Forall (fun w => 0 < w)%Q ws.
Proof.
  induction 1 as [|c l Hc Hl (ws & IH & Hlen & Hws)]; simpl.
  - by exists [].
  - rewrite np_div_pos by (by apply inject_Z_pos). simpl.
    rewrite IH. simpl.
    eexists. split; [reflexivity|]. split; [simpl; lia|].
    constructor; [|done]. apply Qdiv_pos; [done|by apply inject_Z_pos].
Qed.

(** A weighted sum of counts, all at least 1, with positive weights. *)
Lemma weighted_sum_pos (cs : list Z) (ws : list Q) :
  Forall (fun c => 1 <= c) cs ->
  Forall (fun w => 0 < w)%Q ws ->
  Datatypes.length cs = Datatypes.length ws ->
  cs <> [] ->
  (0 < np_sumQ (zip_with (fun c w => inject_Z c * w) cs ws))%Q.
Proof.
  intros Hcs. revert ws.
  induction Hcs as [|c cs Hc Hcs IH]; intros [|w ws] Hws Hlen Hne;
    simpl in *; try done.
  apply Forall_cons in Hws as [Hw Hws].
  assert (0 < inject_Z c * w)%Q as Hcw
    by (apply Qmult_lt_0_compat; [by apply inject_Z_pos|done]).
  destruct cs as [|c' cs].
  - destruct ws; simpl in *; [|lia]. lra.
  - assert (0 < np_sumQ (zip_with (fun c w => inject_Z c * w) (c' :: cs) ws))%Q
      by (apply IH; [done|lia|done]).
    lra.
Qed.

End Positivity.

Section ScoreMetrics.

Variable exp : Q -> Q.

(** [math.exp] stays below 1 on negative arguments. *)
Hypothesis exp_neg_lt_1 : forall x : Q, (0 < x)%Q -> (exp (- x) < 1)%Q.

Lemma Zlen_pos {A} (l : list A) : l <> [] -> 1 <= Zlen l.
Proof. destruct l; [done|]. unfold Zlen. simpl. lia. Qed.


End ScoreMetrics.

Section ScoreStrain.

Variable exp : Q -> Q.
Hypothesis exp_neg_lt_1 : forall x : Q, (0 < x)%Q -> (exp (- x) < 1)%Q.

Lemma load_strain_base (pan pan1 : PanGenome.t) (name : string)
    (strain : StrainKmerSet.t) :
  StrainGST.load_strain pan name = Ok (pan1, strain) ->
  PanGenome.base pan1 = PanGenome.base pan.
Proof.
  unfold StrainGST.load_strain.
  destruct (PanGenome.strainCache pan !! name) as [cached|].
  - by intros [= -> _].
  - destruct (StrainKmerSet_init pan name) as [s|]; simpl; [|done].
    by intros [= <- _].
Qed.

Lemma filter_length_subset (a b : list Z) :
  NoDup a -> NoDup b -> (forall x, x ∈ a -> x ∈ b) ->
  Datatypes.length (filter (fun x => x ∈ a) b) = Datatypes.length a.
Proof.
  intros Ha Hb Hsub. apply Permutation_length, NoDup_Permutation.
  - by apply NoDup_filter.
  - done.
  - intros x. rewrite list_elem_of_filter. split; [tauto|auto].
Qed.

Lemma mask_select_length_filter {A} (l : list A) (a b : list Z) :
  Datatypes.length l = Datatypes.length b ->
  Datatypes.length (mask_select l (map (fun x => bool_decide (x ∈ a)) b))
  = Datatypes.length (filter (fun x => x ∈ a) b).
Proof.
  intros Hlen. rewrite <- (mask_select_filter (fun x => x ∈ a) b).
  by apply mask_select_length_eq.
Qed.

Lemma exclusion_kept (strain : StrainKmerSet.t) (excludes : option (list Z)) :
  KmerSet.inv (StrainKmerSet.base strain) ->
  exists strain' : StrainKmerSet.t,
    match excludes with
    | Some e =>
        let* b := KmerSet.exclude (StrainKmerSet.base strain) e in
        Ok (StrainKmerSet.set_base strain b)
    | None => Ok strain
    end = Ok strain'
    /\ StrainKmerSet.kmers strain' = StrainGST.strain_left strain excludes
    /\ KmerSet.inv (StrainKmerSet.base strain')
    /\ StrainKmerSet.distinct_kmers strain'
       = StrainKmerSet.distinct_kmers strain
    /\ StrainKmerSet.counts strain' = StrainGST.counts_left strain excludes.
Proof.
  intros Hinv. destruct excludes as [e|]; simpl.
  - rewrite exclude_eq by apply Hinv. cbn.
    eexists. split; [reflexivity|]. cbn. split; [|split; [|done]].
    + unfold kmerizer.diff. apply mask_select_filter.
    + by apply inv_mask_select.
  - by exists strain.
Qed.


End ScoreStrain.

Lemma exp_rational_neg (x : Q) :
  (0 < x)%Q -> (Samples.exp_rational (- x) < 1)%Q.
Proof.
  intros Hx. unfold Samples.exp_rational.
  assert (Qle_bool (- x) 0 = true) as -> by (apply Qle_bool_iff; lra).
  apply Qlt_shift_div_r; lra.
Qed.

Lemma strain_x_inv : KmerSet.inv (StrainKmerSet.base Samples.strain_x_loaded).
Proof. repeat split; simpl; repeat constructor; lia. Qed.

Lemma pan3_inv : KmerSet.inv (PanGenome.base Samples.pan3).
Proof. repeat split; simpl; repeat constructor; lia. Qed.

Lemma strain_x_in_pan3 (x : Z) :
  x ∈ StrainKmerSet.kmers Samples.strain_x_loaded ->
  x ∈ PanGenome.kmers Samples.pan3.
Proof.
  unfold StrainKmerSet.kmers, PanGenome.kmers. simpl.
  rewrite !elem_of_cons. tauto.
Qed.


(** Strain X against the sample data: a record with [acct = 5/9] and
    [even = 7/5] without exclusion; nothing once both its k-mers are
    excluded; nothing with [min_acct] at 0.9. *)
Example score_strain_samples :
  (exists pan' r,
     StrainGST.score_strain Samples.exp_rational Samples.cfg
       Samples.pan3 "X" Samples.sample3 None = Ok (pan', Some r)
     /\ (Strain.acct r == 5 # 9)%Q /\ (Strain.even r == 7 # 5)%Q
     /\ (Strain.cov r == 1)%Q)
  /\ (exists pan',
        StrainGST.score_strain Samples.exp_rational Samples.cfg
          Samples.pan3 "X" Samples.sample3 (Some [1; 2]) = Ok (pan', None))
  /\ (exists pan',
        StrainGST.score_strain Samples.exp_rational (StrainGST.mk false 5 1 (2 # 100) (6 # 10) (1 # 100) (9 # 10) 10)
          Samples.pan3 "X" Samples.sample3 None = Ok (pan', None)).
Proof.
  repeat split.
  - eexists _, _. split; [vm_compute; reflexivity|]. repeat split.
  - eexists. vm_compute. reflexivity.
  - eexists. vm_compute. reflexivity.
Qed.

(* ===================================================================== *)
(** * Further properties: printing k-mers                                *)
(* ===================================================================== *)

Section KmerString.

Lemma kmer_field_testbit (a j i : Z) :
  0 <= j -> 0 <= i ->
  Z.testbit (kmer_field a j) i = Z.testbit a (i + 2 * j) && (i <? 2).
Proof.
  intros Hj Hi. unfold kmer_field.
  rewrite Z.land_spec, Z.shiftr_spec by lia. f_equal.
  destruct (Z.ltb_spec i 2).
  - assert (i = 0 \/ i = 1) as [-> | ->] by lia; reflexivity.
  - change 3 with (Z.ones 2). apply Z.ones_spec_high. lia.
Qed.

Lemma kmer_field_range (a j : Z) : 0 <= kmer_field a j < 4.
Proof.
  unfold kmer_field. split.
  - apply Z.land_nonneg. right. lia.
  - change 3 with (Z.ones 2). rewrite Z.land_ones by lia.
    apply Z.mod_pos_bound. lia.
Qed.

Lemma kmer_field_mod (a j k : Z) :
  0 <= j < k -> kmer_field (a mod 4 ^ k) j = kmer_field a j.
Proof.
  intros Hj. apply Z.bits_inj'. intros i Hi.
  rewrite !kmer_field_testbit by lia.
  destruct (Z.ltb_spec i 2); [|by rewrite !andb_false_r].
  rewrite !andb_true_r.
  replace (4 ^ k) with (2 ^ (2 * k)) by (rewrite Z.pow_mul_r by lia; reflexivity).
  apply Z.mod_pow2_bits_low. lia.
Qed.

Lemma fields_determine_mod (a b k : Z) :
  0 <= k ->
  (forall j, 0 <= j < k -> kmer_field a j = kmer_field b j) ->
  a mod 4 ^ k = b mod 4 ^ k.
Proof.
  intros Hk Hf.
  replace (4 ^ k) with (2 ^ (2 * k)) by (rewrite Z.pow_mul_r by lia; reflexivity).
  apply Z.bits_inj'. intros n Hn.
  destruct (Z.ltb_spec n (2 * k)) as [Hlt|Hge].
  - rewrite !Z.mod_pow2_bits_low by lia.
    assert (0 <= n / 2 < k) as Hj by (split; [apply Z.div_pos; lia | apply Z.div_lt_upper_bound; lia]).
    pose proof (Z.mod_pos_bound n 2 ltac:(lia)) as Hi.
    pose proof (Z.div_mod n 2 ltac:(lia)) as Hn2.
    pose proof (f_equal (fun x => Z.testbit x (n mod 2)) (Hf (n / 2) Hj)) as Hb.
    simpl in Hb. rewrite !kmer_field_testbit in Hb by lia.
    replace (n mod 2 + 2 * (n / 2)) with n in Hb by lia.
    destruct (Z.ltb_spec (n mod 2) 2); [|lia].
    by rewrite !andb_true_r in Hb.
  - rewrite !Z.mod_pow2_bits_high by lia. reflexivity.
Qed.

Lemma BASES_at_inj (x y : Z) :
  0 <= x < 4 -> 0 <= y < 4 -> BASES_at x = BASES_at y -> x = y.
Proof.
  intros Hx Hy.
  assert (x = 0 \/ x = 1 \/ x = 2 \/ x = 3) as [-> | [-> | [-> | ->]]] by lia;
  assert (y = 0 \/ y = 1 \/ y = 2 \/ y = 3) as [-> | [-> | [-> | ->]]] by lia;
  vm_compute; congruence.
Qed.

Lemma string_of_list_ascii_length (l : list Ascii.ascii) :
  String.length (String.string_of_list_ascii l) = Datatypes.length l.
Proof. induction l; simpl; congruence. Qed.

Lemma string_of_list_ascii_inj (l1 l2 : list Ascii.ascii) :
  String.string_of_list_ascii l1 = String.string_of_list_ascii l2 -> l1 = l2.
Proof.
  intros H. apply (f_equal String.list_ascii_of_string) in H.
  by rewrite !String.list_ascii_of_string_of_list_ascii in H.
Qed.

Lemma map_ext_seqZ {A} (f g : Z -> A) (k : Z) :
  map f (seqZ 0 k) = map g (seqZ 0 k) <->
  (forall j, 0 <= j < k -> f j = g j).
Proof.
  split.
  - intros H j Hj.
    assert (seqZ 0 k !! Z.to_nat j = Some j) as Hl.
    { rewrite lookup_seqZ_lt by lia. f_equal. lia. }
    pose proof (f_equal (fun l => l !! Z.to_nat j) H) as H'. simpl in H'.
    rewrite !list_lookup_fmap, Hl in H'. simpl in H'. congruence.
  - intros H. apply map_ext_in. intros j Hj.
    apply list_elem_of_In, elem_of_seqZ in Hj. apply H. lia.
Qed.

(** X1.  [kmer_string(k, kmer)] has [k] characters and reads the low
    [2k] bits of [kmer] only: two integers print alike exactly when they
    agree modulo [4^k], so distinct k-mers below [4^k] print
    differently. *)
Theorem kmer_string_low_bits (k a b : Z) :
  0 <= k ->
  String.length (kmer_string k a) = Z.to_nat k
  /\ (kmer_string k a = kmer_string k b <-> a mod 4 ^ k = b mod 4 ^ k).
Proof.
  intros Hk. unfold kmer_string. split.
  - by rewrite string_of_list_ascii_length, length_map, length_reverse,
      length_seqZ.
  - split.
    + intros H. apply string_of_list_ascii_inj in H.
      rewrite !fmap_reverse in H.
      apply (f_equal reverse) in H. rewrite !reverse_involutive in H.
      apply fields_determine_mod; [done|].
      intros j Hj.
      pose proof (proj1 (map_ext_seqZ _ _ k) H j Hj) as Hb.
      apply BASES_at_inj in Hb; [done|apply kmer_field_range|apply kmer_field_range].
    + intros H. f_equal. apply map_ext_in. intros j Hj.
      apply list_elem_of_In, elem_of_reverse, elem_of_seqZ in Hj.
      rewrite <- (kmer_field_mod a j k), <- (kmer_field_mod b j k) by lia.
      by rewrite H.
Qed.

End KmerString.

Lemma kmer_string_low_bits_witness :
  0 <= 4
  /\ String.length (kmer_string 4 27) = Z.to_nat 4
  /\ (kmer_string 4 27 = kmer_string 4 283 <-> 27 mod 4 ^ 4 = 283 mod 4 ^ 4).
Proof.
  split; [lia|]. apply (kmer_string_low_bits 4 27 283). lia.
Defined.

(* ===================================================================== *)
(** * Further properties: similarity scores                              *)
(* ===================================================================== *)

Lemma float_div_unit (x y : Q) :
  (0 <= x)%Q -> (x <= y)%Q ->
  match float_div x y with
  | Returns s => (0 <= s <= 1)%Q
  | Raises e => e = ZeroDivisionError /\ (y == 0)%Q
  | AssertionError => False
  end.
Proof.
  intros Hx Hxy. unfold float_div.
  destruct (Qeq_bool y 0) eqn:E.
  - apply Qeq_bool_iff in E. by split.
  - assert (0 < y)%Q as Hy.
    { apply Qle_lt_or_eq in Hxy as [Hlt|Heq].
      - eapply Qle_lt_trans; eauto.
      - assert (~ y == 0)%Q as Hne
          by (intros H; apply Qeq_bool_iff in H; congruence).
        apply Qle_lt_or_eq in Hx as [Hlt|Heq0]; [by rewrite <- Heq|].
        destruct Hne. by rewrite <- Heq, <- Heq0. }
    split.
    + apply Qle_shift_div_l; [done|]. lra.
    + apply Qle_shift_div_r; [done|]. lra.
Qed.

Lemma inject_Z_length_zero {A} (l : list A) :
  (inject_Z (Z.of_nat (Datatypes.length l)) == 0)%Q -> l = [].
Proof.
  unfold Qeq, inject_Z. simpl. intros H. destruct l; [done|]. simpl in H. lia.
Qed.

Section Similarity.

Variable count_common : list Z -> list Z -> Z.

(** The number of common k-mers is at most the size of either set. *)
Hypothesis count_common_bound :
  forall a b : list Z,
    0 <= count_common a b
    <= Z.min (Z.of_nat (Datatypes.length a)) (Z.of_nat (Datatypes.length b)).

(** The outcomes of [similarity_score] and what each one implies. *)
Lemma similarity_score_outcomes (kmers1 kmers2 : list Z)
    (scoring : string) :
  match similarity_score count_common kmers1 kmers2 scoring with
  | Returns s => (0 <= s <= 1)%Q
  | Raises e => e = ZeroDivisionError /\ (kmers1 = [] \/ kmers2 = [])
  | AssertionError =>
      scoring <> "jaccard"%string /\ scoring <> "minsize"%string
      /\ scoring <> "meansize"%string /\ scoring <> "maxsize"%string
      /\ scoring <> "reference"%string
  end.
Proof.
  pose proof (count_common_bound kmers1 kmers2) as Hb.
  set (i := count_common kmers1 kmers2) in *.
  set (n1 := Z.of_nat (Datatypes.length kmers1)) in *.
  set (n2 := Z.of_nat (Datatypes.length kmers2)) in *.
  assert (0 <= n1 /\ 0 <= n2) as [Hn1 Hn2] by (unfold n1, n2; lia).
  assert (0 <= inject_Z i)%Q as Hi by (rewrite <- (Zle_Qle 0); lia).
  assert (inject_Z i <= inject_Z n1)%Q as Hi1 by (rewrite <- Zle_Qle; lia).
  assert (inject_Z i <= inject_Z n2)%Q as Hi2 by (rewrite <- Zle_Qle; lia).
  assert (forall (P : Prop) (y : Q),
            (inject_Z i <= y)%Q ->
            ((y == 0)%Q -> kmers1 = [] \/ kmers2 = []) ->
            match float_div (inject_Z i) y with
            | Returns s => (0 <= s <= 1)%Q
            | Raises e => e = ZeroDivisionError /\ (kmers1 = [] \/ kmers2 = [])
            | AssertionError => P
            end) as Hdiv.
  { intros P y Hy Hz. pose proof (float_div_unit (inject_Z i) y Hi Hy) as H.
    destruct (float_div (inject_Z i) y); [done| |done].
    destruct H as [-> H0]. split; [done|]. by apply Hz. }
  unfold similarity_score. fold i.
  destruct (String.eqb scoring "jaccard") eqn:E1.
  { apply Hdiv; unfold Qsize; fold n1 n2; [lra|].
    intros H0. left. apply inject_Z_length_zero. fold n1.
    assert (inject_Z n1 <= 0)%Q by lra.
    assert (0 <= inject_Z n1)%Q by (rewrite <- (Zle_Qle 0); lia). lra. }
  destruct (String.eqb scoring "minsize") eqn:E2.
  { apply Hdiv; unfold size_min; fold n1 n2.
    - rewrite <- Zle_Qle. lia.
    - intros H0. unfold Qeq, inject_Z in H0. simpl in H0.
      destruct (Z.min_spec n1 n2) as [[_ Hm]|[_ Hm]]; rewrite Hm in H0.
      + left. unfold n1 in H0. destruct kmers1; [done|simpl in H0; lia].
      + right. unfold n2 in H0. destruct kmers2; [done|simpl in H0; lia]. }
  destruct (String.eqb scoring "meansize") eqn:E3.
  { apply Hdiv; unfold Qsize; fold n1 n2.
    - apply Qle_shift_div_l; lra.
    - intros H0. left. apply inject_Z_length_zero. fold n1.
      assert (0 <= inject_Z n1)%Q by (rewrite <- (Zle_Qle 0); lia).
      assert (0 <= inject_Z n2)%Q by (rewrite <- (Zle_Qle 0); lia).
      change ((inject_Z n1 + inject_Z n2) * (1 # 2) == 0)%Q in H0.
      lra. }
  destruct (String.eqb scoring "maxsize") eqn:E4.
  { apply Hdiv; unfold size_max; fold n1 n2.
    - rewrite <- Zle_Qle. lia.
    - intros H0. unfold Qeq, inject_Z in H0. simpl in H0.
      left. unfold n1 in *. destruct kmers1; [done|simpl in *; lia]. }
  destruct (String.eqb scoring "reference") eqn:E5.
  { apply Hdiv; unfold Qsize; fold n2; [done|].
    intros H0. right. by apply inject_Z_length_zero. }
  apply String.eqb_neq in E1, E2, E3, E4, E5. done.
Qed.

(** X2.  Whatever the scoring, a similarity score that is returned lies
    between 0 and 1; the only exception that is raised is
    [ZeroDivisionError], and only when one of the sets is empty; and
    the assertion fails exactly for a scoring that is none of jaccard,
    minsize, meansize, maxsize and reference. *)
Theorem similarity_score_unit_interval (kmers1 kmers2 : list Z)
    (scoring : string) :
  match similarity_score count_common kmers1 kmers2 scoring with
  | Returns s => (0 <= s <= 1)%Q
  | Raises e => e = ZeroDivisionError /\ (kmers1 = [] \/ kmers2 = [])
  | AssertionError => True
  end
  /\ (similarity_score count_common kmers1 kmers2 scoring = AssertionError
      <-> scoring ∉ ["jaccard"; "minsize"; "meansize"; "maxsize";
                     "reference"]%string).
Proof.
  pose proof (similarity_score_outcomes kmers1 kmers2 scoring) as H.
  split.
  - by destruct (similarity_score count_common kmers1 kmers2 scoring).
  - rewrite !not_elem_of_cons. split.
    + intros E. rewrite E in H. destruct H as (? & ? & ? & ? & ?).
      repeat split; try done. apply not_elem_of_nil.
    + intros (H1 & H2 & H3 & H4 & H5 & _).
      apply String.eqb_neq in H1, H2, H3, H4, H5.
      unfold similarity_score. by rewrite H1, H2, H3, H4, H5.
Qed.

End Similarity.

Lemma count_common_walk_bound (a : list Z) :
  forall b : list Z,
    0 <= kmerizer.count_common a b
    <= Z.min (Z.of_nat (Datatypes.length a)) (Z.of_nat (Datatypes.length b)).
Proof.
  induction a as [|x a IHa]; intros b.
  - destruct b; simpl; lia.
  - induction b as [|y b IHb]; [simpl; lia|].
    simpl. destruct (x =? y).
    + specialize (IHa b). lia.
    + destruct (x <? y).
      * specialize (IHa (y :: b)). simpl in IHa. lia.
      * simpl in IHb. lia.
Qed.

Lemma similarity_score_unit_interval_witness :
  (forall a b : list Z,
     0 <= kmerizer.count_common a b
     <= Z.min (Z.of_nat (Datatypes.length a)) (Z.of_nat (Datatypes.length b)))
  /\ match similarity_score kmerizer.count_common [5; 9] [5; 7] "jaccard" with
     | Returns s => (0 <= s <= 1)%Q
     | Raises e => e = ZeroDivisionError /\ ([5; 9] = [] \/ [5; 7] = [])
     | AssertionError => True
     end
  /\ (similarity_score kmerizer.count_common [5; 9] [5; 7] "jaccard"
      = AssertionError
      <-> "jaccard"%string ∉ ["jaccard"; "minsize"; "meansize"; "maxsize";
                              "reference"]%string).
Proof.
  split; [exact count_common_walk_bound|].
  apply (similarity_score_unit_interval kmerizer.count_common
           count_common_walk_bound [5; 9] [5; 7] "jaccard").
Defined.

(** The scores of two sets with one common k-mer out of two each. *)
Example similarity_scores_sample :
  similarity_score kmerizer.count_common [5; 9] [5; 7] "jaccard"
    = Returns (1 # 3)
  /\ similarity_score kmerizer.count_common [5; 9] [5; 7] "minsize"
     = Returns (1 # 2)
  /\ similarity_score kmerizer.count_common [] [] "jaccard"
     = Raises ZeroDivisionError
  /\ similarity_score kmerizer.count_common [5] [5] "cosine" = AssertionError.
Proof. repeat split. Qed.

(** X3.  For the scorings jaccard, minsize, maxsize and reference,
    [similarity_numerator_denominator] returns the number of common
    k-mers and the denominator whose quotient [similarity_score]
    computes.  For meansize it fails its assertion although
    [similarity_score] has that scoring; for any other scoring both
    fail the assertion. *)
Theorem similarity_numerator_denominator_agrees
    (count_common : list Z -> list Z -> Z) (kmers1 kmers2 : list Z)
    (scoring : string) :
  (scoring ∈ ["jaccard"; "minsize"; "maxsize"; "reference"]%string ->
   exists d : Q,
     similarity_numerator_denominator count_common kmers1 kmers2 scoring
     = Returns (inject_Z (count_common kmers1 kmers2), d)
     /\ similarity_score count_common kmers1 kmers2 scoring
        = float_div (inject_Z (count_common kmers1 kmers2)) d)
  /\ (scoring = "meansize"%string ->
      similarity_numerator_denominator count_common kmers1 kmers2 scoring
      = AssertionError
      /\ similarity_score count_common kmers1 kmers2 scoring
         = float_div (inject_Z (count_common kmers1 kmers2))
                     ((Qsize kmers1 + Qsize kmers2) / 2))
  /\ (scoring ∉ ["jaccard"; "minsize"; "meansize"; "maxsize";
                 "reference"]%string ->
      similarity_numerator_denominator count_common kmers1 kmers2 scoring
      = AssertionError
      /\ similarity_score count_common kmers1 kmers2 scoring
         = AssertionError).
Proof.
  split; [|split].
  - rewrite !elem_of_cons, elem_of_nil.
    intros [->|[->|[->|[->|[]]]]]; eexists; split; reflexivity.
  - intros ->. by split.
  - rewrite !not_elem_of_cons. intros (H1 & H2 & H3 & H4 & H5 & _).
    apply String.eqb_neq in H1, H2, H3, H4, H5.
    unfold similarity_numerator_denominator, similarity_score.
    by rewrite H1, H2, H3, H4, H5.
Qed.

(* ===================================================================== *)
(** * Further properties: counting k-mers                                *)
(* ===================================================================== *)

Lemma np_sum_app (l1 l2 : list Z) : np_sum (l1 ++ l2) = np_sum l1 + np_sum l2.
Proof. induction l1; simpl; lia. Qed.

Lemma np_sum_Permutation (l1 l2 : list Z) : l1 ≡ₚ l2 -> np_sum l1 = np_sum l2.
Proof. induction 1; simpl; lia. Qed.

(** The run-length encoding of a sorted list, started with [n] copies of
    [cur] in hand. *)
Lemma rle_from_spec (l : list Z) :
  forall (cur n : Z),
    1 <= n ->
    Sorted Z.le (cur :: l) ->
    Forall (fun v => cur <= v) (rle_from cur n l).*1
    /\ StronglySorted Z.lt (rle_from cur n l).*1
    /\ np_sum (rle_from cur n l).*2 = n + Z.of_nat (Datatypes.length l)
    /\ (forall v, v ∈ (rle_from cur n l).*1 <-> v = cur \/ v ∈ l)
    /\ np_sum (zip_with Z.mul (rle_from cur n l).*1 (rle_from cur n l).*2)
       = n * cur + np_sum l.
Proof.
  induction l as [|x l IH]; intros cur n Hn Hs.
  - simpl. split; [|split; [|split; [|split]]].
    + by repeat constructor.
    + by repeat constructor.
    + lia.
    + intros v. rewrite list_elem_of_singleton, elem_of_nil. tauto.
    + lia.
  - apply Sorted_inv in Hs as [Hs Hhd]. apply HdRel_inv in Hhd.
    simpl. destruct (Z.eqb_spec x cur) as [->|Hne].
    + destruct (IH cur (n + 1) ltac:(lia) Hs) as (H1 & H2 & H3 & H4 & H5).
      split; [|split; [|split; [|split]]]; try done.
      * rewrite H3. lia.
      * intros v. rewrite H4, elem_of_cons. tauto.
      * rewrite H5. lia.
    + destruct (IH x 1 ltac:(lia) Hs) as (H1 & H2 & H3 & H4 & H5).
      csimpl. split; [|split; [|split; [|split]]].
      * constructor; [lia|]. eapply Forall_impl; [exact H1|].
        intros v Hv. simpl in Hv. lia.
      * constructor; [done|]. eapply Forall_impl; [exact H1|].
        intros v Hv. simpl in Hv. lia.
      * rewrite H3. lia.
      * intros v. rewrite !elem_of_cons, H4. tauto.
      * rewrite H5. lia.
Qed.

(** [numpy.unique(a, return_counts=True)]: the values are the distinct
    elements of [a] in strictly ascending order, every count is at least
    1, the counts add up to the size of [a], and values times counts add
    up to the sum of [a]. *)
Lemma np_unique_counts_spec (a : list Z) :
  Datatypes.length (fst (np_unique_counts a))
  = Datatypes.length (snd (np_unique_counts a))
  /\ StronglySorted Z.lt (fst (np_unique_counts a))
  /\ Forall (fun c => 1 <= c) (snd (np_unique_counts a))
  /\ np_sum (snd (np_unique_counts a)) = Z.of_nat (Datatypes.length a)
  /\ (forall v, v ∈ fst (np_unique_counts a) <-> v ∈ a)
  /\ np_sum (zip_with Z.mul (fst (np_unique_counts a))
                            (snd (np_unique_counts a)))
     = np_sum a.
Proof.
  unfold np_unique_counts.
  pose proof (merge_sort_Permutation Z.le a) as Hperm.
  pose proof (Sorted_merge_sort Z.le a) as Hsorted.
  destruct (merge_sort Z.le a) as [|x l].
  - apply Permutation_nil_l in Hperm. subst a. simpl.
    split; [|split; [|split; [|split; [|split]]]]; try done; by constructor.
  - simpl.
    destruct (rle_from_spec l x 1 ltac:(lia) Hsorted) as (H1 & H2 & H3 & H4 & H5).
    split; [|split; [|split; [|split; [|split]]]].
    + by rewrite !length_map.
    + exact H2.
    + apply Forall_fmap. eapply Forall_impl; [by apply rle_from_shape|].
      by intros p Hp.
    + change (map snd (rle_from x 1 l)) with ((rle_from x 1 l).*2).
      rewrite H3, <- (Permutation_length Hperm). simpl. lia.
    + intros v. rewrite <- Hperm, elem_of_cons. apply H4.
    + change (map snd (rle_from x 1 l)) with ((rle_from x 1 l).*2).
      change (map fst (rle_from x 1 l)) with ((rle_from x 1 l).*1).
      rewrite H5, <- (np_sum_Permutation _ _ Hperm). simpl. lia.
Qed.

(** X4.  [kmerize_seq] leaves a k-mer set that satisfies the invariants,
    whatever the scanner found: its k-mers are the distinct k-mers found,
    strictly ascending, every count is at least 1, and the counts add up
    to [n_kmers], the number of k-mers found; [n_kmers] is overwritten
    while [n_seqs] and [n_bases] accumulate. *)
Theorem kmerize_seq_invariants (kmerize : Z -> string -> list Z)
    (self : KmerSet.t) (seq : string) :
  let found := kmerize (KmerSet.k self) seq in
  let s := KmerSet.kmerize_seq kmerize self seq in
  KmerSet.inv s
  /\ (forall x, x ∈ KmerSet.kmers s <-> x ∈ found)
  /\ np_sum (KmerSet.counts s) = KmerSet.n_kmers s
  /\ KmerSet.n_kmers s = Z.of_nat (Datatypes.length found)
  /\ KmerSet.n_seqs s = KmerSet.n_seqs self + 1
  /\ KmerSet.n_bases s = KmerSet.n_bases self + Z.of_nat (String.length seq).
Proof.
  intros found s. unfold s, KmerSet.kmerize_seq. fold found.
  destruct (np_unique_counts_spec found) as (H1 & H2 & H3 & H4 & H5 & _).
  destruct (np_unique_counts found) as [vals cnts]. simpl in *.
  unfold KmerSet.inv. simpl.
  split; [|split; [|split; [|split; [|split]]]]; done.
Qed.

(** X5.  The spectrum of a k-mer set lists the frequencies that occur,
    strictly ascending, each with a positive number of k-mers; these
    numbers add up to the number of distinct k-mers, and frequency times
    number adds up to the total of the counts. *)
Theorem spectrum_accounts_for_all (self : KmerSet.t) :
  let freq := fst (KmerSet.spectrum self) in
  let cnts := snd (KmerSet.spectrum self) in
  Datatypes.length freq = Datatypes.length cnts
  /\ StronglySorted Z.lt freq
  /\ Forall (fun c => 1 <= c) cnts
  /\ (forall f, f ∈ freq <-> f ∈ KmerSet.counts self)
  /\ np_sum cnts = Z.of_nat (Datatypes.length (KmerSet.counts self))
  /\ np_sum (zip_with Z.mul freq cnts) = np_sum (KmerSet.counts self).
Proof.
  intros freq cnts. unfold freq, cnts, KmerSet.spectrum.
  destruct (np_unique_counts_spec (KmerSet.counts self))
    as (H1 & H2 & H3 & H4 & H5 & H6).
  split; [|split; [|split; [|split; [|split]]]]; done.
Qed.

(* ===================================================================== *)
(** * Further properties: filtering by count                             *)
(* ===================================================================== *)

Section CountFilters.

Import KmerSet.

(** Selecting k-mers and counts by a condition on the counts keeps the
    pairs whose count satisfies it. *)
Lemma select_by_count (self : t) (f : Z -> bool) :
  Datatypes.length (kmers self) = Datatypes.length (counts self) ->
  let kept := List.filter (fun kc => f (snd kc))
                          (zip (kmers self) (counts self)) in
  np_mask_select (kmers self) (map f (counts self)) = Ok (kept.*1)
  /\ np_mask_select (counts self) (map f (counts self)) = Ok (kept.*2).
Proof.
  intros Hlen kept. unfold np_mask_select.
  rewrite length_map, Hlen, Nat.eqb_refl.
  rewrite (map_snd_zip f (kmers self) (counts self) Hlen).
  by destruct (select_pairs (fun kc : Z * Z => f (snd kc)) _ _ Hlen)
    as [-> ->].
Qed.

Lemma filter_pairs_inv (self : t) (f : Z * Z -> bool) :
  inv self ->
  let kept := List.filter f (zip (kmers self) (counts self)) in
  inv (set_arrays self (kept.*1) (kept.*2))
  /\ zip (kept.*1) (kept.*2) = kept.
Proof.
  intros Hinv kept. pose proof Hinv as (Hlen & _).
  destruct (select_pairs f _ _ Hlen) as [H1 H2].
  unfold kept. rewrite <- H1, <- H2. split.
  - by apply inv_mask_select.
  - rewrite H1, H2. apply zip_fst_snd.
Qed.

(** X6.  [prune_singletons] on a set that satisfies the invariants keeps
    exactly the k-mers whose count is above 1, with their counts; the
    invariants still hold, and no count of 1 is left.  The field
    [singletons] keeps its old value. *)
Theorem prune_singletons_keeps_repeated (self : t) :
  inv self ->
  exists s : t,
    prune_singletons self = Ok s
    /\ inv s
    /\ zip (kmers s) (counts s)
       = List.filter (fun kc => 1 <? snd kc) (zip (kmers self) (counts self))
    /\ Forall (fun c => 2 <= c) (counts s)
    /\ singletons s = singletons self.
Proof.
  intros Hinv. pose proof Hinv as (Hlen & _).
  unfold prune_singletons.
  destruct (select_by_count self (fun c => 1 <? c) Hlen) as [-> ->].
  cbn [res_bind]. eexists. split; [reflexivity|].
  destruct (filter_pairs_inv self (fun kc => 1 <? snd kc) Hinv) as [H1 H2].
  split; [exact H1|]. split; [exact H2|]. split; [|done].
  cbn [set_arrays counts]. apply Forall_fmap, Forall_forall.
  intros [kk c] Hin. apply list_elem_of_In, List.filter_In in Hin as [_ Hc].
  simpl in *. apply Z.ltb_lt in Hc. lia.
Qed.

Lemma freq_filter_condition (self : t) (min_freq : Z) (max_freq : option Z) :
  match max_freq with
  | Some m =>
      if m =? 0 then map (fun c => min_freq <=? c) (counts self)
      else zip_with andb (map (fun c => min_freq <=? c) (counts self))
                         (map (fun c => c <=? m) (counts self))
  | None => map (fun c => min_freq <=? c) (counts self)
  end = map (in_freq_range min_freq max_freq) (counts self).
Proof.
  unfold in_freq_range. destruct max_freq as [m|].
  - destruct (m =? 0) eqn:E.
    + apply map_ext. intros c. by rewrite andb_true_r.
    + induction (counts self) as [|c l IH]; simpl; [done|]. by rewrite IH.
  - apply map_ext. intros c. by rewrite andb_true_r.
Qed.

(** What [freq_filter] keeps. *)
Lemma freq_filter_range_eq (self : t) (min_freq : Z) (max_freq : option Z) :
  inv self ->
  exists s : t,
    freq_filter self min_freq max_freq = Ok s
    /\ inv s
    /\ zip (kmers s) (counts s)
       = List.filter (fun kc => in_freq_range min_freq max_freq (snd kc))
                     (zip (kmers self) (counts self))
    /\ counts s
       = (List.filter (fun kc => in_freq_range min_freq max_freq (snd kc))
                      (zip (kmers self) (counts self))).*2.
Proof.
  intros Hinv. pose proof Hinv as (Hlen & _).
  unfold freq_filter. rewrite freq_filter_condition.
  destruct (select_by_count self (in_freq_range min_freq max_freq) Hlen)
    as [-> ->].
  cbn [res_bind]. eexists. split; [reflexivity|].
  destruct (filter_pairs_inv self
              (fun kc => in_freq_range min_freq max_freq (snd kc)) Hinv)
    as [H1 H2].
  split; [exact H1|]. split; [exact H2|]. done.
Qed.

(** X7.  [freq_filter(min_freq, max_freq)] on a set that satisfies the
    invariants keeps exactly the k-mers whose count is at least
    [min_freq] and, when [max_freq] is given and not 0, at most
    [max_freq]; a [max_freq] of 0 sets no upper bound. *)
Theorem freq_filter_keeps_range (self : t) (min_freq : Z)
    (max_freq : option Z) :
  inv self ->
  exists s : t,
    freq_filter self min_freq max_freq = Ok s
    /\ inv s
    /\ zip (kmers s) (counts s)
       = List.filter (fun kc => in_freq_range min_freq max_freq (snd kc))
                     (zip (kmers self) (counts self))
    /\ Forall (fun c => min_freq <= c
                        /\ forall m, max_freq = Some m -> m <> 0 -> c <= m)
              (counts s).
Proof.
  intros Hinv.
  destruct (freq_filter_range_eq self min_freq max_freq Hinv)
    as (s & Hs & Hi & Hzip & Hc).
  exists s. split; [done|]. split; [done|]. split; [done|].
  rewrite Hc. apply Forall_fmap, Forall_forall.
  intros [kk c] Hin. apply list_elem_of_In, List.filter_In in Hin as [_ Hr].
  simpl in *. unfold in_freq_range in Hr.
  apply andb_true_iff in Hr as [Hlo Hhi]. apply Z.leb_le in Hlo.
  split; [done|]. intros m -> Hm.
  apply orb_true_iff in Hhi as [Hz|Hle]; [apply Z.eqb_eq in Hz; lia|].
  by apply Z.leb_le.
Qed.

End CountFilters.

Lemma prune_singletons_keeps_repeated_witness :
  KmerSet.inv Samples.ks_a
  /\ exists s : KmerSet.t,
       KmerSet.prune_singletons Samples.ks_a = Ok s
       /\ KmerSet.inv s
       /\ zip (KmerSet.kmers s) (KmerSet.counts s)
          = List.filter (fun kc => 1 <? snd kc)
              (zip (KmerSet.kmers Samples.ks_a) (KmerSet.counts Samples.ks_a))
       /\ Forall (fun c => 2 <= c) (KmerSet.counts s)
       /\ KmerSet.singletons s = KmerSet.singletons Samples.ks_a.
Proof.
  split; [exact ks_a_inv|].
  apply (prune_singletons_keeps_repeated Samples.ks_a). exact ks_a_inv.
Defined.

Lemma freq_filter_keeps_range_witness :
  KmerSet.inv Samples.ks_b
  /\ exists s : KmerSet.t,
       KmerSet.freq_filter Samples.ks_b 1 (Some 3) = Ok s
       /\ KmerSet.inv s
       /\ zip (KmerSet.kmers s) (KmerSet.counts s)
          = List.filter (fun kc => KmerSet.in_freq_range 1 (Some 3) (snd kc))
              (zip (KmerSet.kmers Samples.ks_b) (KmerSet.counts Samples.ks_b))
       /\ Forall (fun c => 1 <= c
                           /\ forall m, Some 3 = Some m -> m <> 0 -> c <= m)
                 (KmerSet.counts s).
Proof.
  split; [exact ks_b_inv|].
  apply (freq_filter_keeps_range Samples.ks_b 1 (Some 3)). exact ks_b_inv.
Defined.

(* ===================================================================== *)
(** * Further properties: the fingerprint as a sample of the k-mers      *)
(* ===================================================================== *)

Lemma py_slice_to_take {A} (l : list A) (n : Z) :
  exists m : nat,
    py_slice_to l n = take m l
    /\ (0 <= n -> Z.of_nat m = n)
    /\ (n < 0 -> Z.of_nat m = Z.max 0 (Zlen l + n)).
Proof.
  unfold py_slice_to, Zlen. destruct (Z.leb_spec 0 n).
  - exists (Z.to_nat n). split; [done|]. split; lia.
  - exists (Z.to_nat (Z.of_nat (Datatypes.length l) + n)).
    split; [done|]. split; lia.
Qed.

(** Gathering along distinct, valid indices: the selection has distinct
    values (when the array has) that all occur in the array. *)
Lemma np_take_distinct (l : list Z) (order : list nat) :
  NoDup l -> NoDup order ->
  Forall (fun i => (i < Datatypes.length l)%nat) order ->
  exists sel,
    np_take l order = Ok sel
    /\ Datatypes.length sel = Datatypes.length order
    /\ NoDup sel /\ sel ⊆ l.
Proof.
  intros Hl Hord Hlt. exists (map (fun i => nth i l 0) order).
  rewrite Forall_forall in Hlt.
  assert (forall i, i ∈ order -> l !! i = Some (nth i l 0)) as Hnth.
  { intros i Hi. destruct (lookup_lt_is_Some_2 l i (Hlt i Hi)) as [x Hx].
    by rewrite (nth_lookup_Some _ _ _ _ Hx). }
  split; [|split; [|split]].
  - unfold np_take.
    assert (mapM (fun i => l !! i) order
            = Some (map (fun i => nth i l 0) order)) as ->; [|done].
    apply mapM_Some. apply Forall2_fmap_r, Forall_Forall2_diag.
    apply Forall_forall. intros i Hi. unfold compose. by apply Hnth.
  - apply length_map.
  - apply (NoDup_fmap_2_strong (fun i => nth i l 0)); [|done].
    intros i j Hi Hj Heq.
    apply (NoDup_lookup l i j (nth i l 0)); [done|by apply Hnth|].
    rewrite Heq. by apply Hnth.
  - intros x Hx. apply list_elem_of_fmap in Hx as (i & -> & Hi).
    eapply list_elem_of_lookup_2. by apply Hnth.
Qed.

Lemma Sorted_le_NoDup_lt (l : list Z) :
  Sorted Z.le l -> NoDup l -> StronglySorted Z.lt l.
Proof.
  intros Hs Hn. apply Sorted_StronglySorted in Hs; [|intros ???; lia].
  induction Hs as [|x l Hl IH Hx]; [constructor|].
  apply NoDup_cons in Hn as [Hx' Hn]. constructor; [by apply IH|].
  rewrite Forall_forall in Hx. apply Forall_forall. intros y Hy.
  pose proof (Hx y Hy). assert (x <> y) by (intros ->; done). lia.
Qed.

Section MinHashSample.

Variable fnvhash_kmers : Z -> list Z -> list Z.
Variable argsort : list Z -> list nat.

Hypothesis fnvhash_length :
  forall k kmers,
    Datatypes.length (fnvhash_kmers k kmers) = Datatypes.length kmers.
Hypothesis argsort_permutation :
  forall h, argsort h ≡ₚ seq 0 (Datatypes.length h).

(** X8.  On a set with strictly ascending k-mers, [min_hash(frac)]
    returns for every [frac]: the fingerprint it returns and stores is
    strictly ascending and made of k-mers of the set, the k-mers and
    counts are unchanged, and with [r = round(kmers.size * frac)] the
    fingerprint has [min(r, kmers.size)] k-mers for [r >= 0]; a
    negative [r] leaves [-r] k-mers out ([order[:r]]). *)
Theorem min_hash_fingerprint_is_sample (ks : KmerSet.t) (frac : Q) :
  StronglySorted Z.lt (KmerSet.kmers ks) ->
  let r := py_round (inject_Z (Zlen (KmerSet.kmers ks)) * frac) in
  exists ks' fp,
    KmerSet.min_hash fnvhash_kmers argsort ks frac = Ok (ks', fp)
    /\ KmerSet.fingerprint ks' = Some fp
    /\ KmerSet.kmers ks' = KmerSet.kmers ks
    /\ KmerSet.counts ks' = KmerSet.counts ks
    /\ StronglySorted Z.lt fp
    /\ fp ⊆ KmerSet.kmers ks
    /\ (0 <= r -> Zlen fp = Z.min r (Zlen (KmerSet.kmers ks)))
    /\ (r < 0 -> Zlen fp = Z.max 0 (Zlen (KmerSet.kmers ks) + r)).
Proof.
  intros Hsorted r. unfold KmerSet.min_hash. fold (Zlen (KmerSet.kmers ks)).
  fold r.
  set (perm := argsort _).
  assert (perm ≡ₚ seq 0 (Datatypes.length (KmerSet.kmers ks))) as Hperm.
  { unfold perm. rewrite argsort_permutation. by rewrite fnvhash_length. }
  destruct (py_slice_to_take perm r) as (m & -> & Hpos & Hneg).
  assert (NoDup perm) as Hnd by (rewrite Hperm; apply NoDup_seq).
  destruct (np_take_distinct (KmerSet.kmers ks) (take m perm))
    as (sel & -> & Hlen & Hsel & Hsub).
  - by apply StronglySorted_lt_NoDup.
  - eapply sublist_NoDup; [exact Hnd|apply sublist_take].
  - apply Forall_forall. intros i Hi.
    apply (subseteq_take m perm) in Hi. rewrite Hperm in Hi.
    apply elem_of_seq in Hi. lia.
  - cbn [res_bind]. do 2 eexists. split; [reflexivity|].
    split; [done|]. split; [done|]. split; [done|].
    pose proof (merge_sort_Permutation Z.le sel) as Hms.
    split; [|split; [|split]].
    + apply Sorted_le_NoDup_lt.
      * apply Sorted_merge_sort. apply _.
      * by rewrite Hms.
    + intros x Hx. rewrite Hms in Hx. by apply Hsub.
    + intros Hr. unfold Zlen. rewrite (Permutation_length Hms), Hlen.
      rewrite length_take, (Permutation_length Hperm), length_seq.
      specialize (Hpos Hr). lia.
    + intros Hr. unfold Zlen. rewrite (Permutation_length Hms), Hlen.
      rewrite length_take, (Permutation_length Hperm), length_seq.
      specialize (Hneg Hr). unfold Zlen in Hneg.
      rewrite (Permutation_length Hperm), length_seq in Hneg. lia.
Qed.

End MinHashSample.

Lemma min_hash_fingerprint_is_sample_witness :
  StronglySorted Z.lt (KmerSet.kmers Samples.ks_a)
  /\ exists ks' fp,
       KmerSet.min_hash Samples.mul_hash Samples.argsort_stable
                        Samples.ks_a (1 # 2) = Ok (ks', fp)
       /\ KmerSet.fingerprint ks' = Some fp
       /\ KmerSet.kmers ks' = KmerSet.kmers Samples.ks_a
       /\ KmerSet.counts ks' = KmerSet.counts Samples.ks_a
       /\ StronglySorted Z.lt fp
       /\ fp ⊆ KmerSet.kmers Samples.ks_a
       /\ (0 <= py_round (inject_Z (Zlen (KmerSet.kmers Samples.ks_a)) * (1 # 2))
           -> Zlen fp
              = Z.min (py_round (inject_Z (Zlen (KmerSet.kmers Samples.ks_a))
                                 * (1 # 2)))
                      (Zlen (KmerSet.kmers Samples.ks_a)))
       /\ (py_round (inject_Z (Zlen (KmerSet.kmers Samples.ks_a)) * (1 # 2)) < 0
           -> Zlen fp
              = Z.max 0 (Zlen (KmerSet.kmers Samples.ks_a)
                         + py_round (inject_Z (Zlen (KmerSet.kmers Samples.ks_a))
                                     * (1 # 2)))).
Proof.
  split; [simpl; repeat constructor; lia|].
  apply (min_hash_fingerprint_is_sample Samples.mul_hash
           Samples.argsort_stable mul_hash_length argsort_stable_permutation
           Samples.ks_a (1 # 2)).
  simpl; repeat constructor; lia.
Defined.

(* ===================================================================== *)
(** * Further properties: the thresholds of the spectrum                 *)
(* ===================================================================== *)

Lemma StronglySorted_lt_np_at (l : list Z) :
  StronglySorted Z.lt l ->
  forall i j : nat, (i < j < Datatypes.length l)%nat -> np_at l i < np_at l j.
Proof.
  unfold np_at. induction 1 as [|x l Hl IH Hx]; intros i j Hij;
    simpl in *; [lia|].
  destruct j as [|j]; [lia|]. destruct i as [|i].
  - rewrite Forall_forall in Hx. apply Hx.
    destruct (lookup_lt_is_Some_2 l j) as [y Hy]; [lia|].
    rewrite (nth_lookup_Some _ _ _ _ Hy). by eapply list_elem_of_lookup_2.
  - apply IH. lia.
Qed.

Lemma np_at_elem_of (l : list Z) (i : nat) :
  (i < Datatypes.length l)%nat -> np_at l i ∈ l.
Proof.
  intros Hi. destruct (lookup_lt_is_Some_2 l i Hi) as [y Hy].
  unfold np_at. rewrite (nth_lookup_Some _ _ _ _ Hy).
  by eapply list_elem_of_lookup_2.
Qed.

Section SpectrumIndices.

Import KmerSet.

(** The indices the loop of [spectrum_min_max] keeps: [min_index] is
    never after [max_index], which is never after the last index
    visited. *)
Lemma smm_loop_indices (freq cnts : list Z) (delta : Q) (mcn : Z)
    (len : nat) :
  forall (n a : nat) (st : smm_state),
    (a + n <= len)%nat ->
    (min_index st <= max_index st <= i st)%nat ->
    (i st <= a)%nat ->
    (i st < len \/ i st = 0)%nat ->
    let st' := smm_loop freq cnts delta mcn st (seq a n) in
    (min_index st' <= max_index st' <= i st')%nat
    /\ (i st' < len \/ i st' = 0)%nat.
Proof.
  induction n as [|n IH]; intros a st Hlen Hord Hia Hi; simpl; [done|].
  destruct (have_max st && _); [simpl; lia|].
  apply IH; [lia|..].
  - destruct (have_min st).
    + destruct (np_at cnts (max_index st) <? np_at cnts a); simpl; lia.
    + destruct (_ && _); [simpl; lia|].
      destruct (_ || _); [simpl; lia|].
      destruct (_ <? _); simpl; lia.
  - destruct (have_min st); [simpl; lia|].
    destruct (_ && _); [simpl; lia|].
    destruct (_ || _); [simpl; lia|].
    destruct (_ <? _); simpl; lia.
  - left.
    destruct (have_min st); [simpl; lia|].
    destruct (_ && _); [simpl; lia|].
    destruct (_ || _); [simpl; lia|].
    destruct (_ <? _); simpl; lia.
Qed.

(** On a spectrum (strictly ascending frequencies, as many counts, none
    negative) the function returns; a triple it returns is made of
    frequencies of the spectrum, with [lo < hi] and [lo <= up]. *)
Lemma spectrum_min_max_of_returns (freq cnts : list Z) (delta : Q)
    (mcn : Z) :
  (0 <= delta)%Q ->
  Datatypes.length freq = Datatypes.length cnts ->
  StronglySorted Z.lt freq ->
  Forall (fun c => 0 <= c) cnts ->
  exists r,
    spectrum_min_max_of freq cnts delta mcn = Ok r
    /\ forall lo hi up, r = Some (lo, hi, up) ->
         lo ∈ freq /\ hi ∈ freq /\ up ∈ freq /\ lo < hi /\ lo <= up.
Proof.
  intros Hd Hlen Hsorted Hpos. unfold spectrum_min_max_of.
  destruct (smm_loop_indices freq cnts delta mcn (Datatypes.length freq)
              (Datatypes.length freq) 0%nat smm_init) as [Hord Hi];
    [simpl; lia..|].
  set (st := smm_loop _ _ _ _ _ _) in *.
  unfold smm_result.
  destruct (negb (min_index st =? 0)%nat) eqn:Emin;
    [|eexists; split; [reflexivity|discriminate]].
  destruct (negb (max_index st =? 0)%nat) eqn:Emax;
    [|eexists; split; [reflexivity|discriminate]].
  destruct (Qlt_bool _ _) eqn:Elt;
    [|eexists; split; [reflexivity|discriminate]].
  apply negb_true_iff, Nat.eqb_neq in Emin, Emax.
  apply Qlt_bool_true in Elt. cbn [andb].
  assert (i st < Datatypes.length freq)%nat as Hi' by lia.
  rewrite !py_index_in_range by lia. cbn [res_bind].
  replace (Z.of_nat (i st) - 1) with (Z.of_nat (i st - 1)) by lia.
  rewrite py_index_in_range by lia. cbn [res_bind].
  eexists. split; [reflexivity|]. intros lo hi up [= <- <- <-].
  assert (min_index st <> max_index st) as Hne.
  { intros Heq. rewrite <- Heq in Elt.
    assert (0 <= np_at cnts (min_index st)) as Hc.
    { rewrite Forall_forall in Hpos. apply Hpos, np_at_elem_of. lia. }
    assert (0 <= inject_Z (np_at cnts (min_index st)))%Q.
    { unfold Qle, inject_Z. simpl. lia. }
    nra. }
  split; [apply np_at_elem_of; lia|].
  split; [apply np_at_elem_of; lia|].
  split; [apply np_at_elem_of; lia|].
  split.
  - apply StronglySorted_lt_np_at; [done|lia].
  - destruct (decide (min_index st = i st - 1)%nat) as [->|Hn]; [lia|].
    apply Z.lt_le_incl, StronglySorted_lt_np_at; [done|lia].
Qed.

(** X9.  For [delta >= 0], [spectrum_min_max] returns on every k-mer
    set, whatever its arrays: the index [i - 1] it reads is never out
    of range.  A triple [(lo, hi, up)] it returns is made of counts
    that occur in the set, with [lo < hi] and [lo <= up]. *)
Theorem spectrum_min_max_returns (self : t) (delta : Q) (mcn : Z) :
  (0 <= delta)%Q ->
  exists r,
    spectrum_min_max self delta mcn = Ok r
    /\ forall lo hi up, r = Some (lo, hi, up) ->
         lo ∈ counts self /\ hi ∈ counts self /\ up ∈ counts self
         /\ lo < hi /\ lo <= up.
Proof.
  intros Hd. unfold spectrum_min_max, spectrum.
  destruct (np_unique_counts_spec (counts self))
    as (Hlen & Hsorted & Hpos & _ & Hin & _).
  destruct (np_unique_counts (counts self)) as [freq cnts]. simpl in *.
  destruct (spectrum_min_max_of_returns freq cnts delta mcn Hd Hlen Hsorted)
    as (r & Hr & Hspec).
  { eapply Forall_impl; [exact Hpos|]. simpl. lia. }
  exists r. split; [done|]. intros lo hi up ->.
  destruct (Hspec lo hi up eq_refl) as (H1 & H2 & H3 & H4 & H5).
  rewrite <- !Hin. done.
Qed.

(** X10.  [spectrum_filter] on a set that satisfies the invariants
    returns; without thresholds the set is returned as it is; with
    thresholds [(lo, hi, up)] the k-mers kept are exactly those whose
    count lies in [lo .. up], and the invariants still hold.  The
    argument [max_copy_number] has no effect on the result. *)
Theorem spectrum_filter_keeps_range (self : t) (max_copy_number : Z) :
  inv self ->
  spectrum_filter self max_copy_number = spectrum_filter self 20
  /\ exists s thresholds,
       spectrum_filter self max_copy_number = Ok (s, thresholds)
       /\ spectrum_min_max self (1 # 2) 20 = Ok thresholds
       /\ inv s
       /\ match thresholds with
          | None => s = self
          | Some (lo, hi, up) =>
              zip (kmers s) (counts s)
              = List.filter (fun kc => (lo <=? snd kc) && (snd kc <=? up))
                            (zip (kmers self) (counts self))
          end.
Proof.
  intros Hinv. split; [done|]. unfold spectrum_filter.
  destruct (spectrum_min_max_returns self (1 # 2) 20) as (r & -> & Hr);
    [done|].
  cbn [res_bind]. destruct r as [[[lo hi] up]|].
  - destruct (Hr lo hi up eq_refl) as (_ & _ & Hup & _).
    assert (up <> 0) as Hup0.
    { destruct Hinv as (_ & _ & Hc). rewrite Forall_forall in Hc.
      specialize (Hc up Hup). simpl in Hc. lia. }
    destruct (freq_filter_range_eq self lo (Some up) Hinv)
      as (s & -> & Hs & Hzip & _).
    cbn [res_bind]. exists s, (Some (lo, hi, up)).
    split; [done|]. split; [done|]. split; [done|].
    rewrite Hzip. apply List.filter_ext. intros [kk c]. simpl.
    unfold in_freq_range. apply Z.eqb_neq in Hup0. by rewrite Hup0.
  - exists self, None. done.
Qed.

End SpectrumIndices.

Lemma spectrum_min_max_returns_witness :
  (0 <= 1 # 2)%Q
  /\ exists r,
       KmerSet.spectrum_min_max Samples.ks_spectrum (1 # 2) 20 = Ok r
       /\ forall lo hi up, r = Some (lo, hi, up) ->
            lo ∈ KmerSet.counts Samples.ks_spectrum
            /\ hi ∈ KmerSet.counts Samples.ks_spectrum
            /\ up ∈ KmerSet.counts Samples.ks_spectrum
            /\ lo < hi /\ lo <= up.
Proof.
  split; [done|].
  apply (spectrum_min_max_returns Samples.ks_spectrum (1 # 2) 20). done.
Defined.

Lemma spectrum_filter_keeps_range_witness :
  KmerSet.inv Samples.ks_a
  /\ KmerSet.spectrum_filter Samples.ks_a 5
     = KmerSet.spectrum_filter Samples.ks_a 20
  /\ exists s thresholds,
       KmerSet.spectrum_filter Samples.ks_a 5 = Ok (s, thresholds)
       /\ KmerSet.spectrum_min_max Samples.ks_a (1 # 2) 20 = Ok thresholds
       /\ KmerSet.inv s
       /\ match thresholds with
          | None => s = Samples.ks_a
          | Some (lo, hi, up) =>
              zip (KmerSet.kmers s) (KmerSet.counts s)
              = List.filter (fun kc => (lo <=? snd kc) && (snd kc <=? up))
                  (zip (KmerSet.kmers Samples.ks_a)
                       (KmerSet.counts Samples.ks_a))
          end.
Proof.
  split; [exact ks_a_inv|].
  apply (spectrum_filter_keeps_range Samples.ks_a 5). exact ks_a_inv.
Defined.

(* ===================================================================== *)
(** * Further properties: the strain cache                               *)
(* ===================================================================== *)

Section StrainCache.


(** It depends on the file and the mode of the pan-genome only. *)
Lemma StrainKmerSet_init_ext (pan pan1 : PanGenome.t) (name : string) :
  PanGenome.h5 pan1 = PanGenome.h5 pan ->
  PanGenome.use_fingerprint pan1 = PanGenome.use_fingerprint pan ->
  StrainKmerSet_init pan1 name = StrainKmerSet_init pan name.
Proof. unfold StrainKmerSet_init. by intros -> ->. Qed.

(** What [load_strain] does to the pan-genome: only the cache entry
    of [name] can change, and it holds the strain returned. *)
Lemma load_strain_effect (pan pan1 : PanGenome.t) (name : string)
    (strain : StrainKmerSet.t) :
  StrainGST.load_strain pan name = Ok (pan1, strain) ->
  PanGenome.strainCache pan1 !! name = Some strain
  /\ (forall other, other <> name ->
        PanGenome.strainCache pan1 !! other
        = PanGenome.strainCache pan !! other)
  /\ (forall cached, PanGenome.strainCache pan !! name = Some cached ->
        strain = cached /\ pan1 = pan)
  /\ PanGenome.base pan1 = PanGenome.base pan
  /\ PanGenome.h5 pan1 = PanGenome.h5 pan
  /\ PanGenome.strain_names pan1 = PanGenome.strain_names pan
  /\ PanGenome.use_fingerprint pan1 = PanGenome.use_fingerprint pan.
Proof.
  unfold StrainGST.load_strain.
  destruct (PanGenome.strainCache pan !! name) as [cached|] eqn:E.
  - intros [= <- <-]. split; [done|]. split; [done|].
    split; [by intros ? [= <-]|done].
  - destruct (StrainKmerSet_init pan name) as [s|]; simpl; [|done].
    intros [= <- <-]. simpl. split; [by rewrite lookup_insert_eq|].
    split; [intros other Hne; by rewrite lookup_insert_ne|].
    split; [done|done].
Qed.


(** Reading back a strain that [save_hdf5] wrote gives its arrays, its
    [k], fingerprint and number of sequences; the other statistics
    start afresh. *)
Example load_strain_saved :
  StrainGST.load_strain Samples.pan3 "X"
  = Ok (Samples.pan3_x, Samples.strain_x_loaded)
  /\ StrainGST.load_strain Samples.pan3 "Z" = Raise KeyError
  /\ StrainGST.load_strain
       (PanGenome.mk (PanGenome.base Samples.pan3)
                     (PanGenome.h5 Samples.pan3) ["X"%string] ∅ true) "X"
     = Raise AttributeError
  /\ StrainGST.load_strain
       (PanGenome.mk (PanGenome.base Samples.pan3)
                     {[ "X"%string :=
                          H5Group.mk (Some "PanGenome"%string) (Some 23)
                                     None None (Some [1; 2]) (Some [1; 1]) ]}
                     ["X"%string] ∅ false) "X"
     = Raise ValueError.
Proof. repeat split; vm_compute; reflexivity. Qed.

End StrainCache.

(* ===================================================================== *)
(** * Further properties: the range of the scores                        *)
(* ===================================================================== *)

Lemma py_min_inverse_bounds (e : Q) :
  (0 < e)%Q -> (0 < py_min e (1 / e) /\ py_min e (1 / e) <= 1)%Q.
Proof.
  intros He. unfold py_min.
  assert (0 < 1 / e)%Q as Hinv by (by apply Qdiv_pos).
  destruct (Qlt_bool (1 / e) e) eqn:E.
  - apply Qlt_bool_true in E. split; [done|].
    destruct (Qlt_le_dec e 1) as [H1|H1].
    + exfalso. assert (1 < 1 / e)%Q by (apply Qlt_shift_div_l; lra). lra.
    + apply Qle_shift_div_r; lra.
  - apply Qlt_bool_false in E. split; [done|].
    destruct (Qlt_le_dec 1 e) as [H1|H1]; [|done].
    exfalso. assert (1 / e < 1)%Q by (apply Qlt_shift_div_r; lra). lra.
Qed.

Section ScoreRange.

Variable exp : Q -> Q.
Hypothesis exp_neg_lt_1 : forall x : Q, (0 < x)%Q -> (exp (- x) < 1)%Q.

(** Past the three tests: the fields of the record and the range of
    the metrics. *)
Lemma score_metrics_range (cfg : StrainGST.t) (name : string)
    (strain : StrainKmerSet.t) (sample : Sample.t)
    (kmers counts pan_counts sample_counts : list Z) (accounted : Q) :
  kmers <> [] ->
  StrainKmerSet.kmers strain <> [] ->
  StrainKmerSet.counts strain <> [] ->
  Forall (fun c => 1 <= c) (StrainKmerSet.counts strain) ->
  counts <> [] ->
  Forall (fun c => 1 <= c) counts ->
  Forall (fun c => 1 <= c) pan_counts ->
  Forall (fun c => 1 <= c) sample_counts ->
  Datatypes.length counts = Datatypes.length pan_counts ->
  Datatypes.length sample_counts = Datatypes.length pan_counts ->
  (0 < accounted)%Q ->
  exists r : Strain.t,
    StrainGST.score_metrics exp cfg name strain sample kmers counts
                            pan_counts sample_counts accounted = Ok r
    /\ Strain.strain r = name
    /\ Strain.gkmers r = StrainKmerSet.distinct_kmers strain
    /\ Strain.ikmers r = Zlen (StrainKmerSet.kmers strain)
    /\ Strain.skmers r = Zlen (Sample.kmers sample)
    /\ Strain.acct r = accounted
    /\ Strain.cov r
       = (inject_Z (Zlen kmers)
          / inject_Z (Zlen (StrainKmerSet.kmers strain)))%Q
    /\ Strain.kcov r
       = (inject_Z (np_sum sample_counts) / inject_Z (Zlen sample_counts))%Q
    /\ (0 < Strain.even r)%Q
    /\ (0 < Strain.spec r)%Q
    /\ (0 < Strain.score r)%Q
    /\ (Strain.score r <= Strain.score0 r)%Q
    /\ (Strain.score0 r <= Strain.cov r * Strain.acct r)%Q.
Proof.
  intros Hk Hsk Hsc Hscpos Hc Hcpos Hppos Hspos Hlen1 Hlen2 Hacc.
  assert (sample_counts <> []) as Hs.
  { destruct sample_counts, pan_counts, counts; simpl in *; done. }
  pose proof (inject_Z_pos _ (Zlen_pos _ Hk)) as P1.
  pose proof (inject_Z_pos _ (Zlen_pos _ Hsk)) as P2.
  pose proof (inject_Z_pos _ (Zlen_pos _ Hs)) as P3.
  pose proof (inject_Z_pos _ (np_sum_pos _ Hscpos Hsc)) as P4.
  pose proof (inject_Z_pos _ (np_sum_pos _ Hspos Hs)) as P5.
  pose proof (inject_Z_pos _ (np_sum_pos _ Hcpos Hc)) as P6.
  unfold StrainGST.score_metrics.
  rewrite py_div_pos by done. cbn [res_bind].
  rewrite np_div_pos by done. cbn [res_bind].
  rewrite np_div_pos by done. cbn [res_bind].
  set (gc := (inject_Z (np_sum sample_counts)
              / inject_Z (np_sum (StrainKmerSet.counts strain)))%Q).
  assert (0 < gc)%Q as Hgc by (by apply Qdiv_pos).
  assert (0 < 1 - exp (- gc))%Q as Hest
    by (pose proof (exp_neg_lt_1 gc Hgc); lra).
  set (covered := (inject_Z (Zlen kmers)
                   / inject_Z (Zlen (StrainKmerSet.kmers strain)))%Q).
  assert (0 < covered)%Q as Hcov by (by apply Qdiv_pos).
  rewrite py_div_pos by done. cbn [res_bind].
  set (even := (covered / (1 - exp (- gc)))%Q).
  assert (0 < even)%Q as Heven by (by apply Qdiv_pos).
  rewrite py_div_pos by done. cbn [res_bind].
  destruct (weights_ok pan_counts Hppos) as (ws & -> & Hwlen & Hwpos).
  cbn [res_bind]. unfold np_zip.
  rewrite Hlen1, Hlen2, Hwlen, Nat.eqb_refl. cbn [res_bind].
  set (stw := np_sumQ (zip_with _ counts ws)).
  set (saw := np_sumQ (zip_with _ sample_counts ws)).
  assert (0 < stw)%Q as Hstw
    by (apply weighted_sum_pos; try done; lia).
  assert (0 < saw)%Q as Hsaw
    by (apply weighted_sum_pos; try done; lia).
  rewrite (np_div_pos saw stw) by done. cbn [res_bind].
  rewrite (np_div_pos stw) by done. cbn [res_bind].
  rewrite (np_div_pos saw) by done. cbn [res_bind].
  rewrite np_div_pos by (by apply Qdiv_pos). cbn [res_bind].
  set (spec := (saw / inject_Z (np_sum sample_counts)
                / (stw / inject_Z (np_sum counts)))%Q).
  assert (0 < spec)%Q as Hspec by (apply Qdiv_pos; by apply Qdiv_pos).
  rewrite np_div_pos by done.
  cbn [res_bind]. eexists. split; [reflexivity|]. cbn.
  destruct (py_min_inverse_bounds even Heven) as [He1 He2].
  destruct (py_min_inverse_bounds spec Hspec) as [Hs1 Hs2].
  assert (0 < covered * accounted)%Q as Hca
    by (by apply Qmult_lt_0_compat).
  assert (0 < covered * accounted * py_min even (1 / even))%Q as Hs0
    by (by apply Qmult_lt_0_compat).
  repeat (split; [done|]).
  split; [by apply Qmult_lt_0_compat|]. split; nra.
Qed.

Lemma np_sum_mask_select_le (l : list Z) (m : list bool) :
  Forall (fun c => 0 <= c) l -> np_sum (mask_select l m) <= np_sum l.
Proof.
  intros H. revert m. induction H as [|c l Hc Hl IH]; intros m.
  - destruct m as [|[] m]; simpl; lia.
  - pose proof (np_sum_nonneg l Hl).
    destruct m as [|[] m]; simpl; try lia; specialize (IH m); lia.
Qed.

Lemma np_sum_ge_length (l : list Z) :
  Forall (fun c => 1 <= c) l -> Zlen l <= np_sum l.
Proof.
  unfold Zlen. induction 1 as [|c l Hc Hl IH]; simpl; [done|]. lia.
Qed.

(** [score_strain] within the data model: it returns, the strain it
    leaves in the cache is the loaded one without [excludes], and a
    score record has its metrics in range. *)
Lemma score_strain_spec (cfg : StrainGST.t) (pan pan1 : PanGenome.t)
    (name : string) (strain : StrainKmerSet.t) (sample : Sample.t)
    (excludes : option (list Z)) :
  StrainGST.load_strain pan name = Ok (pan1, strain) ->
  KmerSet.inv (StrainKmerSet.base strain) ->
  KmerSet.inv (Sample.base sample) ->
  KmerSet.inv (PanGenome.base pan) ->
  (forall x, x ∈ StrainKmerSet.kmers strain -> x ∈ PanGenome.kmers pan) ->
  let left := StrainGST.strain_left strain excludes in
  let common := kmerizer.intersect left (Sample.kmers sample) in
  exists (strain' : StrainKmerSet.t) (r : option Strain.t),
    StrainGST.score_strain exp cfg pan name sample
                           excludes
    = Ok (PanGenome.set_cache pan1
            (<[name := strain']> (PanGenome.strainCache pan1)), r)
    /\ StrainKmerSet.kmers strain' = left
    /\ KmerSet.inv (StrainKmerSet.base strain')
    /\ StrainKmerSet.distinct_kmers strain'
       = StrainKmerSet.distinct_kmers strain
    /\ forall s, r = Some s ->
         Strain.strain s = name
         /\ Strain.gkmers s = StrainKmerSet.distinct_kmers strain
         /\ Strain.ikmers s = Zlen left
         /\ Strain.skmers s = Zlen (Sample.kmers sample)
         /\ Strain.cov s = (inject_Z (Zlen common) / inject_Z (Zlen left))%Q
         /\ Strain.acct s
            = (inject_Z (StrainGST.sample_count_on sample common)
               / inject_Z (np_sum (Sample.counts sample)))%Q
         /\ common <> []
         /\ (StrainGST.min_frac cfg
             * inject_Z (StrainKmerSet.distinct_kmers strain)
             <= inject_Z (Zlen left))%Q
         /\ (StrainGST.min_acct cfg <= Strain.acct s)%Q
         /\ (0 < Strain.cov s)%Q /\ (Strain.cov s <= 1)%Q
         /\ (0 < Strain.acct s)%Q /\ (Strain.acct s <= 1)%Q
         /\ (1 <= Strain.kcov s)%Q
         /\ (0 < Strain.even s)%Q
         /\ (0 < Strain.score s)%Q
         /\ (Strain.score s <= Strain.score0 s)%Q
         /\ (Strain.score0 s <= Strain.cov s * Strain.acct s)%Q.
Proof.
  intros Hload Hst Hsa Hpa Hsub left common.
  unfold StrainGST.score_strain. rewrite Hload. cbn [res_bind].
  destruct (exclusion_kept strain excludes Hst)
    as (strain' & -> & Hleft & Hinv' & Hdist & _).
  cbn [res_bind]. fold left in Hleft.
  exists strain'.
  set (pan2 := PanGenome.set_cache pan1 _).
  assert (PanGenome.base pan2 = PanGenome.base pan) as Hbase
    by (unfold pan2; simpl; by eapply load_strain_base).
  unfold PanGenome.kmers, PanGenome.counts. rewrite Hbase.
  rewrite Hdist, Hleft.
  pose proof Hinv' as (Hlen' & Hsorted' & Hpos').
  unfold StrainKmerSet.kmers in Hleft. rewrite Hleft in Hlen', Hsorted'.
  destruct Hsa as (Hlens & Hsorteds & Hposs).
  destruct Hpa as (Hlenp & Hsortedp & Hposp).
  assert (forall x, x ∈ left -> x ∈ KmerSet.kmers (PanGenome.base pan))
    as Hsub'.
  { intros x Hx. apply Hsub. unfold left, StrainGST.strain_left in Hx.
    destruct excludes; [|done].
    by apply list_elem_of_filter in Hx as [_ Hx]. }
  destruct (Qlt_bool _ _) eqn:E1.
  { eexists. split; [reflexivity|]. done. }
  apply Qlt_bool_false in E1.
  rewrite np_take_intersect_ix by lia. cbn [res_bind].
  fold common.
  destruct (Nat.eqb (Datatypes.length common) 0) eqn:E2.
  { eexists. split; [reflexivity|]. done. }
  assert (common <> []) as Hcommon.
  { intros Hnil. rewrite Hnil in E2. simpl in E2. discriminate. }
  unfold StrainKmerSet.counts.
  rewrite np_take_intersect_ix by lia. cbn [res_bind].
  assert (NoDup left) as Hndl by (by apply StronglySorted_lt_NoDup).
  assert (NoDup (KmerSet.kmers (PanGenome.base pan))) as Hndp
    by (by apply StronglySorted_lt_NoDup).
  assert (NoDup (KmerSet.kmers (Sample.base sample))) as Hnds
    by (by apply StronglySorted_lt_NoDup).
  set (spc := mask_select (KmerSet.counts (PanGenome.base pan)) _).
  assert (Datatypes.length spc = Datatypes.length left) as Hspc.
  { unfold spc. rewrite mask_select_length_filter by lia.
    by apply filter_length_subset. }
  rewrite (np_take_intersect_ix left common spc) by lia. cbn [res_bind].
  unfold Sample.kmers, Sample.counts.
  rewrite np_take_intersect_ix by lia. cbn [res_bind].
  set (sample_counts := mask_select (KmerSet.counts (Sample.base sample)) _).
  assert (sample_counts
          = (List.filter (fun kc => bool_decide (fst kc ∈ common))
               (zip (KmerSet.kmers (Sample.base sample))
                    (KmerSet.counts (Sample.base sample)))).*2) as Hsc.
  { unfold sample_counts.
    rewrite (map_fst_zip _ _ (KmerSet.counts (Sample.base sample))) by done.
    by destruct (select_pairs
                   (fun kc : Z * Z => bool_decide (fst kc ∈ common))
                   _ _ Hlens) as [_ ->]. }
  assert (forall x, x ∈ common ->
                    x ∈ left /\ x ∈ KmerSet.kmers (Sample.base sample))
    as Hcin.
  { intros x Hx. unfold common, kmerizer.intersect in Hx.
    apply list_elem_of_filter in Hx. tauto. }
  assert (NoDup common) as Hndc by (by apply NoDup_filter).
  assert (Datatypes.length sample_counts = Datatypes.length common)
    as Hsclen.
  { unfold sample_counts. rewrite mask_select_length_filter by lia.
    apply filter_length_subset; try done. intros x Hx. by apply Hcin. }
  assert (Forall (fun c => 1 <= c) sample_counts) as Hscpos
    by (by apply mask_select_Forall).
  assert (sample_counts <> []) as Hscne.
  { intros Hnil. rewrite Hnil in Hsclen. simpl in Hsclen.
    symmetry in Hsclen. by apply nil_length_inv in Hsclen. }
  assert (KmerSet.counts (Sample.base sample) <> []) as Hsne.
  { intros Hnil. unfold sample_counts in Hscne. rewrite Hnil in Hscne.
    by destruct (map _ _). }
  assert (np_sum sample_counts <= np_sum (KmerSet.counts (Sample.base sample)))
    as Hsle.
  { apply np_sum_mask_select_le. eapply Forall_impl; [exact Hposs|].
    simpl. lia. }
  pose proof (np_sum_ge_length _ Hscpos) as Hkc.
  pose proof (np_sum_pos _ Hscpos Hscne) as Hscsum.
  pose proof (np_sum_pos _ Hposs Hsne) as Hssum.
  rewrite np_div_pos by (by apply inject_Z_pos).
  cbn [res_bind].
  unfold StrainGST.sample_count_on, Sample.kmers, Sample.counts.
  rewrite <- Hsc.
  set (accounted := (inject_Z (np_sum sample_counts)
                     / inject_Z (np_sum (KmerSet.counts (Sample.base sample))))%Q).
  assert (0 < accounted)%Q as Hacc0
    by (apply Qdiv_pos; by apply inject_Z_pos).
  assert (accounted <= 1)%Q as Hacc1.
  { apply Qle_shift_div_r; [by apply inject_Z_pos|].
    rewrite Qmult_1_l. by rewrite <- Zle_Qle. }
  destruct (Qlt_bool accounted (StrainGST.min_acct cfg)) eqn:E3.
  { eexists. split; [reflexivity|]. done. }
  apply Qlt_bool_false in E3.
  set (counts := mask_select (KmerSet.counts (StrainKmerSet.base strain')) _).
  set (pan_counts := mask_select spc _).
  assert (left <> []) as Hlne.
  { intros Hnil. apply Hcommon. unfold common. by rewrite Hnil. }
  assert (Forall (fun c => 1 <= c) counts) as Hcpos
    by (by apply mask_select_Forall).
  assert (Forall (fun c => 1 <= c) pan_counts) as Hppos
    by (by do 2 apply mask_select_Forall).
  assert (Datatypes.length counts = Datatypes.length pan_counts) as Hcp.
  { apply mask_select_length_eq. lia. }
  assert (Datatypes.length counts = Datatypes.length common) as Hcc.
  { unfold counts. rewrite mask_select_length_filter by lia.
    apply filter_length_subset; try done. intros x Hx. by apply Hcin. }
  assert (Zlen common <= Zlen left) as Hcl.
  { unfold Zlen, common, kmerizer.intersect.
    apply Nat2Z.inj_le, length_filter. }
  destruct (score_metrics_range cfg name strain' sample
              common counts pan_counts sample_counts accounted)
    as (r & Hr & R1 & R2 & R3 & R4 & R5 & R6 & R7 & R8 & R9 & R10 & R11 & R12);
    try done.
  - unfold StrainKmerSet.kmers. by rewrite Hleft.
  - unfold StrainKmerSet.counts. intros Hnil. rewrite Hnil in Hlen'.
    by apply nil_length_inv in Hlen'.
  - intros Hnil. rewrite Hnil in Hcc. simpl in Hcc.
    symmetry in Hcc. by apply nil_length_inv in Hcc.
  - lia.
  - rewrite Hr. cbn [res_bind]. eexists. split; [reflexivity|].
    split; [done|]. split; [done|]. split; [done|].
    intros s [= <-].
    unfold StrainKmerSet.kmers in R3, R6. rewrite Hleft in R3, R6.
    pose proof (inject_Z_pos _ (Zlen_pos _ Hlne)) as Pl.
    pose proof (inject_Z_pos _ (Zlen_pos _ Hcommon)) as Pc.
    pose proof (inject_Z_pos _ (Zlen_pos _ Hscne)) as Ps.
    rewrite R5, R6, R7.
    split; [done|]. split; [by rewrite R2, Hdist|]. split; [done|].
    split; [done|]. split; [done|]. split; [done|]. split; [done|].
    split; [done|]. split; [done|].
    split; [by apply Qdiv_pos|].
    split; [apply Qle_shift_div_r; [done|]; rewrite Qmult_1_l;
            by rewrite <- Zle_Qle|].
    split; [done|]. split; [done|].
    split; [apply Qle_shift_div_l; [done|]; rewrite Qmult_1_l;
            by rewrite <- Zle_Qle|].
    split; [done|]. split; [done|]. split; [done|].
    by rewrite R5, R6 in R12.
Qed.

(** X12.  The exclusion of [score_strain] stays in the cache and
    adds up: after scoring a strain of the data model with [excludes
    = e1] and then with [e2] (against any two samples, and whatever
    the two results are), the cached strain holds the k-mers of the
    loaded strain without those of [e1] and [e2], its
    [distinct_kmers] is still the original number, and no other cache
    entry differs from the state after loading. *)
Theorem score_strain_exclusions_accumulate (cfg : StrainGST.t)
    (pan pan1 : PanGenome.t) (name : string) (strain : StrainKmerSet.t)
    (sample sample2 : Sample.t) (e1 e2 : list Z) :
  StrainGST.load_strain pan name = Ok (pan1, strain) ->
  KmerSet.inv (StrainKmerSet.base strain) ->
  KmerSet.inv (Sample.base sample) ->
  KmerSet.inv (Sample.base sample2) ->
  KmerSet.inv (PanGenome.base pan) ->
  (forall x, x ∈ StrainKmerSet.kmers strain -> x ∈ PanGenome.kmers pan) ->
  exists pan' r pan'' r' cached,
    StrainGST.score_strain exp cfg pan name sample
                           (Some e1) = Ok (pan', r)
    /\ StrainGST.score_strain exp cfg pan' name sample2
                              (Some e2) = Ok (pan'', r')
    /\ PanGenome.strainCache pan'' !! name = Some cached
    /\ StrainKmerSet.kmers cached
       = kmerizer.diff (kmerizer.diff (StrainKmerSet.kmers strain) e1) e2
    /\ StrainKmerSet.distinct_kmers cached
       = StrainKmerSet.distinct_kmers strain
    /\ forall other, other <> name ->
         PanGenome.strainCache pan'' !! other
         = PanGenome.strainCache pan1 !! other.
Proof.
  intros Hload Hst Hsa Hsa2 Hpa Hsub.
  destruct (score_strain_spec cfg pan pan1 name strain sample (Some e1)
              Hload Hst Hsa Hpa Hsub)
    as (s1 & r & Hr & Hk1 & Hinv1 & Hd1 & _).
  set (pan' := PanGenome.set_cache pan1 _) in Hr.
  assert (StrainGST.load_strain pan' name
          = Ok (pan', s1)) as Hload'.
  { unfold StrainGST.load_strain, pan'. simpl. by rewrite lookup_insert_eq. }
  assert (PanGenome.base pan' = PanGenome.base pan) as Hbase
    by (unfold pan'; simpl; by eapply load_strain_base).
  destruct (score_strain_spec cfg pan' pan' name s1 sample2 (Some e2))
    as (s2 & r' & Hr' & Hk2 & Hinv2 & Hd2 & _); try done.
  { by rewrite Hbase. }
  { intros x Hx. unfold PanGenome.kmers. rewrite Hbase. apply Hsub.
    rewrite Hk1 in Hx. simpl in Hx.
    by apply list_elem_of_filter in Hx as [_ Hx]. }
  eexists pan', r, _, r', s2. split; [done|]. split; [exact Hr'|].
  simpl. split; [by rewrite lookup_insert_eq|].
  unfold StrainGST.strain_left in Hk1, Hk2.
  split; [by rewrite Hk2, Hk1|]. split; [by rewrite Hd2|].
  intros other Hne. by rewrite !lookup_insert_ne.
Qed.

(** X13.  Within the data model [score_strain] returns, and a score
    record it returns names the strain, counts the k-mers left of the
    strain and of the sample, and has its metrics in range: [cov] and
    [acct] in (0, 1], [kcov >= 1], [even > 0], and
    [0 < score <= score0 <= cov * acct <= 1]; the two thresholds hold,
    [ikmers >= min_frac * gkmers] and [acct >= min_acct]. *)
Theorem score_strain_scores_in_range (cfg : StrainGST.t)
    (pan pan1 : PanGenome.t) (name : string) (strain : StrainKmerSet.t)
    (sample : Sample.t) (excludes : option (list Z)) :
  StrainGST.load_strain pan name = Ok (pan1, strain) ->
  KmerSet.inv (StrainKmerSet.base strain) ->
  KmerSet.inv (Sample.base sample) ->
  KmerSet.inv (PanGenome.base pan) ->
  (forall x, x ∈ StrainKmerSet.kmers strain -> x ∈ PanGenome.kmers pan) ->
  exists (pan' : PanGenome.t) (r : option Strain.t),
    StrainGST.score_strain exp cfg pan name sample
                           excludes = Ok (pan', r)
    /\ forall s, r = Some s ->
         Strain.strain s = name
         /\ Strain.gkmers s = StrainKmerSet.distinct_kmers strain
         /\ Strain.ikmers s
            = Zlen (StrainGST.strain_left strain excludes)
         /\ Strain.skmers s = Zlen (Sample.kmers sample)
         /\ (StrainGST.min_frac cfg * inject_Z (Strain.gkmers s)
             <= inject_Z (Strain.ikmers s))%Q
         /\ (StrainGST.min_acct cfg <= Strain.acct s)%Q
         /\ (0 < Strain.cov s)%Q /\ (Strain.cov s <= 1)%Q
         /\ (0 < Strain.acct s)%Q /\ (Strain.acct s <= 1)%Q
         /\ (1 <= Strain.kcov s)%Q
         /\ (0 < Strain.even s)%Q
         /\ (0 < Strain.score s)%Q
         /\ (Strain.score s <= Strain.score0 s)%Q
         /\ (Strain.score0 s <= Strain.cov s * Strain.acct s)%Q
         /\ (Strain.cov s * Strain.acct s <= 1)%Q.
Proof.
  intros Hload Hst Hsa Hpa Hsub.
  destruct (score_strain_spec cfg pan pan1 name strain sample excludes
              Hload Hst Hsa Hpa Hsub)
    as (s1 & r & Hr & _ & _ & _ & Hs).
  eexists _, r. split; [exact Hr|]. intros s Hrs.
  destruct (Hs s Hrs)
    as (S1 & S2 & S3 & S4 & _ & _ & _ & S8 & S9 & S10 & S11 & S12 & S13
        & S14 & S15 & S16 & S17 & S18).
  rewrite S2, S3. repeat (split; [done|]). nra.
Qed.

End ScoreRange.

Lemma score_strain_exclusions_accumulate_witness :
  (forall x : Q, (0 < x)%Q -> (Samples.exp_rational (- x) < 1)%Q)
  /\ StrainGST.load_strain Samples.pan3 "X"
     = Ok (Samples.pan3_x, Samples.strain_x_loaded)
  /\ KmerSet.inv (StrainKmerSet.base Samples.strain_x_loaded)
  /\ KmerSet.inv (Sample.base Samples.sample3)
  /\ KmerSet.inv (PanGenome.base Samples.pan3)
  /\ (forall x, x ∈ StrainKmerSet.kmers Samples.strain_x_loaded ->
                x ∈ PanGenome.kmers Samples.pan3)
  /\ exists pan' r pan'' r' cached,
       StrainGST.score_strain Samples.exp_rational Samples.cfg
         Samples.pan3 "X" Samples.sample3 (Some [2]) = Ok (pan', r)
       /\ StrainGST.score_strain Samples.exp_rational Samples.cfg pan' "X" Samples.sample3 (Some [1]) = Ok (pan'', r')
       /\ PanGenome.strainCache pan'' !! "X"%string = Some cached
       /\ StrainKmerSet.kmers cached
          = kmerizer.diff
              (kmerizer.diff (StrainKmerSet.kmers Samples.strain_x_loaded)
                             [2]) [1]
       /\ StrainKmerSet.distinct_kmers cached
          = StrainKmerSet.distinct_kmers Samples.strain_x_loaded
       /\ forall other, other <> "X"%string ->
            PanGenome.strainCache pan'' !! other
            = PanGenome.strainCache Samples.pan3_x !! other.
Proof.
  split; [exact exp_rational_neg|].
  split; [vm_compute; reflexivity|].
  split; [exact strain_x_inv|]. split; [exact sample3_inv|].
  split; [exact pan3_inv|]. split; [exact strain_x_in_pan3|].
  apply (score_strain_exclusions_accumulate Samples.exp_rational
           exp_rational_neg Samples.cfg Samples.pan3
           Samples.pan3_x "X" Samples.strain_x_loaded Samples.sample3
           Samples.sample3 [2] [1]);
    [vm_compute; reflexivity | exact strain_x_inv | exact sample3_inv
    | exact sample3_inv | exact pan3_inv | exact strain_x_in_pan3].
Defined.

Lemma score_strain_scores_in_range_witness :
  (forall x : Q, (0 < x)%Q -> (Samples.exp_rational (- x) < 1)%Q)
  /\ StrainGST.load_strain Samples.pan3 "X"
     = Ok (Samples.pan3_x, Samples.strain_x_loaded)
  /\ KmerSet.inv (StrainKmerSet.base Samples.strain_x_loaded)
  /\ KmerSet.inv (Sample.base Samples.sample3)
  /\ KmerSet.inv (PanGenome.base Samples.pan3)
  /\ (forall x, x ∈ StrainKmerSet.kmers Samples.strain_x_loaded ->
                x ∈ PanGenome.kmers Samples.pan3)
  /\ exists (pan' : PanGenome.t) (r : option Strain.t),
       StrainGST.score_strain Samples.exp_rational Samples.cfg
         Samples.pan3 "X" Samples.sample3 None = Ok (pan', r)
       /\ forall s, r = Some s ->
            Strain.strain s = "X"%string
            /\ Strain.gkmers s
               = StrainKmerSet.distinct_kmers Samples.strain_x_loaded
            /\ Strain.ikmers s
               = Zlen (StrainGST.strain_left Samples.strain_x_loaded None)
            /\ Strain.skmers s = Zlen (Sample.kmers Samples.sample3)
            /\ (StrainGST.min_frac Samples.cfg * inject_Z (Strain.gkmers s)
                <= inject_Z (Strain.ikmers s))%Q
            /\ (StrainGST.min_acct Samples.cfg <= Strain.acct s)%Q
            /\ (0 < Strain.cov s)%Q /\ (Strain.cov s <= 1)%Q
            /\ (0 < Strain.acct s)%Q /\ (Strain.acct s <= 1)%Q
            /\ (1 <= Strain.kcov s)%Q
            /\ (0 < Strain.even s)%Q
            /\ (0 < Strain.score s)%Q
            /\ (Strain.score s <= Strain.score0 s)%Q
            /\ (Strain.score0 s <= Strain.cov s * Strain.acct s)%Q
            /\ (Strain.cov s * Strain.acct s <= 1)%Q.
Proof.
  split; [exact exp_rational_neg|].
  split; [vm_compute; reflexivity|].
  split; [exact strain_x_inv|]. split; [exact sample3_inv|].
  split; [exact pan3_inv|]. split; [exact strain_x_in_pan3|].
  apply (score_strain_scores_in_range Samples.exp_rational
           exp_rational_neg Samples.cfg Samples.pan3
           Samples.pan3_x "X" Samples.strain_x_loaded Samples.sample3 None);
    [vm_compute; reflexivity | exact strain_x_inv | exact sample3_inv
    | exact pan3_inv | exact strain_x_in_pan3].
Defined.

(* ===================================================================== *)
(** * Further properties: the search loop                                *)
(* ===================================================================== *)

Lemma res_bind_Ok {A B} (m : res A) (f : A -> res B) (b : B) :
  res_bind m f = Ok b -> exists a, m = Ok a /\ f a = Ok b.
Proof. destruct m as [a|e]; simpl; [by exists a|done]. Qed.

Section SearchLoop.

Variable exp : Q -> Q.

Lemma score_metrics_strain (cfg : StrainGST.t) (name : string)
    (strain : StrainKmerSet.t) (sample : Sample.t)
    (kmers counts pan_counts sample_counts : list Z) (accounted : Q)
    (r : Strain.t) :
  StrainGST.score_metrics exp cfg name strain sample kmers counts
                          pan_counts sample_counts accounted = Ok r ->
  Strain.strain r = name.
Proof.
  unfold StrainGST.score_metrics. intros H.
  repeat (apply res_bind_Ok in H as (? & _ & H)).
  by injection H as <-.
Qed.

(** What a call of [score_strain] that returns has done: the strain
    was loaded, [excludes] taken out of it and the outcome put into
    the cache; a score record carries the name, and the strain has a
    k-mer left. *)
Lemma score_strain_inversion (cfg : StrainGST.t) (pan pan' : PanGenome.t)
    (name : string) (sample : Sample.t) (e : list Z)
    (r : option Strain.t) :
  StrainGST.score_strain exp cfg pan name sample
                         (Some e) = Ok (pan', r) ->
  exists pan1 s b,
    StrainGST.load_strain pan name = Ok (pan1, s)
    /\ KmerSet.exclude (StrainKmerSet.base s) e = Ok b
    /\ KmerSet.kmers b = kmerizer.diff (StrainKmerSet.kmers s) e
    /\ pan' = PanGenome.set_cache pan1
                (<[name := StrainKmerSet.set_base s b]>
                   (PanGenome.strainCache pan1))
    /\ forall rec, r = Some rec ->
         Strain.strain rec = name /\ KmerSet.kmers b <> [].
Proof.
  unfold StrainGST.score_strain. intros H.
  apply res_bind_Ok in H as ([pan1 s] & Hload & H).
  apply res_bind_Ok in H as (s' & Hex & H).
  apply res_bind_Ok in Hex as (b & Hb & Hex). injection Hex as <-.
  exists pan1, s, b. split; [done|]. split; [done|].
  assert (KmerSet.kmers b = kmerizer.diff (StrainKmerSet.kmers s) e) as Hk.
  { unfold KmerSet.exclude in Hb.
    apply res_bind_Ok in Hb as (? & _ & Hb). by injection Hb as <-. }
  split; [done|].
  set (pan2 := PanGenome.set_cache pan1 _) in *.
  destruct (Qlt_bool _ _); [by injection H as <- <-|].
  apply res_bind_Ok in H as (spc & _ & H).
  destruct (Nat.eqb _ 0) eqn:E; [by injection H as <- <-|].
  repeat (apply res_bind_Ok in H as (? & _ & H)).
  destruct (Qlt_bool _ _); [by injection H as <- <-|].
  apply res_bind_Ok in H as (rec & Hrec & H). injection H as <- <-.
  split; [done|]. intros ? [= <-].
  split; [by eapply score_metrics_strain|].
  intros Hnil. unfold StrainKmerSet.kmers in E. simpl in E.
  rewrite Hnil in E. done.
Qed.

(** One call of [score_strain] and the spent strains: they stay
    spent, a spent strain gets no score and is left without k-mers,
    and a strain without k-mers stays so. *)
Lemma score_strain_spent (cfg : StrainGST.t) (pan pan' : PanGenome.t)
    (name : string) (sample : Sample.t) (e : list Z)
    (r : option Strain.t) :
  StrainGST.score_strain exp cfg pan name sample
                         (Some e) = Ok (pan', r) ->
  (forall n, StrainGST.spent pan e n -> StrainGST.spent pan' e n)
  /\ (forall n, StrainGST.spent pan [] n -> StrainGST.spent pan' [] n)
  /\ (StrainGST.spent pan e name ->
        r = None /\ StrainGST.spent pan' [] name)
  /\ is_Some (PanGenome.strainCache pan' !! name)
  /\ (forall n, is_Some (PanGenome.strainCache pan !! n) ->
                is_Some (PanGenome.strainCache pan' !! n))
  /\ PanGenome.base pan' = PanGenome.base pan
  /\ PanGenome.h5 pan' = PanGenome.h5 pan
  /\ (forall rec, r = Some rec -> Strain.strain rec = name).
Proof.
  intros H.
  destruct (score_strain_inversion cfg pan pan' name sample e r H)
    as (pan1 & s & b & Hload & Hb & Hk & -> & Hrec).
  destruct (load_strain_effect pan pan1 name s Hload)
    as (Hc & Hother & Hcached & Hbase & Hh5 & _).
  assert (forall e0, StrainGST.spent pan e0 name ->
            forall x, x ∈ StrainKmerSet.kmers s -> x ∈ e0) as Hsp.
  { intros e0 (s0 & Hs0 & Hin). by destruct (Hcached s0 Hs0) as [-> _]. }
  assert (forall x, x ∈ KmerSet.kmers b -> x ∈ StrainKmerSet.kmers s)
    as Hsub.
  { intros x Hx. rewrite Hk in Hx.
    by apply list_elem_of_filter in Hx as [_ Hx]. }
  assert (forall e0 e1 n, StrainGST.spent pan e0 n ->
            (n = name -> forall x, x ∈ KmerSet.kmers b -> x ∈ e1) ->
            (n <> name -> e1 = e0) ->
            StrainGST.spent
              (PanGenome.set_cache pan1
                 (<[name := StrainKmerSet.set_base s b]>
                    (PanGenome.strainCache pan1))) e1 n) as Hkeep.
  { intros e0 e1 n (s0 & Hs0 & Hin) Hsame Hdiff.
    unfold StrainGST.spent. simpl.
    destruct (decide (n = name)) as [->|Hne].
    - rewrite lookup_insert_eq. eexists. split; [done|]. by apply Hsame.
    - rewrite lookup_insert_ne by done. rewrite Hother by done.
      exists s0. split; [done|]. by rewrite (Hdiff Hne). }
  split; [|split; [|split; [|split; [|split; [|split; [|split]]]]]].
  - intros n Hn. apply (Hkeep e e n Hn); [|done].
    intros -> x Hx. by apply (Hsp e Hn), Hsub.
  - intros n Hn. apply (Hkeep [] [] n Hn); [|done].
    intros -> x Hx. by apply (Hsp [] Hn), Hsub.
  - intros Hn.
    assert (KmerSet.kmers b = []) as Hnil.
    { rewrite Hk. unfold kmerizer.diff.
      destruct (filter _ _) as [|x l] eqn:E; [done|]. exfalso.
      assert (x ∈ filter (fun x => x ∉ e) (StrainKmerSet.kmers s)) as Hx
        by (rewrite E; left).
      apply list_elem_of_filter in Hx as [Hx1 Hx2].
      by apply Hx1, (Hsp e Hn). }
    split.
    + destruct r as [rec|]; [|done]. by destruct (Hrec rec eq_refl).
    + apply (Hkeep e [] name Hn); [|done].
      intros _ x Hx. by rewrite Hnil in Hx.
  - simpl. rewrite lookup_insert_eq. by eexists.
  - intros n Hn. simpl. destruct (decide (n = name)) as [->|Hne].
    + rewrite lookup_insert_eq. by eexists.
    + rewrite lookup_insert_ne by done. by rewrite Hother.
  - done.
  - done.
  - intros rec Hr. by destruct (Hrec rec Hr).
Qed.

(** All the calls of one iteration. *)
Lemma score_all_spent (cfg : StrainGST.t) (sample : Sample.t) (e : list Z)
    (strains : list string) :
  forall (pan pan' : PanGenome.t) (scored : list (option Strain.t)),
    StrainGST.score_all exp cfg pan strains sample e
    = Ok (pan', scored) ->
    (forall rec, Some rec ∈ scored ->
       Strain.strain rec ∈ strains
       /\ ~ StrainGST.spent pan e (Strain.strain rec))
    /\ (forall n, StrainGST.spent pan e n -> StrainGST.spent pan' e n)
    /\ (forall n, StrainGST.spent pan [] n -> StrainGST.spent pan' [] n)
    /\ (forall n, StrainGST.spent pan e n -> n ∈ strains ->
          StrainGST.spent pan' [] n)
    /\ (forall n, n ∈ strains ->
          is_Some (PanGenome.strainCache pan' !! n))
    /\ (forall n, is_Some (PanGenome.strainCache pan !! n) ->
          is_Some (PanGenome.strainCache pan' !! n))
    /\ PanGenome.base pan' = PanGenome.base pan
    /\ PanGenome.h5 pan' = PanGenome.h5 pan.
Proof.
  induction strains as [|name rest IH]; intros pan pan' scored H; simpl in H.
  - injection H as <- <-.
    split; [by intros rec Hin%elem_of_nil|].
    split; [done|]. split; [done|].
    split; [by intros n _ Hin%elem_of_nil|].
    split; [by intros n Hin%elem_of_nil|]. done.
  - apply res_bind_Ok in H as ([pan1 r] & Hone & H).
    apply res_bind_Ok in H as ([pan2 ss] & Hrest & H).
    injection H as <- <-.
    destruct (score_strain_spent cfg pan pan1 name sample e r Hone)
      as (S1 & S2 & S3 & S4 & S5 & S6 & S7 & S8).
    destruct (IH pan1 pan2 ss Hrest)
      as (A1 & A2 & A3 & A4 & A5 & A6 & A7 & A8).
    split; [|split; [|split; [|split; [|split; [|split; [|split]]]]]].
    + intros rec [Hin|Hin]%elem_of_cons.
      * subst r. rewrite (S8 rec eq_refl).
        split; [left|]. intros Hsp. by destruct (S3 Hsp).
      * destruct (A1 rec Hin) as [Hin' Hns].
        split; [by right|]. intros Hsp. by apply Hns, S1.
    + intros n Hn. by apply A2, S1.
    + intros n Hn. by apply A3, S2.
    + intros n Hn [->|Hin]%elem_of_cons.
      * apply A3. by destruct (S3 Hn).
      * apply A4; [by apply S1|done].
    + intros n [->|Hin]%elem_of_cons; [by apply A6|by apply A5].
    + intros n Hn. by apply A6, S5.
    + by rewrite A7.
    + by rewrite A8.
Qed.

Lemma insert_by_score_Permutation (x : Strain.t) (l : list Strain.t) :
  StrainGST.insert_by_score x l ≡ₚ x :: l.
Proof.
  induction l as [|y l IH]; simpl; [done|].
  destruct (Qlt_bool _ _); [|done]. rewrite IH. apply Permutation_swap.
Qed.

Lemma sort_by_score_Permutation (l : list Strain.t) :
  StrainGST.sort_by_score l ≡ₚ l.
Proof.
  induction l as [|x l IH]; simpl; [done|].
  by rewrite insert_by_score_Permutation, IH.
Qed.

(** A record among the sorted scores of an iteration was returned by
    [score_strain] and is even enough. *)
Lemma sorted_scores_elem_of (cfg : StrainGST.t)
    (scored : list (option Strain.t)) (rec : Strain.t) :
  rec ∈ StrainGST.sort_by_score (StrainGST.even_scores cfg scored) ->
  Some rec ∈ scored
  /\ (StrainGST.min_evenness cfg <= Strain.even rec)%Q.
Proof.
  rewrite sort_by_score_Permutation. unfold StrainGST.even_scores.
  intros Hin. apply list_elem_of_In, List.filter_In in Hin as [Hin Hev].
  apply list_elem_of_In, list_elem_of_omap in Hin as (o & Ho & Hid).
  simpl in Hid. subst o. split; [done|]. by apply Qle_bool_iff.
Qed.

(** The loop, for any [top]: what is added to the result, and what is
    left alone. *)
Lemma find_close_references_loop_adds (cfg : StrainGST.t)
    (strains : list string) :
  forall (n i : nat) (pan : PanGenome.t) (sample : Sample.t) (e : list Z)
         (result : StrainGSTResult.t Strain.t) pan' sample' result',
    StrainGST.find_close_references_loop exp cfg
      strains n i pan sample e result = Ok (pan', sample', result') ->
    StrainGSTResult.pan_kmers result' = StrainGSTResult.pan_kmers result
    /\ StrainGSTResult.pan_kcov result' = StrainGSTResult.pan_kcov result
    /\ StrainGSTResult.pan_pct result' = StrainGSTResult.pan_pct result
    /\ (exists added,
          StrainGSTResult.strains result'
          = StrainGSTResult.strains result ++ added
          /\ (Datatypes.length added <= n * StrainGST.top cfg)%nat
          /\ Forall (fun ps =>
                       Strain.strain (snd ps) ∈ strains
                       /\ (StrainGST.min_evenness cfg
                           <= Strain.even (snd ps))%Q) added)
    /\ PanGenome.base pan' = PanGenome.base pan
    /\ PanGenome.h5 pan' = PanGenome.h5 pan
    /\ Sample.total_kmers sample' = Sample.total_kmers sample
    /\ (forall x, x ∈ Sample.kmers sample' -> x ∈ Sample.kmers sample).
Proof.
  induction n as [|n IH]; intros i pan sample e result pan' sample' result' H;
    simpl in H.
  - injection H as <- <- <-. repeat (split; [done|]).
    split; [|done]. exists []. by rewrite app_nil_r.
  - apply res_bind_Ok in H as ([pan1 scored] & Hall & H).
    destruct (score_all_spent cfg sample e strains pan pan1 scored Hall)
      as (A1 & _ & _ & _ & _ & _ & A7 & A8).
    pose proof (sorted_scores_elem_of cfg scored) as Hsorted.
    destruct (StrainGST.sort_by_score _) as [|winner rest] eqn:Esort.
    { injection H as <- <- <-. repeat (split; [done|]).
      split; [|done]. exists []. rewrite app_nil_r. split; [done|].
      split; [simpl; lia|done]. }
    destruct (Qlt_bool _ _).
    { injection H as <- <- <-. repeat (split; [done|]).
      split; [|done]. exists []. rewrite app_nil_r. split; [done|].
      split; [simpl; lia|done]. }
    apply res_bind_Ok in H as ([pan2 ws] & Hload & H).
    apply res_bind_Ok in H as (s & Hex & H).
    destruct (IH _ _ _ _ _ _ _ _ H)
      as (R1 & R2 & R3 & (added & Hadd & Hlen & Hall') & R5 & R6 & R7 & R8).
    destruct (load_strain_effect pan1 pan2 _ ws Hload)
      as (_ & _ & _ & L1 & L2 & _).
    simpl in *.
    split; [done|]. split; [done|]. split; [done|].
    split; [|split; [congruence|split; [congruence|split; [done|]]]].
    + eexists. rewrite Hadd, <- app_assoc. split; [reflexivity|].
      split.
      * rewrite length_app, length_imap, length_take. lia.
      * apply Forall_app. split; [|done].
        apply Forall_forall. intros ps Hps.
        apply elem_of_lookup_imap in Hps as (t & rec & -> & Ht).
        apply lookup_take_Some in Ht as [Ht _].
        apply list_elem_of_lookup_2 in Ht. simpl.
        destruct (Hsorted rec Ht) as [Hrec Hev].
        split; [|done]. by destruct (A1 rec Hrec).
    + intros x Hx. apply R8 in Hx. unfold Sample.kmers in *. simpl in Hx.
      unfold KmerSet.exclude in Hex.
      apply res_bind_Ok in Hex as (? & _ & Hex). injection Hex as <-.
      simpl in Hx. by apply list_elem_of_filter in Hx as [_ Hx].
Qed.

(** The loop for [top = 1]: one entry per completed iteration, named
    by the iteration number; the strains reported so far are spent. *)
Lemma find_close_references_loop_top1 (cfg : StrainGST.t)
    (strains : list string) :
  StrainGST.top cfg = 1%nat ->
  forall (n i : nat) (pan : PanGenome.t) (sample : Sample.t) (e : list Z)
         (result : StrainGSTResult.t Strain.t) pan' sample' result',
    StrainGST.find_close_references_loop exp cfg
      strains n i pan sample e result = Ok (pan', sample', result') ->
    NoDup (map (fun ps => Strain.strain (snd ps))
               (StrainGSTResult.strains result)) ->
    (forall ps, ps ∈ StrainGSTResult.strains result ->
       Strain.strain (snd ps) ∈ strains
       /\ StrainGST.spent pan e (Strain.strain (snd ps))) ->
    (exists added,
       StrainGSTResult.strains result'
       = StrainGSTResult.strains result ++ added
       /\ map fst added
          = map (fun j : nat => pretty j) (seq i (Datatypes.length added))
       /\ Forall (fun ps => (StrainGST.min_score cfg
                             <= Strain.score (snd ps))%Q) added)
    /\ NoDup (map (fun ps => Strain.strain (snd ps))
                  (StrainGSTResult.strains result')).
Proof.
  intros Htop.
  induction n as [|n IH];
    intros i pan sample e result pan' sample' result' H Hnd Hspent;
    simpl in H.
  - injection H as <- <- <-. split; [|done].
    exists []. by rewrite app_nil_r.
  - apply res_bind_Ok in H as ([pan1 scored] & Hall & H).
    destruct (score_all_spent cfg sample e strains pan pan1 scored Hall)
      as (A1 & A2 & A3 & A4 & A5 & _).
    pose proof (sorted_scores_elem_of cfg scored) as Hsorted.
    destruct (StrainGST.sort_by_score _) as [|winner rest] eqn:Esort.
    { injection H as <- <- <-. split; [|done].
      exists []. by rewrite app_nil_r. }
    destruct (Qlt_bool _ _) eqn:Escore.
    { injection H as <- <- <-. split; [|done].
      exists []. by rewrite app_nil_r. }
    apply Qlt_bool_false in Escore.
    apply res_bind_Ok in H as ([pan2 ws] & Hload & H).
    apply res_bind_Ok in H as (s & Hex & H).
    rewrite Htop in H. simpl in H.
    destruct (Hsorted winner) as [Hwin _]; [left|].
    destruct (A1 winner Hwin) as [Hwin_in Hwin_ns].
    destruct (load_strain_effect pan1 pan2 _ ws Hload)
      as (Hc & _ & Hcached & _).
    destruct (A5 _ Hwin_in) as [cached Hcache].
    destruct (Hcached cached Hcache) as [-> ->].
    apply IH in H as [(added & Hadd & Hpos & Hscore) Hnd'].
    + split; [|done]. simpl in Hadd.
      exists ((StrainGST.pos 1 i 0, winner) :: added).
      split; [by rewrite Hadd, <- app_assoc|].
      split; [simpl; by rewrite Hpos|].
      by constructor.
    + simpl. rewrite map_app. simpl. apply NoDup_app.
      split; [done|]. split; [|apply NoDup_singleton].
      intros nm Hnm [->|[]%elem_of_nil]%elem_of_cons.
      apply list_elem_of_fmap in Hnm as (ps & Hps & Hin).
      destruct (Hspent ps Hin) as [_ Hsp]. rewrite <- Hps in Hsp.
      done.
    + simpl. intros ps [Hin|Hin]%elem_of_app.
      * destruct (Hspent ps Hin) as [Hs1 Hs2]. split; [done|].
        destruct (A4 _ Hs2 Hs1) as (s0 & Hs0 & Hnil).
        exists s0. split; [done|]. intros x Hx.
        by apply Hnil, elem_of_nil in Hx.
      * apply list_elem_of_singleton in Hin as ->. simpl.
        split; [done|]. by exists cached.
Qed.

(** The head of [find_close_references] leaves the totals of the
    sample alone, takes k-mers out of it only, and starts with an
    empty list of strains. *)
Lemma find_close_references_head_sample (cfg : StrainGST.t)
    (pan : PanGenome.t) (sample sample0 : Sample.t) (e0 : list Z)
    (result0 : StrainGSTResult.t Strain.t) :
  StrainGST.find_close_references_head cfg pan sample
  = Ok (sample0, e0, result0) ->
  StrainGSTResult.strains result0 = []
  /\ Sample.total_kmers sample0 = Sample.total_kmers sample
  /\ forall x, x ∈ Sample.kmers sample0 ->
       x ∈ Sample.kmers sample /\ x ∈ PanGenome.kmers pan.
Proof.
  unfold StrainGST.find_close_references_head. intros H.
  apply res_bind_Ok in H as (s1 & Hs1 & H).
  apply res_bind_Ok in H as (median & _ & H).
  apply res_bind_Ok in H as (excl & _ & H).
  apply res_bind_Ok in H as (s2 & Hs2 & H).
  repeat (apply res_bind_Ok in H as (? & _ & H)).
  injection H as <- <- <-. split; [done|]. split; [done|].
  intros kmer Hx. unfold Sample.kmers, PanGenome.kmers in *. simpl in *.
  unfold KmerSet.exclude in Hs2.
  apply res_bind_Ok in Hs2 as (? & _ & Hs2). injection Hs2 as <-.
  simpl in Hx. apply list_elem_of_filter in Hx as [_ Hx].
  unfold KmerSet.intersect in Hs1.
  apply res_bind_Ok in Hs1 as (cs & _ & Hs1).
  apply res_bind_Ok in Hs1 as (ks & Hks & Hs1). injection Hs1 as <-.
  simpl in Hx. rewrite np_take_intersect_ix in Hks by done.
  injection Hks as <-. rewrite mask_select_filter in Hx.
  apply list_elem_of_filter in Hx. tauto.
Qed.

(** X14.  A result of [find_close_references] has the three
    pan-genome metrics of the head of the function, at most
    [iterations * top] strains, each one a strain that was asked for
    (the strain names of the pan-genome when [score_strains] is [None]
    or empty) with an evenness of at least [min_evenness].  The search
    leaves the k-mer arrays and the file of the pan-genome alone (only
    the cache changes), and the sample keeps its [total_kmers] and only
    loses k-mers: those left were in the sample and in the
    pan-genome. *)
Theorem find_close_references_result (cfg : StrainGST.t)
    (pan pan' : PanGenome.t) (sample sample' : Sample.t)
    (score_strains : option (list string))
    (result : StrainGSTResult.t Strain.t) :
  StrainGST.find_close_references exp cfg pan sample
                                  score_strains
  = Ok (pan', sample', result) ->
  (exists sample0 e0 result0,
     StrainGST.find_close_references_head cfg pan sample
     = Ok (sample0, e0, result0)
     /\ StrainGSTResult.pan_kmers result = StrainGSTResult.pan_kmers result0
     /\ StrainGSTResult.pan_kcov result = StrainGSTResult.pan_kcov result0
     /\ StrainGSTResult.pan_pct result = StrainGSTResult.pan_pct result0)
  /\ (Datatypes.length (StrainGSTResult.strains result)
      <= StrainGST.iterations cfg * StrainGST.top cfg)%nat
  /\ Forall (fun ps =>
               Strain.strain (snd ps)
                 ∈ StrainGST.scored_strains pan score_strains
               /\ (StrainGST.min_evenness cfg <= Strain.even (snd ps))%Q)
            (StrainGSTResult.strains result)
  /\ PanGenome.base pan' = PanGenome.base pan
  /\ PanGenome.h5 pan' = PanGenome.h5 pan
  /\ Sample.total_kmers sample' = Sample.total_kmers sample
  /\ forall x, x ∈ Sample.kmers sample' ->
       x ∈ Sample.kmers sample /\ x ∈ PanGenome.kmers pan.
Proof.
  unfold StrainGST.find_close_references. intros H.
  apply res_bind_Ok in H as ([[sample0 e0] result0] & Hhead & H).
  destruct (find_close_references_head_sample cfg pan sample sample0 e0
              result0 Hhead) as (Hnil & Htot & Hsub).
  destruct (find_close_references_loop_adds cfg _ _ _ _ _ _ _ _ _ _ H)
    as (R1 & R2 & R3 & (added & Hadd & Hlen & Hall) & R5 & R6 & R7 & R8).
  rewrite Hnil in Hadd. simpl in Hadd. subst added.
  split; [by exists sample0, e0, result0|].
  split; [done|]. split; [done|]. split; [done|]. split; [done|].
  split; [congruence|]. intros x Hx. by apply Hsub, R8.
Qed.

(** X15.  With [top = 1], a result of [find_close_references] lists
    one strain per completed iteration: the positions are "0", "1",
    ... in order, there are at most [iterations] of them, every score
    is at least [min_score], and no strain is listed twice (the
    k-mers of a winner are excluded from all strains, so a winner has
    no k-mer left in the iterations that follow). *)
Theorem find_close_references_top1_distinct (cfg : StrainGST.t)
    (pan pan' : PanGenome.t) (sample sample' : Sample.t)
    (score_strains : option (list string))
    (result : StrainGSTResult.t Strain.t) :
  StrainGST.top cfg = 1%nat ->
  StrainGST.find_close_references exp cfg pan sample
                                  score_strains
  = Ok (pan', sample', result) ->
  map fst (StrainGSTResult.strains result)
  = map (fun j : nat => pretty j)
        (seq 0 (Datatypes.length (StrainGSTResult.strains result)))
  /\ (Datatypes.length (StrainGSTResult.strains result)
      <= StrainGST.iterations cfg)%nat
  /\ Forall (fun ps => (StrainGST.min_score cfg <= Strain.score (snd ps))%Q)
            (StrainGSTResult.strains result)
  /\ NoDup (map (fun ps => Strain.strain (snd ps))
                (StrainGSTResult.strains result)).
Proof.
  intros Htop. unfold StrainGST.find_close_references. intros H.
  apply res_bind_Ok in H as ([[sample0 e0] result0] & Hhead & H).
  destruct (find_close_references_head_sample cfg pan sample sample0 e0
              result0 Hhead) as (Hnil & _).
  destruct (find_close_references_loop_adds cfg _ _ _ _ _ _ _ _ _ _ H)
    as (_ & _ & _ & (added0 & Hadd0 & Hlen & _) & _).
  destruct (find_close_references_loop_top1 cfg _ Htop _ _ _ _ _ _ _ _ _ H)
    as [(added & Hadd & Hpos & Hscore) Hnd].
  - rewrite Hnil. constructor.
  - rewrite Hnil. by intros ps Hin%elem_of_nil.
  - rewrite Hnil in Hadd, Hadd0. simpl in Hadd, Hadd0.
    assert (added0 = added) as -> by congruence.
    rewrite Hadd in Hnd |- *.
    split; [done|]. split; [lia|]. done.
Qed.

End SearchLoop.

Lemma find_close_references_result_witness :
  exists pan' sample' result,
    StrainGST.find_close_references Samples.exp_rational Samples.cfg Samples.pan3 Samples.sample3 None
    = Ok (pan', sample', result)
    /\ (exists sample0 e0 result0,
          StrainGST.find_close_references_head Samples.cfg Samples.pan3
                                               Samples.sample3
          = Ok (sample0, e0, result0)
          /\ StrainGSTResult.pan_kmers result
             = StrainGSTResult.pan_kmers result0
          /\ StrainGSTResult.pan_kcov result
             = StrainGSTResult.pan_kcov result0
          /\ StrainGSTResult.pan_pct result
             = StrainGSTResult.pan_pct result0)
    /\ (Datatypes.length (StrainGSTResult.strains result)
        <= StrainGST.iterations Samples.cfg * StrainGST.top Samples.cfg)%nat
    /\ Forall (fun ps =>
                 Strain.strain (snd ps)
                   ∈ StrainGST.scored_strains Samples.pan3 None
                 /\ (StrainGST.min_evenness Samples.cfg
                     <= Strain.even (snd ps))%Q)
              (StrainGSTResult.strains result)
    /\ PanGenome.base pan' = PanGenome.base Samples.pan3
    /\ PanGenome.h5 pan' = PanGenome.h5 Samples.pan3
    /\ Sample.total_kmers sample' = Sample.total_kmers Samples.sample3
    /\ forall x, x ∈ Sample.kmers sample' ->
         x ∈ Sample.kmers Samples.sample3
         /\ x ∈ PanGenome.kmers Samples.pan3.
Proof.
  eexists _, _, _. split; [vm_compute; reflexivity|].
  eapply (find_close_references_result Samples.exp_rational Samples.cfg Samples.pan3 _ Samples.sample3 _ None).
  vm_compute. reflexivity.
Defined.

Lemma find_close_references_top1_distinct_witness :
  StrainGST.top Samples.cfg = 1%nat
  /\ exists pan' sample' result,
       StrainGST.find_close_references Samples.exp_rational Samples.cfg Samples.pan3 Samples.sample3 None
       = Ok (pan', sample', result)
       /\ map fst (StrainGSTResult.strains result)
          = map (fun j : nat => pretty j)
                (seq 0 (Datatypes.length (StrainGSTResult.strains result)))
       /\ (Datatypes.length (StrainGSTResult.strains result)
           <= StrainGST.iterations Samples.cfg)%nat
       /\ Forall (fun ps => (StrainGST.min_score Samples.cfg
                             <= Strain.score (snd ps))%Q)
                 (StrainGSTResult.strains result)
       /\ NoDup (map (fun ps => Strain.strain (snd ps))
                     (StrainGSTResult.strains result)).
Proof.
  split; [reflexivity|].
  eexists _, _, _. split; [vm_compute; reflexivity|].
  eapply (find_close_references_top1_distinct Samples.exp_rational
           Samples.cfg Samples.pan3 _ Samples.sample3 _ None);
    [reflexivity|vm_compute; reflexivity].
Defined.

(* ===================================================================== *)
(** * Further properties: the search loop never raises                   *)
(* ===================================================================== *)

Section SearchReturns.

Variable exp : Q -> Q.
Hypothesis exp_neg_lt_1 : forall x : Q, (0 < x)%Q -> (exp (- x) < 1)%Q.

(** Loading a strain within the data model. *)
Lemma load_strain_in_model (pan : PanGenome.t) (strains : list string)
    (name : string) :
  StrainGST.data_model pan strains ->
  name ∈ strains ->
  exists pan1 s,
    StrainGST.load_strain pan name = Ok (pan1, s)
    /\ StrainGST.strain_in_model pan (StrainKmerSet.base s)
    /\ StrainGST.data_model pan1 strains.
Proof.
  intros Hmodel Hin. pose proof Hmodel as (Hbase & Hav & Hh5 & Hcache).
  unfold StrainGST.load_strain.
  destruct (PanGenome.strainCache pan !! name) as [cached|] eqn:E.
  - exists pan, cached. split; [done|]. split; [|done].
    exact (Hcache name cached E).
  - destruct (Hav name Hin) as [Hg|[? ?]]; [|congruence].
    destruct (Hh5 name Hg) as (s & Hs & Hok).
    rewrite Hs. cbn [res_bind]. eexists _, _. split; [reflexivity|].
    split; [exact Hok|].
    split; [done|]. split; [|split].
    + intros n Hn. simpl. destruct (Hav n Hn) as [H|H]; [by left|].
      right. destruct (decide (n = name)) as [->|Hne].
      * rewrite lookup_insert_eq. by eexists.
      * by rewrite lookup_insert_ne.
    + done.
    + intros n s0. simpl. destruct (decide (n = name)) as [->|Hne].
      * rewrite lookup_insert_eq. by intros [= <-].
      * rewrite lookup_insert_ne by done. apply Hcache.
Qed.

(** One call of [score_strain] within the data model. *)
Lemma score_strain_in_model (cfg : StrainGST.t) (pan : PanGenome.t)
    (strains : list string) (name : string) (sample : Sample.t)
    (e : list Z) :
  StrainGST.data_model pan strains ->
  KmerSet.inv (Sample.base sample) ->
  name ∈ strains ->
  exists pan' r,
    StrainGST.score_strain exp cfg pan name sample
                           (Some e) = Ok (pan', r)
    /\ StrainGST.data_model pan' strains.
Proof.
  intros Hmodel Hsa Hin.
  destruct (load_strain_in_model pan strains name Hmodel Hin)
    as (pan1 & s & Hload & [Hinv Hsub] & Hmodel1).
  pose proof Hmodel as (Hbase & _).
  destruct (score_strain_spec exp exp_neg_lt_1 cfg pan
              pan1 name s sample (Some e) Hload Hinv Hsa Hbase Hsub)
    as (s' & r & Hr & Hk & Hinv' & _).
  eexists _, r. split; [exact Hr|].
  destruct Hmodel1 as (Hbase1 & Hav1 & Hh51 & Hcache1).
  assert (PanGenome.base pan1 = PanGenome.base pan) as Hb
    by (by eapply load_strain_base).
  split; [done|]. split; [|split].
  - intros n Hn. simpl. destruct (Hav1 n Hn) as [H|H]; [by left|].
    right. destruct (decide (n = name)) as [->|Hne].
    + rewrite lookup_insert_eq. by eexists.
    + by rewrite lookup_insert_ne.
  - done.
  - intros n s0. simpl. destruct (decide (n = name)) as [->|Hne].
    + rewrite lookup_insert_eq. intros [= <-]. split; [done|].
      intros x Hx. unfold PanGenome.kmers. simpl. rewrite Hb.
      apply Hsub. unfold StrainKmerSet.kmers in Hk. rewrite Hk in Hx.
      simpl in Hx. by apply list_elem_of_filter in Hx as [_ Hx].
    + rewrite lookup_insert_ne by done. apply Hcache1.
Qed.

Lemma score_all_in_model (cfg : StrainGST.t) (strains : list string)
    (sample : Sample.t) (e : list Z) :
  KmerSet.inv (Sample.base sample) ->
  forall (some : list string) (pan : PanGenome.t),
    StrainGST.data_model pan strains ->
    (forall n, n ∈ some -> n ∈ strains) ->
    exists pan' scored,
      StrainGST.score_all exp cfg pan some sample e
      = Ok (pan', scored)
      /\ StrainGST.data_model pan' strains.
Proof.
  intros Hsa. induction some as [|name rest IH]; intros pan Hmodel Hsub;
    simpl.
  - by exists pan, [].
  - destruct (score_strain_in_model cfg pan strains name sample e Hmodel Hsa)
      as (pan1 & r & -> & Hmodel1); [apply Hsub; left|].
    cbn [res_bind].
    destruct (IH pan1 Hmodel1) as (pan2 & ss & -> & Hmodel2).
    { intros n Hn. apply Hsub. by right. }
    cbn [res_bind]. by eexists _, _.
Qed.

(** The loop within the data model. *)
Lemma find_close_references_loop_returns (cfg : StrainGST.t)
    (strains : list string) :
  forall (n i : nat) (pan : PanGenome.t) (sample : Sample.t) (e : list Z)
         (result : StrainGSTResult.t Strain.t),
    StrainGST.data_model pan strains ->
    KmerSet.inv (Sample.base sample) ->
    exists pan' sample' result',
      StrainGST.find_close_references_loop exp cfg
        strains n i pan sample e result = Ok (pan', sample', result')
      /\ StrainGST.data_model pan' strains
      /\ KmerSet.inv (Sample.base sample').
Proof.
  induction n as [|n IH]; intros i pan sample e result Hmodel Hsa; simpl.
  - by exists pan, sample, result.
  - destruct (score_all_in_model cfg strains sample e Hsa strains pan Hmodel)
      as (pan1 & scored & Hall & Hmodel1); [done|].
    rewrite Hall. cbn [res_bind].
    destruct (score_all_spent exp cfg sample e strains
                pan pan1 scored Hall) as (A1 & _).
    pose proof (sorted_scores_elem_of cfg scored) as Hsorted.
    destruct (StrainGST.sort_by_score _) as [|winner rest];
      [by exists pan1, sample, result|].
    destruct (Qlt_bool _ _); [by exists pan1, sample, result|].
    destruct (Hsorted winner) as [Hwin _]; [left|].
    destruct (A1 winner Hwin) as [Hwin_in _].
    destruct (load_strain_in_model pan1 strains _ Hmodel1 Hwin_in)
      as (pan2 & ws & -> & _ & Hmodel2).
    cbn [res_bind].
    rewrite exclude_eq by apply Hsa. cbn [res_bind].
    apply IH; [done|]. simpl. by apply inv_mask_select.
Qed.

(** X16.  Within the data model, once the head of
    [find_close_references] has produced the metrics, the search loop
    raises nothing: the function returns a result, and the pan-genome
    and the sample it leaves are within the data model again. *)
Theorem find_close_references_returns (cfg : StrainGST.t)
    (pan : PanGenome.t) (sample sample0 : Sample.t)
    (score_strains : option (list string)) (e0 : list Z)
    (result0 : StrainGSTResult.t Strain.t) :
  StrainGST.data_model pan
    (StrainGST.scored_strains pan score_strains) ->
  KmerSet.inv (Sample.base sample) ->
  StrainGST.find_close_references_head cfg pan sample
  = Ok (sample0, e0, result0) ->
  exists pan' sample' result,
    StrainGST.find_close_references exp cfg pan sample
                                    score_strains
    = Ok (pan', sample', result)
    /\ StrainGST.data_model pan'
         (StrainGST.scored_strains pan score_strains)
    /\ KmerSet.inv (Sample.base sample').
Proof.
  intros Hmodel Hsa Hhead. unfold StrainGST.find_close_references.
  rewrite Hhead. cbn [res_bind]. apply find_close_references_loop_returns;
    [done|].
  unfold StrainGST.find_close_references_head in Hhead.
  rewrite intersect_eq in Hhead by apply Hsa. cbn [res_bind] in Hhead.
  apply res_bind_Ok in Hhead as (median & _ & Hhead).
  apply res_bind_Ok in Hhead as (excl & _ & Hhead).
  apply res_bind_Ok in Hhead as (s2 & Hs2 & Hhead).
  repeat (apply res_bind_Ok in Hhead as (? & _ & Hhead)).
  injection Hhead as <- <- <-. simpl in *.
  pose proof (inv_mask_select _
                (map (fun x => bool_decide (x ∈ PanGenome.kmers pan))
                     (KmerSet.kmers (Sample.base sample))) Hsa) as Hinv1.
  rewrite exclude_eq in Hs2 by apply Hinv1. injection Hs2 as <-.
  by apply inv_mask_select.
Qed.

End SearchReturns.

Lemma pan3_data_model :
  StrainGST.data_model Samples.pan3
    (StrainGST.scored_strains Samples.pan3 None).
Proof.
  split; [exact pan3_inv|]. split; [|split].
  - intros name Hin. left. simpl in Hin.
    apply elem_of_cons in Hin as [->|Hin]; [by eexists|].
    apply elem_of_cons in Hin as [->|Hin]; [by eexists|].
    by apply elem_of_nil in Hin.
  - intros name [group Hg]. simpl in Hg.
    apply lookup_insert_Some in Hg as [[<- _]|[_ Hg]].
    + eexists. split; [vm_compute; reflexivity|].
      split; [repeat split; simpl; repeat constructor; lia|].
      intros x. unfold PanGenome.kmers. simpl. rewrite !elem_of_cons. tauto.
    + apply lookup_singleton_Some in Hg as [<- _].
      eexists. split; [vm_compute; reflexivity|].
      split; [repeat split; simpl; repeat constructor; lia|].
      intros x. unfold PanGenome.kmers. simpl. rewrite !elem_of_cons. tauto.
  - intros name s Hs. simpl in Hs. by rewrite lookup_empty in Hs.
Qed.

Lemma find_close_references_returns_witness :
  (forall x : Q, (0 < x)%Q -> (Samples.exp_rational (- x) < 1)%Q)
  /\ StrainGST.data_model Samples.pan3
       (StrainGST.scored_strains Samples.pan3 None)
  /\ KmerSet.inv (Sample.base Samples.sample3)
  /\ exists sample0 e0 result0,
       StrainGST.find_close_references_head Samples.cfg Samples.pan3
                                            Samples.sample3
       = Ok (sample0, e0, result0)
       /\ exists pan' sample' result,
            StrainGST.find_close_references Samples.exp_rational
              Samples.cfg Samples.pan3 Samples.sample3 None
            = Ok (pan', sample', result)
            /\ StrainGST.data_model pan'
                 (StrainGST.scored_strains Samples.pan3 None)
            /\ KmerSet.inv (Sample.base sample').
Proof.
  split; [exact exp_rational_neg|]. split; [exact pan3_data_model|].
  split; [exact sample3_inv|].
  eexists _, _, _. split; [vm_compute; reflexivity|].
  eapply (find_close_references_returns Samples.exp_rational exp_rational_neg Samples.cfg Samples.pan3 Samples.sample3 _ None);
    [exact pan3_data_model | exact sample3_inv | vm_compute; reflexivity].
Defined.

(* ===================================================================== *)
(** * Further properties: alleles and their names                        *)
(* ===================================================================== *)

Section AlleleNames.

Import Allele.

(** Iteration yields single alleles only, and a single allele yields
    itself. *)
Lemma iter_elem_of (self allele : t) :
  allele ∈ iter self ->
  allele ∈ ALLELE_MASKS /\ Z.land self allele <> 0.
Proof.
  unfold iter. intros Hin.
  apply list_elem_of_In, List.filter_In in Hin as [Hin Hland].
  apply negb_true_iff, Z.eqb_neq in Hland. split; [|done].
  apply list_elem_of_In in Hin. simpl in Hin.
  apply elem_of_cons in Hin as [->|Hin]; [|done].
  by rewrite Z.land_0_r in Hland.
Qed.

Lemma str_fuel_member (fuel : nat) (allele : t) :
  allele ∈ ALLELE_MASKS ->
  exists s, str_fuel (S fuel) allele = Some (Ok s)
            /\ name_of_member members allele = Some s.
Proof.
  intros Hin. unfold ALLELE_MASKS in Hin.
  repeat (apply elem_of_cons in Hin as [->|Hin];
          [eexists; split; reflexivity|]).
  by apply elem_of_nil in Hin.
Qed.

Lemma str_fuel_members (fuel : nat) (alleles : list t) :
  Forall (fun a => a ∈ ALLELE_MASKS) alleles ->
  exists strs : list string,
    mapM (str_fuel (S fuel)) alleles = Some (Ok <$> strs)
    /\ mapM (name_of_member members) alleles = Some strs.
Proof.
  induction 1 as [|a l Ha Hl (strs & IH1 & IH2)].
  - by exists [].
  - destruct (str_fuel_member fuel a Ha) as (s & Hs & Hn).
    exists (s :: strs). split.
    + change (mapM (str_fuel (S fuel)) (a :: l))
        with (x ← str_fuel (S fuel) a;
              k ← mapM (str_fuel (S fuel)) l; mret (x :: k)).
      by rewrite Hs, IH1.
    + change (mapM (name_of_member members) (a :: l))
        with (x ← name_of_member members a;
              k ← mapM (name_of_member members) l; mret (x :: k)).
      by rewrite Hn, IH2.
Qed.

Lemma join_strs_Ok (strs : list string) : join_strs (Ok <$> strs) = Ok strs.
Proof.
  induction strs as [|s l IH]; [done|].
  rewrite fmap_cons. cbn [join_strs]. by rewrite IH.
Qed.

(** The names of the alleles of a value, joined by commas. *)
Lemma str_fuel_names (fuel : nat) (self : t) :
  exists strs : list string,
    mapM (name_of_member members) (iter self) = Some strs
    /\ str_fuel (S (S fuel)) self = Some (Ok (String.concat "," strs)).
Proof.
  assert (Forall (fun a => a ∈ ALLELE_MASKS) (iter self)) as Hall.
  { apply Forall_forall. intros a Ha. by destruct (iter_elem_of self a Ha). }
  destruct (str_fuel_members fuel (iter self) Hall) as (strs & H1 & H2).
  exists strs. split; [done|].
  change (str_fuel (S (S fuel)) self)
    with (match iter self with
          | [allele] => Some (allele_to_str allele)
          | alleles =>
              match mapM (str_fuel (S fuel)) alleles with
              | Some strs =>
                  Some (res_map (String.concat ",") (join_strs strs))
              | None => None
              end
          end).
  destruct (iter self) as [|a [|b l]] eqn:E.
  - rewrite H1. simpl in H2. injection H2 as <-. done.
  - apply Forall_cons in Hall as [Ha _].
    destruct (str_fuel_member 0 a Ha) as (s & _ & Hn).
    unfold allele_to_str. rewrite Hn. simpl.
    change (mapM (name_of_member members) [a])
      with (x ← name_of_member members a; mret [x]) in H2.
    rewrite Hn in H2. simpl in H2. injection H2 as <-. simpl. done.
  - rewrite H1, join_strs_Ok. done.
Qed.

Lemma bool_decide_eq_iff (P Q : Prop) `{Decision P, Decision Q} :
  bool_decide P = bool_decide Q -> (P <-> Q).
Proof.
  intros Heq. split; intros HP.
  - apply (bool_decide_eq_true_1 Q). rewrite <- Heq.
    by apply bool_decide_eq_true_2.
  - apply (bool_decide_eq_true_1 P). rewrite Heq.
    by apply bool_decide_eq_true_2.
Qed.

(** The round trip of the values below 64, by enumeration. *)
Lemma str_round_trip_all :
  forallb
    (fun self =>
       match str_fuel 2 self with
       | Some (Ok s) =>
           Bool.eqb (bool_decide (from_str s = self))
                    (bool_decide (self = N \/ self ∈ ALLELE_MASKS))
           && Bool.eqb (bool_decide (s = ""%string))
                       (bool_decide (iter self = []))
       | _ => false
       end)
    (seqZ 0 64) = true.
Proof. vm_compute. reflexivity. Qed.

Lemma from_str_cases (base : string) :
  (base ∈ ["A"; "C"; "G"; "T"; "INS"; "DEL"]%string
   /\ from_str base ∈ ALLELE_MASKS
   /\ name_of_member members (from_str base) = Some base)
  \/ ((base ∉ ["A"; "C"; "G"; "T"; "INS"; "DEL"]%string)
      /\ from_str base = N).
Proof.
  unfold from_str, members, ALLELE_MASKS. cbn [member_of_name].
  destruct (String.eqb_spec "N" base) as [<-|H0].
  { right. split; [|done]. rewrite !elem_of_cons, elem_of_nil.
    intuition discriminate. }
  destruct (String.eqb_spec "A" base) as [<-|H1];
    [left; split; [|split]; [by repeat constructor..|done]|].
  destruct (String.eqb_spec "C" base) as [<-|H2];
    [left; split; [|split]; [by repeat constructor..|done]|].
  destruct (String.eqb_spec "G" base) as [<-|H3];
    [left; split; [|split]; [by repeat constructor..|done]|].
  destruct (String.eqb_spec "T" base) as [<-|H4];
    [left; split; [|split]; [by repeat constructor..|done]|].
  destruct (String.eqb_spec "INS" base) as [<-|H5];
    [left; split; [|split]; [by repeat constructor..|done]|].
  destruct (String.eqb_spec "DEL" base) as [<-|H6];
    [left; split; [|split]; [by repeat constructor..|done]|].
  right. split; [|done].
  rewrite !elem_of_cons, elem_of_nil. intuition congruence.
Qed.

(** X17.  [str] of an allele value never raises and needs no more than
    two nested calls: it is the names of the alleles of the value,
    joined by commas, so the empty string for [Allele.N].  For a value
    below 64, [from_str(str(self))] gives the value back exactly when
    it is [N] or a single allele.  And [from_str] always returns [N]
    or a single allele; [str(from_str(base))] is [base] again exactly
    for the six allele names and the empty string, not for ["N"],
    which prints as the empty string. *)
Theorem Allele_str_from_str (self : t) (base : string) (fuel : nat) :
  0 <= self < 64 ->
  (exists strs : list string,
     mapM (name_of_member members) (iter self) = Some strs
     /\ str_fuel (S (S fuel)) self = Some (Ok (String.concat "," strs))
     /\ (String.concat "," strs = ""%string <-> iter self = [])
     /\ (from_str (String.concat "," strs) = self
         <-> self = N \/ self ∈ ALLELE_MASKS))
  /\ (exists s : string,
        str_fuel (S (S fuel)) (from_str base) = Some (Ok s)
        /\ (from_str base = N \/ from_str base ∈ ALLELE_MASKS)
        /\ (s = base
            <-> base ∈ [""; "A"; "C"; "G"; "T"; "INS"; "DEL"]%string)).
Proof.
  intros Hrange. split.
  - destruct (str_fuel_names fuel self) as (strs & Hn & Hs).
    destruct (str_fuel_names 0 self) as (strs0 & Hn0 & Hs0).
    assert (strs0 = strs) as -> by congruence.
    exists strs. split; [done|]. split; [done|].
    pose proof str_round_trip_all as Hall.
    rewrite forallb_forall in Hall.
    specialize (Hall self). cbv beta in Hall. rewrite Hs0 in Hall.
    apply andb_true_iff in Hall as [H1 H2];
      [|apply list_elem_of_In, elem_of_seqZ; lia].
    apply Bool.eqb_prop in H1, H2.
    split; [exact (bool_decide_eq_iff _ _ H2)|exact (bool_decide_eq_iff _ _ H1)].
  - destruct (from_str_cases base) as [(Hin & Hmask & Hname)|[Hnot HN]].
    + destruct (str_fuel_member (S fuel) (from_str base) Hmask)
        as (s & Hs & Hn).
      exists s. split; [done|]. split; [by right|].
      assert (s = base) as -> by congruence.
      split; [intros _; by right|done].
    + rewrite HN. exists ""%string. split; [done|]. split; [by left|].
      split; [intros <-; left|].
      intros [->|Hin]%elem_of_cons; [done|]. by destruct Hnot.
Qed.

End AlleleNames.

Lemma Allele_str_from_str_witness :
  0 <= 9 < 64
  /\ (exists strs : list string,
        mapM (Allele.name_of_member Allele.members) (Allele.iter 9)
        = Some strs
        /\ Allele.str_fuel 2 9 = Some (Ok (String.concat "," strs))
        /\ (String.concat "," strs = ""%string <-> Allele.iter 9 = [])
        /\ (Allele.from_str (String.concat "," strs) = 9
            <-> 9 = Allele.N \/ 9 ∈ Allele.ALLELE_MASKS))
  /\ (exists s : string,
        Allele.str_fuel 2 (Allele.from_str "INS") = Some (Ok s)
        /\ (Allele.from_str "INS" = Allele.N
            \/ Allele.from_str "INS" ∈ Allele.ALLELE_MASKS)
        /\ (s = "INS"%string
            <-> "INS"%string ∈ [""; "A"; "C"; "G"; "T"; "INS"; "DEL"]%string)).
Proof.
  split; [lia|]. apply (Allele_str_from_str 9 "INS" 0). lia.
Defined.

(** [str] of [A|T], of [N] and of an allele read from a name. *)
Example Allele_str_samples :
  Allele.str_fuel 2 9 = Some (Ok "A,T"%string)
  /\ Allele.str_fuel 2 Allele.N = Some (Ok ""%string)
  /\ Allele.str_fuel 2 (Allele.from_str "DEL") = Some (Ok "DEL"%string)
  /\ Allele.from_str "A,T" = Allele.N.
Proof. repeat split. Qed.

(* ===================================================================== *)
(** * Further properties: transitions and transversions                  *)
(* ===================================================================== *)

Lemma transition_pairs_swap (x y : Allele.t) :
  (x, y) ∈ transition_pairs <-> (y, x) ∈ transition_pairs.
Proof.
  unfold transition_pairs. rewrite !elem_of_cons, !elem_of_nil.
  split; intros H; repeat destruct H as [H|H]; try done;
    injection H as -> ->; tauto.
Qed.

Lemma rc_values (x : Allele.t) :
  (Allele.rc x = 1 <-> x = 8) /\ (Allele.rc x = 8 <-> x = 1)
  /\ (Allele.rc x = 2 <-> x = 4) /\ (Allele.rc x = 4 <-> x = 2).
Proof.
  unfold Allele.rc, Allele.A, Allele.C, Allele.G, Allele.T.
  destruct (Z.eqb_spec x 1); [lia|]. destruct (Z.eqb_spec x 2); [lia|].
  destruct (Z.eqb_spec x 4); [lia|]. destruct (Z.eqb_spec x 8); lia.
Qed.

Lemma transition_pairs_rc (x y : Allele.t) :
  (Allele.rc x, Allele.rc y) ∈ transition_pairs
  <-> (x, y) ∈ transition_pairs.
Proof.
  unfold transition_pairs, Allele.A, Allele.C, Allele.G, Allele.T.
  rewrite !elem_of_cons, !elem_of_nil, !pair_equal_spec.
  destruct (rc_values x) as (X1 & X8 & X2 & X4).
  destruct (rc_values y) as (Y1 & Y8 & Y2 & Y4).
  rewrite X1, X8, X2, X4, Y1, Y8, Y2, Y4. tauto.
Qed.

Lemma transition_pairs_diagonal (x : Allele.t) : (x, x) ∉ transition_pairs.
Proof.
  unfold transition_pairs. rewrite !elem_of_cons, !elem_of_nil.
  intros H; repeat destruct H as [H|H]; try done; injection H as ? ?;
    subst; done.
Qed.

Lemma count_ts_tv_loop_total (pairs : list (Allele.t * Allele.t)) :
  forall ts tv,
    let r := count_ts_tv_loop ts tv pairs in
    ts <= fst r /\ tv <= snd r
    /\ fst r + snd r = ts + tv + Zlen pairs.
Proof.
  unfold Zlen. induction pairs as [|p rest IH]; intros ts tv; simpl.
  - lia.
  - destruct (bool_decide _).
    + specialize (IH (ts + 1) tv). simpl in IH. lia.
    + specialize (IH ts (tv + 1)). simpl in IH. lia.
Qed.

Lemma count_ts_tv_loop_map (f g : Allele.t -> Allele.t)
    (Hfg : forall x y, (f x, g y) ∈ transition_pairs
                       <-> (x, y) ∈ transition_pairs)
    (a b : list Allele.t) :
  forall ts tv,
    count_ts_tv_loop ts tv (zip_py (map f a) (map g b))
    = count_ts_tv_loop ts tv (zip_py a b).
Proof.
  revert b. induction a as [|x a IH]; intros [|y b] ts tv; simpl; try done.
  rewrite (bool_decide_ext _ _ (Hfg x y)).
  destruct (bool_decide _); apply IH.
Qed.

Lemma count_ts_tv_loop_swap (a b : list Allele.t) :
  forall ts tv,
    count_ts_tv_loop ts tv (zip_py b a) = count_ts_tv_loop ts tv (zip_py a b).
Proof.
  revert b. induction a as [|x a IH]; intros [|y b] ts tv; simpl; try done.
  rewrite (bool_decide_ext _ _ (transition_pairs_swap y x)).
  destruct (bool_decide _); apply IH.
Qed.

Lemma count_ts_tv_loop_diagonal (a : list Allele.t) :
  forall ts tv,
    count_ts_tv_loop ts tv (zip_py a a) = (ts, tv + Zlen a).
Proof.
  unfold Zlen. induction a as [|x a IH]; intros ts tv; simpl.
  - f_equal. lia.
  - rewrite bool_decide_false by apply transition_pairs_diagonal.
    rewrite IH. f_equal. lia.
Qed.

Lemma zip_py_length {A B} (a : list A) (b : list B) :
  Datatypes.length a = Datatypes.length b ->
  Datatypes.length (zip_py a b) = Datatypes.length a.
Proof.
  revert b. induction a as [|x a IH]; intros [|y b] H; simpl in *; try done.
  f_equal. apply IH. lia.
Qed.

(** X18.  [count_ts_tv] fails its assertion exactly when the two
    arrays differ in length, and raises nothing else.  Otherwise every
    position is counted once, as a transition or as a transversion;
    the counts do not depend on the order of the two arrays, nor on
    the strand (taking the reverse complement of every allele of both
    arrays leaves them unchanged).  A position where both arrays hold
    the same allele counts as a transversion. *)
Theorem count_ts_tv_counts_every_position (array1 array2 : list Allele.t) :
  match count_ts_tv array1 array2 with
  | Returns (transitions, transversions) =>
      Datatypes.length array1 = Datatypes.length array2
      /\ 0 <= transitions /\ 0 <= transversions
      /\ transitions + transversions = Zlen array1
      /\ count_ts_tv array2 array1 = Returns (transitions, transversions)
      /\ count_ts_tv (map Allele.rc array1) (map Allele.rc array2)
         = Returns (transitions, transversions)
  | Raises _ => False
  | AssertionError =>
      Datatypes.length array1 <> Datatypes.length array2
  end
  /\ count_ts_tv array1 array1 = Returns (0, Zlen array1).
Proof.
  unfold count_ts_tv. rewrite !length_map, Nat.eqb_refl. split.
  - destruct (Nat.eqb_spec (Datatypes.length array1)
                           (Datatypes.length array2)) as [Hlen|Hlen];
      [|done].
    pose proof (count_ts_tv_loop_total (zip_py array1 array2) 0 0) as Htot.
    simpl in Htot. unfold Zlen in *. rewrite zip_py_length in Htot by done.
    destruct (count_ts_tv_loop 0 0 (zip_py array1 array2)) as [ts tv] eqn:E.
    simpl in Htot. split; [done|]. split; [lia|]. split; [lia|].
    split; [lia|]. split.
    + rewrite <- Hlen, Nat.eqb_refl. by rewrite count_ts_tv_loop_swap, E.
    + by rewrite (count_ts_tv_loop_map _ _ transition_pairs_rc), E.
  - by rewrite count_ts_tv_loop_diagonal.
Qed.

(* ===================================================================== *)
(** * Further properties: from a genome coordinate to a scaffold         *)
(* ===================================================================== *)

Lemma dict_get_key {V} (d : list (string * V)) (name : string) (v : V) :
  dict_get d name = Some v -> name ∈ map fst d.
Proof.
  induction d as [|[k w] d IH]; simpl; [done|].
  destruct (String.eqb_spec k name) as [->|Hne]; [intros _; left|].
  intros H. right. by apply IH.
Qed.

Lemma seq_len_nonneg (s : SeqRecord) : 0 <= seq_len s.
Proof. unfold seq_len. lia. Qed.

Lemma scaffold_coord_loop_spec (coord : Z) (d : list (string * SeqRecord)) :
  NoDup (map fst d) ->
  Forall (fun kv : string * SeqRecord => metadata_id (snd kv) = fst kv) d ->
  forall offset,
    match scaffold_coord_loop coord offset
            (map (fun kv => (snd kv, seq_len (snd kv))) d) with
    | Some (name, local) =>
        coord < offset + np_sum (map (fun kv => seq_len (snd kv)) d)
        /\ local <= coord - offset + 1
        /\ (offset <= coord -> 1 <= local)
        /\ exists v,
             dict_get d name = Some v
             /\ local <= seq_len v
             /\ offset + prior_length name d + local - 1 = coord
    | None =>
        d = []
        \/ offset + np_sum (map (fun kv => seq_len (snd kv)) d) <= coord
    end.
Proof.
  induction d as [|[k w] d IH]; intros Hnd Hid offset; simpl; [by left|].
  apply NoDup_cons in Hnd as [Hk Hnd].
  apply Forall_cons in Hid as [Hkw Hid]. simpl in Hkw.
  pose proof (seq_len_nonneg w) as Hw.
  assert (0 <= np_sum (map (fun kv => seq_len (snd kv)) d)) as Hsum.
  { apply np_sum_nonneg, Forall_forall. intros x Hx.
    apply list_elem_of_fmap in Hx as (kv & -> & _). apply seq_len_nonneg. }
  destruct (Z.ltb_spec coord (offset + seq_len w)) as [Hlt|Hge].
  - split; [lia|]. split; [lia|]. split; [lia|].
    exists w. rewrite Hkw, String.eqb_refl. split; [done|]. lia.
  - specialize (IH Hnd Hid (offset + seq_len w)).
    destruct (scaffold_coord_loop _ _ _) as [[name local]|].
    + destruct IH as (H1 & H2 & H3 & v & Hget & Hloc & Hco).
      split; [lia|]. split; [lia|]. split; [lia|].
      exists v. destruct (String.eqb_spec k name) as [->|Hne].
      * exfalso. apply Hk. by eapply dict_get_key.
      * split; [done|]. lia.
    + right. destruct IH as [->|IH]; simpl; lia.
Qed.

(** X19.  On a well-formed reference, [scaffold_coord] returns nothing
    exactly for a coordinate at or past the total length (or when there
    is no scaffold).  A pair [(name, local)] it returns names a scaffold
    of the reference with the sum of the lengths of the scaffolds
    before it plus [local - 1] equal to the coordinate, and
    [1 <= local <= len(scaffold)] when the coordinate is not negative.
    A negative coordinate is not rejected: it gives the first scaffold
    and the position [coord + 1], which is below 1. *)
Theorem scaffold_coord_decomposes (r : Reference) (coord : Z) :
  ref_wf r ->
  match scaffold_coord r coord with
  | Some (name, local) =>
      coord < np_sum (lengths r)
      /\ (exists v,
            dict_get (scaffolds r) name = Some v
            /\ local <= seq_len v
            /\ prior_length name (scaffolds r) + local - 1 = coord)
      /\ (0 <= coord -> 1 <= local)
      /\ (coord < 0 ->
            local = coord + 1
            /\ exists v rest, scaffolds r = (name, v) :: rest)
  | None => scaffolds r = [] \/ np_sum (lengths r) <= coord
  end.
Proof.
  intros (Hnd & Hid & Hlen).
  pose proof (scaffold_coord_loop_spec coord (scaffolds r) Hnd Hid 0) as H.
  unfold scaffold_coord. rewrite Hlen.
  assert (zip_py (map snd (scaffolds r))
                 (map (fun kv => seq_len (snd kv)) (scaffolds r))
          = map (fun kv => (snd kv, seq_len (snd kv))) (scaffolds r)) as ->.
  { clear. induction (scaffolds r) as [|[k w] d IH]; simpl; [done|].
    by rewrite IH. }
  destruct (scaffold_coord_loop _ _ _) as [[name local]|] eqn:E; [|done].
  destruct H as (H1 & H2 & H3 & v & Hget & Hloc & Hco).
  split; [lia|]. split; [exists v; split; [done|]; lia|].
  split; [intros ?; apply H3; lia|].
  intros Hneg. destruct (scaffolds r) as [|[k w] d]; [done|].
  simpl in E. apply Forall_cons in Hid as [Hkw _]. simpl in Hkw.
  pose proof (seq_len_nonneg w).
  destruct (Z.ltb_spec coord (0 + seq_len w)); [|lia].
  injection E as <- <-. split; [lia|]. rewrite Hkw. by exists w, d.
Qed.

Lemma scaffold_coord_decomposes_witness :
  ref_wf Samples.ref2
  /\ match scaffold_coord Samples.ref2 6 with
     | Some (name, local) =>
         6 < np_sum (lengths Samples.ref2)
         /\ (exists v,
               dict_get (scaffolds Samples.ref2) name = Some v
               /\ local <= seq_len v
               /\ prior_length name (scaffolds Samples.ref2) + local - 1 = 6)
         /\ (0 <= 6 -> 1 <= local)
         /\ (6 < 0 ->
               local = 6 + 1
               /\ exists v rest, scaffolds Samples.ref2 = (name, v) :: rest)
     | None =>
         scaffolds Samples.ref2 = [] \/ np_sum (lengths Samples.ref2) <= 6
     end.
Proof.
  split; [apply Reference_init_wf|].
  apply (scaffold_coord_decomposes Samples.ref2 6). apply Reference_init_wf.
Defined.

(** Coordinates 6, 7 and -2 on scaffolds of five and two bases. *)
Example scaffold_coord_samples :
  scaffold_coord Samples.ref2 6 = Some ("s2"%string, 2)
  /\ scaffold_coord Samples.ref2 7 = None
  /\ scaffold_coord Samples.ref2 (-2) = Some ("s1"%string, -1).
Proof. repeat split. Qed.

(* ===================================================================== *)
(** * Further properties: the scaled minimum gap size                    *)
(* ===================================================================== *)

Lemma py_int_ge (m : Z) (x : Q) :
  0 <= m -> (inject_Z m <= x)%Q -> m <= py_int x.
Proof.
  intros Hm Hx. unfold py_int.
  assert (0 <= x)%Q as Hx0.
  { apply Qle_trans with (inject_Z m); [|done].
    unfold Qle, inject_Z. simpl. lia. }
  apply Qle_bool_iff in Hx0. rewrite Hx0.
  rewrite <- (Qfloor_Z m). by apply Qfloor_resp_le.
Qed.

(** X20.  With an exponential that is never negative,
    [scale_min_gap_size] never lowers a minimum gap size that is not
    negative; and where the Lander-Waterman estimate is not positive
    (the exponential of the negated coverage is at least 1, as for no
    coverage) the size is returned as it is. *)
Theorem scale_min_gap_size_never_lowers (exp : Q -> Q) (min_gap : Z)
    (mean_coverage : Q) :
  (forall x, 0 <= exp x)%Q ->
  0 <= min_gap ->
  min_gap <= scale_min_gap_size exp min_gap mean_coverage
  /\ ((1 <= exp (- mean_coverage))%Q ->
      scale_min_gap_size exp min_gap mean_coverage = min_gap).
Proof.
  intros Hexp Hgap. unfold scale_min_gap_size, lander_waterman.
  pose proof (Hexp (- mean_coverage)%Q) as He.
  destruct (Qlt_bool _ _) eqn:E.
  - apply Qlt_bool_true in E. split; [|intros H1; lra].
    apply py_int_ge; [done|].
    apply Qle_shift_div_l; [done|].
    assert (0 <= inject_Z min_gap)%Q
      by (unfold Qle, inject_Z; simpl; lia).
    nra.
  - split; [lia|done].
Qed.

Lemma exp_rational_nonneg (x : Q) : (0 <= Samples.exp_rational x)%Q.
Proof.
  unfold Samples.exp_rational. destruct (Qle_bool x 0) eqn:E.
  - apply Qle_bool_iff in E. apply Qlt_le_weak, Qdiv_pos; lra.
  - assert (~ (x <= 0)%Q) as Hx.
    { intros H%Qle_bool_iff. congruence. }
    lra.
Qed.

Lemma scale_min_gap_size_never_lowers_witness :
  (forall x, 0 <= Samples.exp_rational x)%Q
  /\ 0 <= 100
  /\ 100 <= scale_min_gap_size Samples.exp_rational 100 (1 # 2)
  /\ ((1 <= Samples.exp_rational (- (1 # 2)))%Q ->
      scale_min_gap_size Samples.exp_rational 100 (1 # 2) = 100).
Proof.
  split; [exact exp_rational_nonneg|]. split; [lia|].
  apply (scale_min_gap_size_never_lowers Samples.exp_rational 100 (1 # 2));
    [exact exp_rational_nonneg|lia].
Defined.

(** A mean coverage of 1/2 under the rational stand-in of [exp]
    triples a minimum gap of 100. *)
Example scale_min_gap_size_sample :
  scale_min_gap_size Samples.exp_rational 100 (1 # 2) = 300
  /\ scale_min_gap_size Samples.exp_rational 100 0 = 100.
Proof. split; reflexivity. Qed.

(* ===================================================================== *)
(** * Further properties: recording reads                                *)
(* ===================================================================== *)

Lemma np_axis_index_in_range (n : nat) (i : Z) :
  0 <= i < Z.of_nat n -> np_axis_index n i = Ok (Z.to_nat i).
Proof.
  intros Hi. unfold np_axis_index.
  destruct (Z.leb_spec 0 i); [|lia].
  destruct (Z.ltb_spec i (Z.of_nat n)); [done|lia].
Qed.

Lemma np_axis_index_from_end (n : nat) (i : Z) :
  - Z.of_nat n <= i < 0 ->
  np_axis_index n i = Ok (Z.to_nat (Z.of_nat n + i)).
Proof.
  intros Hi. unfold np_axis_index.
  destruct (Z.leb_spec 0 i); [lia|]. simpl.
  destruct (Z.leb_spec (- Z.of_nat n) i); [|lia].
  destruct (Z.ltb_spec i 0); [done|lia].
Qed.

Lemma np_axis_index_out (n : nat) (i : Z) :
  i < - Z.of_nat n \/ Z.of_nat n <= i ->
  np_axis_index n i = Raise IndexError.
Proof.
  intros Hi. unfold np_axis_index.
  destruct (Z.leb_spec 0 i), (Z.ltb_spec i (Z.of_nat n)),
    (Z.leb_spec (- Z.of_nat n) i), (Z.ltb_spec i 0); simpl; try done; lia.
Qed.

Lemma ALLELE_INDEX_single (base : Allele.t) :
  base ∈ Allele.ALLELE_MASKS ->
  exists ix : nat,
    ALLELE_INDEX base = Ok ix
    /\ Allele.ALLELE_MASKS !! ix = Some base
    /\ (ix < 6)%nat.
Proof.
  unfold Allele.ALLELE_MASKS. intros Hin.
  repeat (apply elem_of_cons in Hin as [->|Hin];
          [eexists; split; [vm_compute; reflexivity|];
           split; [reflexivity|lia]|]).
  by apply elem_of_nil in Hin.
Qed.

Lemma ALLELE_INDEX_other (base : Allele.t) :
  base ∉ Allele.ALLELE_MASKS -> ALLELE_INDEX base = Raise KeyError.
Proof.
  intros Hnot. unfold ALLELE_INDEX.
  destruct (list_find _ _) as [[i a]|] eqn:E; [|done].
  apply list_find_Some in E as (Hi & -> & _).
  exfalso. apply Hnot. by eapply list_elem_of_lookup_2.
Qed.

Lemma np_sum_alter (f : Z -> Z) (l : list Z) (i : nat) (x : Z) :
  l !! i = Some x -> np_sum (alter f i l) = np_sum l - x + f x.
Proof.
  revert i. induction l as [|y l IH]; intros [|i] H; try done.
  - injection H as ->. simpl. lia.
  - change (np_sum (alter f (S i) (y :: l)))
      with (y + np_sum (alter f i l)).
    rewrite (IH i H). simpl. lia.
Qed.

Lemma dict_get_set {V} (d : list (string * V)) (k k' : string) (v : V) :
  dict_get (dict_set d k v) k'
  = if String.eqb k k' then Some v else dict_get d k'.
Proof.
  induction d as [|[k0 v0] d IH]; simpl.
  - done.
  - destruct (String.eqb_spec k0 k) as [->|Hne]; simpl.
    + by destruct (String.eqb k k').
    + rewrite IH. destruct (String.eqb_spec k0 k') as [->|Hne'];
        [|done].
      destruct (String.eqb_spec k k') as [->|?]; done.
Qed.

Lemma uint32_small (x : Z) : 0 <= x < 2 ^ 32 -> uint32 x = x.
Proof. intros Hx. unfold uint32. by apply Z.mod_small. Qed.

Lemma np_axis_index_alias (n : nat) (i : Z) :
  - Z.of_nat n <= i < 0 ->
  np_axis_index n i = np_axis_index n (Z.of_nat n + i).
Proof.
  intros Hi. rewrite np_axis_index_from_end by done.
  by rewrite np_axis_index_in_range by lia.
Qed.

Lemma alleles_iadd_length (a a' : list (list Z * list Z)) (pos : Z)
    (row : bool) (ix : nat) (v : Z) :
  alleles_iadd a pos row ix v = Ok a' ->
  Datatypes.length a' = Datatypes.length a.
Proof.
  unfold alleles_iadd. intros H.
  destruct (np_axis_index _ _) as [p|]; [|done]. cbn [res_bind] in H.
  destruct (of_option _ _) as [[cnts quals]|]; [|done].
  cbn [res_bind] in H. destruct row.
  - destruct (np_iadd_at quals _ _); [|done]. cbn [res_bind] in H.
    injection H as <-. apply length_insert.
  - destruct (np_iadd_at cnts _ _); [|done]. cbn [res_bind] in H.
    injection H as <-. apply length_insert.
Qed.

Lemma alleles_iadd_alias (a : list (list Z * list Z)) (pos : Z)
    (row : bool) (ix : nat) (v : Z) :
  - Z.of_nat (Datatypes.length a) <= pos < 0 ->
  alleles_iadd a pos row ix v
  = alleles_iadd a (Z.of_nat (Datatypes.length a) + pos) row ix v.
Proof.
  intros Hpos. unfold alleles_iadd.
  by rewrite <- (np_axis_index_alias _ pos) by done.
Qed.

Lemma scaffold_good_read_alias (d : ScaffoldCallData.t) (pos : Z) (ix : nat)
    (bq mq : Z) :
  let n := Z.of_nat (Datatypes.length (ScaffoldCallData.alleles d)) in
  Datatypes.length (ScaffoldCallData.mq_sum d)
  = Datatypes.length (ScaffoldCallData.alleles d) ->
  - n <= pos < 0 ->
  ScaffoldReads.good_read d pos ix bq mq
  = ScaffoldReads.good_read d (n + pos) ix bq mq.
Proof.
  intros n Hmq Hpos. unfold ScaffoldReads.good_read. subst n.
  rewrite (alleles_iadd_alias _ pos) by done.
  destruct (alleles_iadd _ (_ + pos) false ix 1) as [a1|] eqn:E1; [|done].
  cbn [res_bind]. pose proof (alleles_iadd_length _ _ _ _ _ _ E1) as Hlen.
  rewrite (alleles_iadd_alias a1 pos) by (rewrite Hlen; done).
  rewrite Hlen.
  destruct (alleles_iadd a1 _ true ix bq) as [a2|]; [|done].
  cbn [res_bind]. unfold np_iadd_at. rewrite Hmq.
  by rewrite <- (np_axis_index_alias _ pos) by done.
Qed.

Section GoodRead.

Import ScaffoldCallData.

(** [good_read] on one scaffold: the two cells of the allele at the
    position and the cell of [mq_sum] are updated, nothing else. *)
Lemma scaffold_good_read_spec (d : t) (pos : Z) (ix : nat)
    (bq mq : Z) (cnts quals : list Z) (c q : Z) :
  0 <= pos < Z.of_nat (Datatypes.length (alleles d)) ->
  Datatypes.length (mq_sum d) = Datatypes.length (alleles d) ->
  alleles d !! Z.to_nat pos = Some (cnts, quals) ->
  cnts !! ix = Some c -> quals !! ix = Some q ->
  exists d',
    ScaffoldReads.good_read d pos ix bq mq = Ok d'
    /\ alleles d' !! Z.to_nat pos
       = Some (<[ix := uint32 (c + 1)]> cnts, <[ix := uint32 (q + bq)]> quals)
    /\ (forall p, p <> Z.to_nat pos -> alleles d' !! p = alleles d !! p)
    /\ Datatypes.length (alleles d') = Datatypes.length (alleles d)
    /\ length d' = length d /\ lowmq_count d' = lowmq_count d
    /\ high_coverage d' = high_coverage d /\ refmask d' = refmask d
    /\ bad d' = bad d /\ name d' = name d /\ read_count d' = read_count d.
Proof.
  intros Hpos Hmq Hrow Hc Hq.
  pose proof (lookup_lt_Some _ _ _ Hc) as Hixc.
  pose proof (lookup_lt_Some _ _ _ Hq) as Hixq.
  pose proof (lookup_lt_Some _ _ _ Hrow) as Hp.
  assert (forall (l : list Z) (x v : Z),
            l !! ix = Some x ->
            np_iadd_at l (Z.of_nat ix) v = Ok (<[ix := uint32 (x + v)]> l))
    as Hadd.
  { intros l x v Hl. unfold np_iadd_at.
    rewrite np_axis_index_in_range
      by (pose proof (lookup_lt_Some _ _ _ Hl); lia).
    cbn [res_bind]. rewrite Nat2Z.id. f_equal.
    apply list_eq. intros j. destruct (decide (j = ix)) as [->|Hne].
    - rewrite list_lookup_alter_eq, Hl. simpl.
      by rewrite list_lookup_insert_eq by (by eapply lookup_lt_Some).
    - rewrite list_lookup_alter_ne, list_lookup_insert_ne by done. done. }
  unfold ScaffoldReads.good_read, alleles_iadd.
  rewrite np_axis_index_in_range by lia. cbn [res_bind].
  rewrite Hrow. cbn [of_option res_bind].
  rewrite (Hadd cnts c 1 Hc). cbn [res_bind].
  rewrite length_insert, np_axis_index_in_range by lia. cbn [res_bind].
  rewrite list_lookup_insert_eq by done. cbn [of_option res_bind].
  rewrite (Hadd quals q bq Hq). cbn [res_bind].
  unfold np_iadd_at. rewrite Hmq, np_axis_index_in_range by lia.
  cbn [res_bind]. eexists. split; [reflexivity|]. simpl.
  rewrite list_insert_insert_eq.
  split; [by rewrite list_lookup_insert_eq|].
  split; [intros p Hne; by rewrite list_lookup_insert_ne|].
  split; [by rewrite length_insert|]. done.
Qed.

Lemma np_sum_insert (l : list Z) (i : nat) (x y : Z) :
  l !! i = Some x -> np_sum (<[i := y]> l) = np_sum l - x + y.
Proof.
  revert i. induction l as [|z l IH]; intros [|i] H; try done.
  - injection H as ->. simpl. lia.
  - change (np_sum (<[S i := y]> (z :: l)))
      with (z + np_sum (<[i := y]> l)).
    rewrite (IH i H). simpl. lia.
Qed.

Lemma np_sum_cell_le (l : list Z) (i : nat) (x : Z) :
  Forall (fun c => 0 <= c) l -> l !! i = Some x -> 0 <= x <= np_sum l.
Proof.
  intros Hl. revert i. induction Hl as [|z l Hz Hl IH]; intros [|i] H;
    try done; simpl in *.
  - injection H as ->. pose proof (np_sum_nonneg l Hl). lia.
  - specialize (IH i H). lia.
Qed.

Lemma depth_lookup (d : t) (pos : Z) (cnts quals : list Z) :
  0 <= pos < Z.of_nat (Datatypes.length (alleles d)) ->
  alleles d !! Z.to_nat pos = Some (cnts, quals) ->
  ScaffoldReads.depth d pos = Ok (np_sum cnts)
  /\ ScaffoldReads.qual_total d pos = Ok (np_sum quals).
Proof.
  intros Hpos Hrow. unfold ScaffoldReads.depth, ScaffoldReads.qual_total.
  rewrite np_axis_index_in_range by done. cbn [res_bind].
  by rewrite Hrow.
Qed.

Lemma uint32_nonneg (x : Z) : 0 <= uint32 x.
Proof. unfold uint32. apply Z.mod_pos_bound. lia. Qed.

(** [good_read] within the shapes of the call data: the row of the
    position before and after. *)
Lemma good_read_row (self : VariantCallData.t) (scaffold : string)
    (pos : Z) (allele : Allele.t) (base_quality mapping_quality : Z)
    (rc : bool) (d : t) (dp qt : Z) :
  VariantCallData.scaffold_data self scaffold = Ok d ->
  wf d ->
  Datatypes.length (mq_sum d) = Z.to_nat (length d) ->
  0 <= pos < length d ->
  (if rc then Allele.rc allele else allele) ∈ Allele.ALLELE_MASKS ->
  ScaffoldReads.depth d pos = Ok dp -> dp + 1 < 2 ^ 32 ->
  ScaffoldReads.qual_total d pos = Ok qt ->
  0 <= base_quality -> qt + base_quality < 2 ^ 32 ->
  exists self' d' cnts quals ix c q,
    VariantCallData.good_read self scaffold pos allele base_quality
                              mapping_quality rc = Ok self'
    /\ VariantCallData.scaffold_data self' scaffold = Ok d'
    /\ wf d'
    /\ alleles d !! Z.to_nat pos = Some (cnts, quals)
    /\ Allele.ALLELE_MASKS !! ix
       = Some (if rc then Allele.rc allele else allele)
    /\ cnts !! ix = Some c /\ quals !! ix = Some q
    /\ 0 <= c /\ 0 <= q
    /\ dp = np_sum cnts /\ qt = np_sum quals
    /\ alleles d' !! Z.to_nat pos
       = Some (<[ix := c + 1]> cnts, <[ix := q + base_quality]> quals)
    /\ (forall p, p <> Z.to_nat pos -> alleles d' !! p = alleles d !! p)
    /\ Datatypes.length (alleles d') = Datatypes.length (alleles d)
    /\ length d' = length d
    /\ high_coverage d' = high_coverage d
    /\ (forall other, other <> scaffold ->
          VariantCallData.scaffold_data self' other
          = VariantCallData.scaffold_data self other).
Proof.
  intros Hd Hwf Hmq Hpos Hbase Hdp Hdpb Hqt Hbq Hqtb.
  pose proof Hwf as (Hal & Hlq & Hhc & Hrows).
  destruct (ALLELE_INDEX_single _ Hbase) as (ix & Hix & Hmask & Hix6).
  destruct (lookup_lt_is_Some_2 (alleles d) (Z.to_nat pos))
    as [[cnts quals] Hrow]; [lia|].
  pose proof Hrows as Hrows'. rewrite Forall_forall in Hrows'.
  destruct (Hrows' _ (list_elem_of_lookup_2 _ _ _ Hrow))
    as (Hlc & Hlqu & Hcpos & Hqpos). simpl in *.
  destruct (lookup_lt_is_Some_2 cnts ix) as [c Hc]; [lia|].
  destruct (lookup_lt_is_Some_2 quals ix) as [q Hq]; [lia|].
  destruct (depth_lookup d pos cnts quals) as [Hdp' Hqt']; [lia|done|].
  assert (dp = np_sum cnts) as -> by congruence.
  assert (qt = np_sum quals) as -> by congruence.
  pose proof (np_sum_cell_le cnts ix c Hcpos Hc) as Hcb.
  pose proof (np_sum_cell_le quals ix q Hqpos Hq) as Hqb.
  destruct (scaffold_good_read_spec d pos ix base_quality mapping_quality
              cnts quals c q)
    as (d' & Hgood & Hrow' & Hothers & Hlen' & Hl & Hlc' & Hhc' & _);
    [lia|lia|done..|].
  unfold VariantCallData.good_read. rewrite Hix. cbn [res_bind].
  rewrite Hd. cbn [res_bind]. rewrite Hgood. cbn [res_bind].
  eexists _, d', cnts, quals, ix, c, q. split; [reflexivity|].
  split.
  { unfold VariantCallData.scaffold_data, VariantCallData.set_scaffold.
    simpl. by rewrite dict_get_set, String.eqb_refl. }
  rewrite !uint32_small in Hrow' by lia.
  split.
  { split; [congruence|]. split; [congruence|]. split; [congruence|].
    apply Forall_forall. intros row Hin.
    apply list_elem_of_lookup in Hin as [p Hp].
    destruct (decide (p = Z.to_nat pos)) as [->|Hne].
    + rewrite Hrow' in Hp. injection Hp as <-. simpl.
      rewrite !length_insert. split; [done|]. split; [done|].
      split; apply Forall_insert; try done; lia.
    + rewrite Hothers in Hp by done.
      by apply Hrows', (list_elem_of_lookup_2 _ p). }
  repeat (split; [done || lia|]).
  intros other Hne.
  unfold VariantCallData.scaffold_data, VariantCallData.set_scaffold.
  simpl. rewrite dict_get_set.
  destruct (String.eqb_spec scaffold other); [congruence|done].
Qed.

(** X21.  [good_read] on a scaffold of the call data, at a position
    within the scaffold and for a single allele (after the reverse
    complement, when [rc] is set), returns; while the counters stay
    below [2^32], the depth of the position grows by one and its
    quality total by the base quality, the other positions and the
    other scaffolds are as before, and the shapes of the scaffold's
    arrays are kept. *)
Theorem good_read_recorded (self : VariantCallData.t) (scaffold : string)
    (pos : Z) (allele : Allele.t) (base_quality mapping_quality : Z)
    (rc : bool) (d : t) (dp qt : Z) :
  VariantCallData.scaffold_data self scaffold = Ok d ->
  wf d ->
  Datatypes.length (mq_sum d) = Z.to_nat (length d) ->
  0 <= pos < length d ->
  (if rc then Allele.rc allele else allele) ∈ Allele.ALLELE_MASKS ->
  ScaffoldReads.depth d pos = Ok dp -> dp + 1 < 2 ^ 32 ->
  ScaffoldReads.qual_total d pos = Ok qt ->
  0 <= base_quality -> qt + base_quality < 2 ^ 32 ->
  exists self' d',
    VariantCallData.good_read self scaffold pos allele base_quality
                              mapping_quality rc = Ok self'
    /\ VariantCallData.scaffold_data self' scaffold = Ok d'
    /\ wf d'
    /\ ScaffoldReads.depth d' pos = Ok (dp + 1)
    /\ ScaffoldReads.qual_total d' pos = Ok (qt + base_quality)
    /\ (forall p, 0 <= p -> p <> pos ->
          ScaffoldReads.depth d' p = ScaffoldReads.depth d p
          /\ ScaffoldReads.qual_total d' p = ScaffoldReads.qual_total d p)
    /\ (forall other, other <> scaffold ->
          VariantCallData.scaffold_data self' other
          = VariantCallData.scaffold_data self other).
Proof.
  intros Hd Hwf Hmq Hpos Hbase Hdp Hdpb Hqt Hbq Hqtb.
  pose proof Hwf as (Hal & _).
  destruct (good_read_row self scaffold pos allele base_quality
              mapping_quality rc d dp qt)
    as (self' & d' & cnts & quals & ix & c & q & Hgood & Hd' & Hwf' & Hrow
        & _ & Hc & Hq & _ & _ & -> & -> & Hrow' & Hothers & Hlen' & _ & _
        & Hscaf); try done.
  exists self', d'. split; [done|]. split; [done|]. split; [done|].
  split; [|split; [|split; [|done]]].
  - destruct (depth_lookup d' pos _ _ ltac:(lia) Hrow') as [-> _].
    f_equal. rewrite (np_sum_insert _ _ _ _ Hc). lia.
  - destruct (depth_lookup d' pos _ _ ltac:(lia) Hrow') as [_ ->].
    f_equal. rewrite (np_sum_insert _ _ _ _ Hq). lia.
  - intros p Hp0 Hne.
    unfold ScaffoldReads.depth, ScaffoldReads.qual_total. rewrite Hlen'.
    destruct (Z.ltb_spec p (Z.of_nat (Datatypes.length (alleles d))))
      as [Hlt|Hge].
    + rewrite np_axis_index_in_range by lia. cbn [res_bind].
      rewrite Hothers by lia. done.
    + rewrite np_axis_index_out by lia. done.
Qed.

(** A flag of the evidence row sets the bit of its allele. *)
Lemma mask_sum_bit (flags : list bool) (ix : nat) (base : Allele.t) :
  Datatypes.length flags = 6%nat ->
  flags !! ix = Some true ->
  Allele.ALLELE_MASKS !! ix = Some base ->
  Z.land (mask_sum flags) base = base.
Proof.
  intros Hlen Hflag Hmask. unfold mask_sum, Allele.ALLELE_MASKS in *.
  do 6 (destruct flags as [|? flags]; [done|]).
  destruct flags; [|done].
  do 6 (destruct ix as [|ix];
        [injection Hflag as ->; injection Hmask as <-;
         repeat match goal with b : bool |- _ => destruct b end;
         reflexivity|]).
  done.
Qed.

(** X22.  A good read shows in the weak call: after [good_read] with
    a positive base quality (counters below [2^32]) at a position
    that is not flagged as too highly covered, [call_alleles] on the
    scaffold gives a weak call at the position that contains the
    allele of the read, whatever the thresholds. *)
Theorem good_read_gives_weak_call (garbage : nat -> nat -> Q)
    (self : VariantCallData.t) (scaffold : string)
    (pos : Z) (allele : Allele.t) (base_quality mapping_quality : Z)
    (rc : bool) (d : t) (dp qt : Z) (min_pileup_qual min_qual_frac : Q) :
  VariantCallData.scaffold_data self scaffold = Ok d ->
  wf d ->
  Datatypes.length (mq_sum d) = Z.to_nat (length d) ->
  0 <= pos < length d ->
  (if rc then Allele.rc allele else allele) ∈ Allele.ALLELE_MASKS ->
  ScaffoldReads.depth d pos = Ok dp -> dp + 1 < 2 ^ 32 ->
  ScaffoldReads.qual_total d pos = Ok qt ->
  0 < base_quality -> qt + base_quality < 2 ^ 32 ->
  high_coverage d !! Z.to_nat pos = Some false ->
  exists self' d' d'' w wp,
    VariantCallData.good_read self scaffold pos allele base_quality
                              mapping_quality rc = Ok self'
    /\ VariantCallData.scaffold_data self' scaffold = Ok d'
    /\ call_alleles garbage d' min_pileup_qual min_qual_frac = Ok d''
    /\ weak d'' = Some w
    /\ w !! Z.to_nat pos = Some wp
    /\ Z.land wp (if rc then Allele.rc allele else allele)
       = (if rc then Allele.rc allele else allele).
Proof.
  intros Hd Hwf Hmq Hpos Hbase Hdp Hdpb Hqt Hbq Hqtb Hhigh.
  destruct (good_read_row self scaffold pos allele base_quality
              mapping_quality rc d dp qt)
    as (self' & d' & cnts & quals & ix & c & q & Hgood & Hd' & Hwf' & Hrow
        & Hmask & Hc & Hq & Hc0 & Hq0 & -> & -> & Hrow' & Hothers & Hlen'
        & Hl' & Hhc' & _); try done; [lia|].
  pose proof Hwf' as (Hal' & _ & Hhcl' & Hrows').
  destruct (call_alleles_lookup garbage d' min_pileup_qual min_qual_frac)
    as (w & s & Hcall & Hw & Hs & Hlook); [congruence|].
  rewrite <- Hhc' in Hhigh.
  destruct (Hlook _ _ _ _ Hrow' Hhigh) as [Hwp _].
  eexists self', d', _, w, _. split; [done|]. split; [done|].
  split; [exact Hcall|]. split; [done|]. split; [exact Hwp|].
  apply (mask_sum_bit _ ix); [| |done].
  - unfold evidence. rewrite length_map, length_insert.
    rewrite Forall_forall in Hrows'.
    by destruct (Hrows' _ (list_elem_of_lookup_2 _ _ _ Hrow'))
      as (_ & Hlq' & _); simpl in Hlq'; rewrite length_insert in Hlq'.
  - unfold evidence. rewrite list_lookup_fmap.
    rewrite list_lookup_insert_eq by (by eapply lookup_lt_Some). simpl.
    f_equal. apply Z.ltb_lt. lia.
Qed.

(** X23.  What [good_read] rejects: an allele that is not a single
    allele after the strand is taken into account ([Allele.N], a
    combination) is a [KeyError], before the scaffold is looked at; so
    is a scaffold that is not in the call data; a position at or past
    the length of the scaffold, or below its negative, is an
    [IndexError].  A negative position down to [-length] is not
    rejected: the read is recorded at [length + pos]. *)
Theorem good_read_rejects (self : VariantCallData.t) (scaffold : string)
    (pos : Z) (allele : Allele.t) (base_quality mapping_quality : Z)
    (rc : bool) :
  let base := if rc then Allele.rc allele else allele in
  let call p :=
    VariantCallData.good_read self scaffold p allele base_quality
                              mapping_quality rc in
  (base ∉ Allele.ALLELE_MASKS -> call pos = Raise KeyError)
  /\ (dict_get (VariantCallData.scaffolds_data self) scaffold = None ->
      call pos = Raise KeyError)
  /\ forall d,
       base ∈ Allele.ALLELE_MASKS ->
       VariantCallData.scaffold_data self scaffold = Ok d ->
       let n := Z.of_nat (Datatypes.length (alleles d)) in
       (pos < - n \/ n <= pos -> call pos = Raise IndexError)
       /\ (Datatypes.length (mq_sum d) = Datatypes.length (alleles d) ->
           - n <= pos < 0 -> call pos = call (n + pos)).
Proof.
  intros base call. unfold call, VariantCallData.good_read. fold base.
  split; [|split].
  - intros Hnot. by rewrite (ALLELE_INDEX_other base Hnot).
  - intros Hnone. destruct (ALLELE_INDEX base) as [ix|e] eqn:E.
    + cbn [res_bind]. unfold VariantCallData.scaffold_data.
      by rewrite Hnone.
    + cbn [res_bind]. f_equal. unfold ALLELE_INDEX in E.
      destruct (list_find _ _); simpl in E; [done|]. by injection E as <-.
  - intros d Hbase Hd.
    set (n := Z.of_nat (Datatypes.length (alleles d))).
    destruct (ALLELE_INDEX_single base Hbase) as (ix & -> & _).
    cbn [res_bind]. rewrite Hd. cbn [res_bind].
    split.
    + intros Hout. unfold ScaffoldReads.good_read, alleles_iadd.
      by rewrite np_axis_index_out.
    + intros Hmq Hneg.
      by rewrite (scaffold_good_read_alias d pos ix _ _ Hmq Hneg).
Qed.

End GoodRead.

Lemma good_read_recorded_witness :
  VariantCallData.scaffold_data Samples.vcd3 "s1" = Ok Samples.scd3
  /\ ScaffoldCallData.wf Samples.scd3
  /\ Datatypes.length (ScaffoldCallData.mq_sum Samples.scd3)
     = Z.to_nat (ScaffoldCallData.length Samples.scd3)
  /\ 0 <= 1 < ScaffoldCallData.length Samples.scd3
  /\ Allele.rc Allele.C ∈ Allele.ALLELE_MASKS
  /\ ScaffoldReads.depth Samples.scd3 1 = Ok 0 /\ 0 + 1 < 2 ^ 32
  /\ ScaffoldReads.qual_total Samples.scd3 1 = Ok 0
  /\ 0 <= 30 /\ 0 + 30 < 2 ^ 32
  /\ exists self' d',
       VariantCallData.good_read Samples.vcd3 "s1" 1 Allele.C 30 60 true
       = Ok self'
       /\ VariantCallData.scaffold_data self' "s1" = Ok d'
       /\ ScaffoldCallData.wf d'
       /\ ScaffoldReads.depth d' 1 = Ok (0 + 1)
       /\ ScaffoldReads.qual_total d' 1 = Ok (0 + 30)
       /\ (forall p, 0 <= p -> p <> 1 ->
             ScaffoldReads.depth d' p = ScaffoldReads.depth Samples.scd3 p
             /\ ScaffoldReads.qual_total d' p
                = ScaffoldReads.qual_total Samples.scd3 p)
       /\ (forall other, other <> "s1"%string ->
             VariantCallData.scaffold_data self' other
             = VariantCallData.scaffold_data Samples.vcd3 other).
Proof.
  split; [reflexivity|]. split; [exact scd3_wf|]. split; [reflexivity|].
  split; [simpl; lia|]. split; [by repeat constructor|].
  split; [reflexivity|]. split; [lia|]. split; [reflexivity|].
  split; [lia|]. split; [lia|].
  apply (good_read_recorded Samples.vcd3 "s1" 1 Allele.C 30 60 true
           Samples.scd3 0 0);
    [reflexivity | exact scd3_wf | reflexivity | simpl; lia
    | by repeat constructor | reflexivity | lia | reflexivity | lia | lia].
Defined.

Lemma good_read_gives_weak_call_witness :
  VariantCallData.scaffold_data Samples.vcd3 "s1" = Ok Samples.scd3
  /\ ScaffoldCallData.wf Samples.scd3
  /\ Datatypes.length (ScaffoldCallData.mq_sum Samples.scd3)
     = Z.to_nat (ScaffoldCallData.length Samples.scd3)
  /\ 0 <= 1 < ScaffoldCallData.length Samples.scd3
  /\ Allele.rc Allele.C ∈ Allele.ALLELE_MASKS
  /\ ScaffoldReads.depth Samples.scd3 1 = Ok 0 /\ 0 + 1 < 2 ^ 32
  /\ ScaffoldReads.qual_total Samples.scd3 1 = Ok 0
  /\ 0 < 30 /\ 0 + 30 < 2 ^ 32
  /\ ScaffoldCallData.high_coverage Samples.scd3 !! Z.to_nat 1 = Some false
  /\ exists self' d' d'' w wp,
       VariantCallData.good_read Samples.vcd3 "s1" 1 Allele.C 30 60 true
       = Ok self'
       /\ VariantCallData.scaffold_data self' "s1" = Ok d'
       /\ ScaffoldCallData.call_alleles Samples.ones d' 50 (1 # 10) = Ok d''
       /\ ScaffoldCallData.weak d'' = Some w
       /\ w !! Z.to_nat 1 = Some wp
       /\ Z.land wp (Allele.rc Allele.C) = Allele.rc Allele.C.
Proof.
  split; [reflexivity|]. split; [exact scd3_wf|]. split; [reflexivity|].
  split; [simpl; lia|]. split; [by repeat constructor|].
  split; [reflexivity|]. split; [lia|]. split; [reflexivity|].
  split; [lia|]. split; [lia|]. split; [reflexivity|].
  apply (good_read_gives_weak_call Samples.ones Samples.vcd3 "s1" 1 Allele.C
           30 60 true Samples.scd3 0 0 50 (1 # 10));
    [reflexivity | exact scd3_wf | reflexivity | simpl; lia
    | by repeat constructor | reflexivity | lia | reflexivity | lia | lia
    | reflexivity].
Defined.

(** A read of [G] on the reverse strand at position 1 of the sample
    scaffold counts for [C]; [N] is rejected. *)
Example good_read_samples :
  (exists self' d',
     VariantCallData.good_read Samples.vcd3 "s1" 1 Allele.G 30 60 true
     = Ok self'
     /\ VariantCallData.scaffold_data self' "s1" = Ok d'
     /\ ScaffoldCallData.alleles d' !! 1%nat
        = Some ([0; 1; 0; 0; 0; 0], [0; 30; 0; 0; 0; 0])
     /\ ScaffoldCallData.mq_sum d' = [0; 60; 0])
  /\ VariantCallData.good_read Samples.vcd3 "s1" 1 Allele.N 30 60 false
     = Raise KeyError
  /\ VariantCallData.good_read Samples.vcd3 "s1" 3 Allele.A 30 60 false
     = Raise IndexError.
Proof.
  split; [eexists _, _; repeat split|]. split; reflexivity.
Qed.

(* ===================================================================== *)
(** * Further properties: low mapping quality and the reference base     *)
(* ===================================================================== *)

Lemma dict_set_same {V} (d : list (string * V)) (k : string) (v : V) :
  dict_get d k = Some v -> dict_set d k v = d.
Proof.
  induction d as [|[k0 v0] d IH]; simpl; [done|].
  destruct (String.eqb k0 k); [by intros [= ->]|].
  intros H. by rewrite (IH H).
Qed.

Section LowMappingQuality.

Import ScaffoldCallData.

(** X24.  [low_mapping_quality] checks the position against the
    length of the scaffold on one side only: a position at or past the
    length is ignored and leaves the call data as it is; a position in
    the scaffold is counted; a negative position down to [-length] is
    not rejected but counted at [length + pos], from the end of the
    scaffold; a position below [-length] is an [IndexError]. *)
Theorem low_mapping_quality_bounds (self : VariantCallData.t)
    (scaffold : string) (pos : Z) (d : t) :
  VariantCallData.scaffold_data self scaffold = Ok d ->
  Datatypes.length (lowmq_count d) = Z.to_nat (length d) ->
  0 <= length d ->
  (length d <= pos ->
     VariantCallData.low_mapping_quality self scaffold pos = Ok self)
  /\ (pos < - length d ->
        VariantCallData.low_mapping_quality self scaffold pos
        = Raise IndexError)
  /\ (- length d <= pos < length d ->
        exists self' d',
          VariantCallData.low_mapping_quality self scaffold pos = Ok self'
          /\ VariantCallData.scaffold_data self' scaffold = Ok d'
          /\ lowmq_count d'
             = alter (fun c => uint32 (c + 1))
                     (Z.to_nat (pos mod length d)) (lowmq_count d)
          /\ alleles d' = alleles d /\ length d' = length d).
Proof.
  intros Hd Hlen Hn.
  unfold VariantCallData.low_mapping_quality. rewrite Hd. cbn [res_bind].
  unfold ScaffoldReads.low_mapping_quality.
  split; [|split].
  - intros Hpos. destruct (Z.leb_spec (length d) pos); [|lia].
    cbn [res_bind]. unfold VariantCallData.set_scaffold.
    unfold VariantCallData.scaffold_data in Hd.
    destruct (dict_get _ _) as [d0|] eqn:E; [|done].
    injection Hd as ->. rewrite (dict_set_same _ _ _ E). by destruct self.
  - intros Hpos. destruct (Z.leb_spec (length d) pos); [lia|].
    unfold np_iadd_at. rewrite np_axis_index_out by lia. done.
  - intros Hpos. destruct (Z.leb_spec (length d) pos); [lia|].
    unfold np_iadd_at.
    assert (np_axis_index (Datatypes.length (lowmq_count d)) pos
            = Ok (Z.to_nat (pos mod length d))) as ->.
    { destruct (Z.ltb_spec pos 0).
      - rewrite np_axis_index_from_end by lia. do 2 f_equal.
        rewrite Hlen, Z2Nat.id by lia.
        apply Z.mod_unique with (-1); lia.
      - rewrite np_axis_index_in_range by lia.
        by rewrite Z.mod_small by lia. }
    cbn [res_bind]. eexists _, _. split; [reflexivity|].
    split.
    { unfold VariantCallData.scaffold_data, VariantCallData.set_scaffold.
      simpl. by rewrite dict_get_set, String.eqb_refl. }
    done.
Qed.

(** X25.  The reference base of a position decides what the
    [ref_...] accessors do: where the reference mask is not a single
    allele (0 for a base other than A, C, G, T) they raise [KeyError];
    elsewhere the count and the quality of the reference allele are
    part of the depth and the quality total of the position, and
    [ref_fraction] lies in [0, 1] when the total is positive and is a
    division of zero by zero (not a number) when the position has no
    quality at all. *)
Theorem ref_accessors_by_reference_base (d : t) (loc ref : Z) :
  wf d ->
  Datatypes.length (refmask d) = Z.to_nat (length d) ->
  0 <= loc < length d ->
  refmask d !! Z.to_nat loc = Some ref ->
  (ref ∉ Allele.ALLELE_MASKS ->
     ScaffoldReads.ref_count d loc = Raise KeyError
     /\ ScaffoldReads.ref_qual d loc = Raise KeyError
     /\ ScaffoldReads.ref_fraction d loc = Raise KeyError)
  /\ (ref ∈ Allele.ALLELE_MASKS ->
        exists rc rq dp qt,
          ScaffoldReads.ref_count d loc = Ok rc
          /\ ScaffoldReads.ref_qual d loc = Ok rq
          /\ ScaffoldReads.depth d loc = Ok dp
          /\ ScaffoldReads.qual_total d loc = Ok qt
          /\ ScaffoldReads.allele_count d loc ref = Ok rc
          /\ ScaffoldReads.allele_qual d loc ref = Ok rq
          /\ 0 <= rc <= dp /\ 0 <= rq <= qt
          /\ (qt = 0 ->
                ScaffoldReads.ref_fraction d loc = Raise NumpyNonFinite)
          /\ (0 < qt ->
                exists f, ScaffoldReads.ref_fraction d loc = Ok f
                          /\ (0 <= f <= 1)%Q
                          /\ (f == inject_Z rq / inject_Z qt)%Q)).
Proof.
  intros Hwf Href Hloc Hr.
  pose proof Hwf as (Hal & _ & _ & Hrows).
  assert (py_index (refmask d) loc = Ok ref) as Hpy.
  { unfold py_index. rewrite Href, Z2Nat.id by lia.
    destruct (Z.leb_spec 0 loc); [|lia].
    destruct (Z.ltb_spec loc (length d)); [|lia]. simpl. by rewrite Hr. }
  unfold ScaffoldReads.ref_count, ScaffoldReads.ref_qual,
    ScaffoldReads.ref_fraction, ScaffoldReads.ref_qual,
    ScaffoldReads.allele_count, ScaffoldReads.allele_qual.
  rewrite Hpy. cbn [res_bind]. split.
  - intros Hnot. rewrite (ALLELE_INDEX_other ref Hnot). done.
  - intros Hin. destruct (ALLELE_INDEX_single ref Hin) as (ix & -> & _ & Hix).
    cbn [res_bind].
    destruct (lookup_lt_is_Some_2 (alleles d) (Z.to_nat loc))
      as [[cnts quals] Hrow]; [lia|].
    rewrite Forall_forall in Hrows.
    destruct (Hrows _ (list_elem_of_lookup_2 _ _ _ Hrow))
      as (Hlc & Hlq & Hcpos & Hqpos). simpl in *.
    destruct (lookup_lt_is_Some_2 cnts ix) as [c Hc]; [lia|].
    destruct (lookup_lt_is_Some_2 quals ix) as [q Hq]; [lia|].
    destruct (depth_lookup d loc cnts quals) as [Hdp Hqt]; [lia|done|].
    rewrite np_axis_index_in_range by lia. cbn [res_bind].
    rewrite Hrow. cbn [of_option res_bind]. rewrite Hc, Hq.
    cbn [of_option res_bind]. rewrite Hqt. cbn [res_bind].
    pose proof (np_sum_cell_le cnts ix c Hcpos Hc) as Hcb.
    pose proof (np_sum_cell_le quals ix q Hqpos Hq) as Hqb.
    exists c, q, (np_sum cnts), (np_sum quals).
    repeat (split; [done|]). split.
    + intros H0. unfold np_div. by rewrite H0.
    + intros Hpos. rewrite np_div_pos by (apply inject_Z_pos; lia).
      eexists. split; [reflexivity|]. split; [|done].
      assert (0 < inject_Z (np_sum quals))%Q by (apply inject_Z_pos; lia).
      split.
      * apply Qle_shift_div_l; [done|]. rewrite Qmult_0_l.
        change 0%Q with (inject_Z 0). rewrite <- Zle_Qle. lia.
      * apply Qle_shift_div_r; [done|]. rewrite Qmult_1_l.
        rewrite <- Zle_Qle. lia.
Qed.

End LowMappingQuality.

Lemma low_mapping_quality_bounds_witness :
  VariantCallData.scaffold_data Samples.vcd3 "s1" = Ok Samples.scd3
  /\ Datatypes.length (ScaffoldCallData.lowmq_count Samples.scd3)
     = Z.to_nat (ScaffoldCallData.length Samples.scd3)
  /\ 0 <= ScaffoldCallData.length Samples.scd3
  /\ (ScaffoldCallData.length Samples.scd3 <= -1 ->
        VariantCallData.low_mapping_quality Samples.vcd3 "s1" (-1)
        = Ok Samples.vcd3)
  /\ (-1 < - ScaffoldCallData.length Samples.scd3 ->
        VariantCallData.low_mapping_quality Samples.vcd3 "s1" (-1)
        = Raise IndexError)
  /\ (- ScaffoldCallData.length Samples.scd3 <= -1
      < ScaffoldCallData.length Samples.scd3 ->
        exists self' d',
          VariantCallData.low_mapping_quality Samples.vcd3 "s1" (-1)
          = Ok self'
          /\ VariantCallData.scaffold_data self' "s1" = Ok d'
          /\ ScaffoldCallData.lowmq_count d'
             = alter (fun c => uint32 (c + 1))
                     (Z.to_nat (-1 mod ScaffoldCallData.length Samples.scd3))
                     (ScaffoldCallData.lowmq_count Samples.scd3)
          /\ ScaffoldCallData.alleles d'
             = ScaffoldCallData.alleles Samples.scd3
          /\ ScaffoldCallData.length d'
             = ScaffoldCallData.length Samples.scd3).
Proof.
  split; [reflexivity|]. split; [reflexivity|]. split; [simpl; lia|].
  apply (low_mapping_quality_bounds Samples.vcd3 "s1" (-1) Samples.scd3);
    [reflexivity | reflexivity | simpl; lia].
Defined.

(** Positions 3 and -1 on the sample scaffold of three positions. *)
Example low_mapping_quality_samples :
  VariantCallData.low_mapping_quality Samples.vcd3 "s1" 3 = Ok Samples.vcd3
  /\ (ScaffoldCallData.lowmq_count
        <$> (res_to_option
               (VariantCallData.low_mapping_quality Samples.vcd3 "s1" (-1))
             ≫= fun s =>
               res_to_option (VariantCallData.scaffold_data s "s1")))
     = Some [0; 0; 1].
Proof. split; reflexivity. Qed.

Lemma ref_accessors_by_reference_base_witness :
  ScaffoldCallData.wf Samples.scd3
  /\ Datatypes.length (ScaffoldCallData.refmask Samples.scd3)
     = Z.to_nat (ScaffoldCallData.length Samples.scd3)
  /\ 0 <= 0 < ScaffoldCallData.length Samples.scd3
  /\ ScaffoldCallData.refmask Samples.scd3 !! Z.to_nat 0 = Some 1
  /\ (1 ∉ Allele.ALLELE_MASKS ->
        ScaffoldReads.ref_count Samples.scd3 0 = Raise KeyError
        /\ ScaffoldReads.ref_qual Samples.scd3 0 = Raise KeyError
        /\ ScaffoldReads.ref_fraction Samples.scd3 0 = Raise KeyError)
  /\ (1 ∈ Allele.ALLELE_MASKS ->
        exists rc rq dp qt,
          ScaffoldReads.ref_count Samples.scd3 0 = Ok rc
          /\ ScaffoldReads.ref_qual Samples.scd3 0 = Ok rq
          /\ ScaffoldReads.depth Samples.scd3 0 = Ok dp
          /\ ScaffoldReads.qual_total Samples.scd3 0 = Ok qt
          /\ ScaffoldReads.allele_count Samples.scd3 0 1 = Ok rc
          /\ ScaffoldReads.allele_qual Samples.scd3 0 1 = Ok rq
          /\ 0 <= rc <= dp /\ 0 <= rq <= qt
          /\ (qt = 0 ->
                ScaffoldReads.ref_fraction Samples.scd3 0
                = Raise NumpyNonFinite)
          /\ (0 < qt ->
                exists f, ScaffoldReads.ref_fraction Samples.scd3 0 = Ok f
                          /\ (0 <= f <= 1)%Q
                          /\ (f == inject_Z rq / inject_Z qt)%Q)).
Proof.
  split; [exact scd3_wf|]. split; [reflexivity|]. split; [simpl; lia|].
  split; [reflexivity|].
  apply (ref_accessors_by_reference_base Samples.scd3 0 1);
    [exact scd3_wf | reflexivity | simpl; lia | reflexivity].
Defined.

(** The reference allele A at position 0 of the sample scaffold has
    two of the three reads and 60 of the quality total of 90; an
    unread position has no fraction. *)
Example ref_accessors_samples :
  ScaffoldReads.ref_count Samples.scd3 0 = Ok 2
  /\ ScaffoldReads.depth Samples.scd3 0 = Ok 3
  /\ ScaffoldReads.ref_fraction Samples.scd3 0 = Ok (60 / 90)%Q
  /\ ScaffoldReads.ref_fraction Samples.scd3 1 = Raise NumpyNonFinite
  /\ ScaffoldReads.mean_mq Samples.scd3 1 = Ok 0%Q
  /\ ScaffoldReads.ref_count Samples.scd_empty 0 = Ok 0.
Proof. repeat split. Qed.

(* ===================================================================== *)
(** * Further properties: coverage and its cutoff                        *)
(* ===================================================================== *)

Lemma np_median_nonempty (a : list Z) :
  a <> [] -> exists m, np_median a = Ok m.
Proof.
  intros Hne. unfold np_median.
  pose proof (Permutation_length (merge_sort_Permutation Z.le a)) as Hlen.
  destruct (Nat.eqb_spec (Datatypes.length (merge_sort Z.le a)) 0) as [H0|_].
  - rewrite H0 in Hlen. destruct a; done.
  - destruct (Nat.odd _); by eexists.
Qed.

Section Coverage.

Import ScaffoldCallData.
Variable poisson_ppf : Q -> Q -> Q.

(** X26.  [calculate_coverage] on a scaffold with at least one
    position returns; the coverage of a position is its depth plus its
    count of low-mapping-quality reads, the mean coverage times the
    length is the sum of the coverage, and the shapes are kept.  With
    a median coverage of 50 or more the cutoff is
    [ceil(1.5 * median + 15)], so a position is flagged as too highly
    covered only if its coverage is above [1.5 * median + 15], and
    never when its coverage is at most the median. *)
Theorem calculate_coverage_flags_above_cutoff (d : t) :
  wf d ->
  0 < length d ->
  exists d' median cutoff cov,
    ScaffoldCoverage.calculate_coverage poisson_ppf d
    = Ok (d', median, cutoff)
    /\ wf d'
    /\ coverage d' = Some cov
    /\ Datatypes.length cov = Z.to_nat (length d)
    /\ alleles d' = alleles d
    /\ (forall (p : nat) cnts quals l,
          alleles d !! p = Some (cnts, quals) ->
          lowmq_count d !! p = Some l ->
          cov !! p = Some (np_sum cnts + l)
          /\ high_coverage d' !! p
             = Some (Qlt_bool cutoff (inject_Z (np_sum cnts + l))))
    /\ (mean_coverage d' * inject_Z (length d) == inject_Z (np_sum cov))%Q
    /\ np_median cov = Ok median
    /\ ((50 <= median)%Q ->
          cutoff = inject_Z (Qceiling (median * (3 # 2) + 15))
          /\ forall (p : nat) c,
               cov !! p = Some c ->
               (high_coverage d' !! p = Some true ->
                  (median * (3 # 2) + 15 < inject_Z c)%Q)
               /\ ((inject_Z c <= median)%Q ->
                   high_coverage d' !! p = Some false)).
Proof.
  intros (Hal & Hlq & Hhc & Hrows) Hlen.
  unfold ScaffoldCoverage.calculate_coverage, np_zip.
  rewrite length_map, Hal, Hlq, Nat.eqb_refl. cbn [res_bind].
  set (cov := zip_with Z.add _ _).
  assert (Datatypes.length cov = Z.to_nat (length d)) as Hcov.
  { unfold cov. rewrite length_zip_with, length_map. lia. }
  rewrite np_div_pos by (apply inject_Z_pos; lia). cbn [res_bind].
  destruct (np_median_nonempty cov) as [median Hmed].
  { intros Hnil. rewrite Hnil in Hcov. simpl in Hcov. lia. }
  rewrite Hmed. cbn [res_bind].
  eexists _, median, _, cov. split; [reflexivity|]. simpl.
  split.
  { split; [done|]. split; [done|]. split; [|done].
    simpl. by rewrite length_map. }
  split; [done|]. split; [done|]. split; [done|].
  assert (forall (p : nat) cnts quals l,
            alleles d !! p = Some (cnts, quals) ->
            lowmq_count d !! p = Some l ->
            cov !! p = Some (np_sum cnts + l)) as Hcovp.
  { intros p cnts quals l Hrow Hl. unfold cov.
    by rewrite lookup_zip_with, list_lookup_fmap, Hrow, Hl. }
  split.
  { intros p cnts quals l Hrow Hl. pose proof (Hcovp _ _ _ _ Hrow Hl) as Hc.
    split; [done|]. by rewrite list_lookup_fmap, Hc. }
  split.
  { assert (0 < inject_Z (length d))%Q by (apply inject_Z_pos; lia).
    field. lra. }
  split; [done|].
  intros H50. unfold poisson_coverage_cutoff, py_max.
  assert (Qlt_bool (1 # 2) median = true) as ->
    by (apply Qlt_bool_true; lra).
  assert (Qlt_bool median 50 = false) as -> by (by apply Qlt_bool_false).
  split; [done|].
  intros p c Hc. rewrite list_lookup_fmap, Hc. simpl.
  pose proof (Qle_ceiling (median * (3 # 2) + 15)) as Hceil.
  split.
  - intros [= Hlt]. apply Qlt_bool_true in Hlt. lra.
  - intros Hle. f_equal. apply Qlt_bool_false. lra.
Qed.

End Coverage.

Lemma calculate_coverage_flags_above_cutoff_witness :
  ScaffoldCallData.wf Samples.scd3
  /\ 0 < ScaffoldCallData.length Samples.scd3
  /\ exists d' median cutoff cov,
       ScaffoldCoverage.calculate_coverage (fun _ m => m) Samples.scd3
       = Ok (d', median, cutoff)
       /\ ScaffoldCallData.wf d'
       /\ ScaffoldCallData.coverage d' = Some cov
       /\ Datatypes.length cov = Z.to_nat (ScaffoldCallData.length Samples.scd3)
       /\ ScaffoldCallData.alleles d' = ScaffoldCallData.alleles Samples.scd3
       /\ (forall (p : nat) cnts quals l,
             ScaffoldCallData.alleles Samples.scd3 !! p = Some (cnts, quals) ->
             ScaffoldCallData.lowmq_count Samples.scd3 !! p = Some l ->
             cov !! p = Some (np_sum cnts + l)
             /\ ScaffoldCallData.high_coverage d' !! p
                = Some (Qlt_bool cutoff (inject_Z (np_sum cnts + l))))
       /\ (ScaffoldCallData.mean_coverage d'
           * inject_Z (ScaffoldCallData.length Samples.scd3)
           == inject_Z (np_sum cov))%Q
       /\ np_median cov = Ok median
       /\ ((50 <= median)%Q ->
             cutoff = inject_Z (Qceiling (median * (3 # 2) + 15))
             /\ forall (p : nat) c,
                  cov !! p = Some c ->
                  (ScaffoldCallData.high_coverage d' !! p = Some true ->
                     (median * (3 # 2) + 15 < inject_Z c)%Q)
                  /\ ((inject_Z c <= median)%Q ->
                      ScaffoldCallData.high_coverage d' !! p = Some false)).
Proof.
  split; [exact scd3_wf|]. split; [simpl; lia|].
  apply (calculate_coverage_flags_above_cutoff (fun _ m => m) Samples.scd3);
    [exact scd3_wf | simpl; lia].
Defined.

(** The sample scaffold: coverage 3, 0 and 9, median 3. *)
Example calculate_coverage_sample :
  exists d' cutoff,
    ScaffoldCoverage.calculate_coverage (fun _ m => m) Samples.scd3
    = Ok (d', inject_Z 3, cutoff)
    /\ ScaffoldCallData.coverage d' = Some [3; 0; 9]
    /\ ScaffoldCallData.high_coverage d' = [false; false; true].
Proof. eexists _, _. repeat split. Qed.

(* ===================================================================== *)
(** * Further properties: the summary                                    *)
(* ===================================================================== *)

Lemma outcome_bind_Returns {A B} (m : outcome A) (f : A -> outcome B) (b : B) :
  outcome_bind m f = Returns b ->
  exists a, m = Returns a /\ f a = Returns b.
Proof. destruct m as [a| |]; simpl; intros H; try done. by exists a. Qed.

Lemma of_res_Returns {A} (m : res A) (a : A) :
  of_res m = Returns a -> m = Ok a.
Proof. destruct m; simpl; intros H; by inversion H. Qed.

Lemma of_option_Ok {A} (e : exn) (o : option A) (a : A) :
  of_option e o = Ok a -> o = Some a.
Proof. destruct o; simpl; intros H; by inversion H. Qed.

Ltac bind_inv H x E :=
  apply outcome_bind_Returns in H; destruct H as (x & E & H).

Section SummaryFacts.

Variable pct : Z -> Z -> outcome Q.
Variable repetitiveness_of : ScaffoldCallData.t -> Q.

(** What one run of the loop body does to the counters, and where the
    numbers of its dictionary come from. *)
Lemma scaffold_step_inv (abun : list (string * Q)) (acc acc' : Summary.totals)
    (scaffold : ScaffoldCallData.t) (r : Summary.row) :
  Summary.scaffold_step pct repetitiveness_of abun acc scaffold
  = Returns (acc', r) ->
  (exists strong snps ref_snps strong_snps,
     ScaffoldCallData.strong scaffold = Some strong
     /\ Summary.snps_of strong (ScaffoldCallData.refmask scaffold)
                        (map Summary.single strong) = Ok snps
     /\ Summary.np_take_int (ScaffoldCallData.refmask scaffold) snps
        = Ok ref_snps
     /\ Summary.np_take_int strong snps = Ok strong_snps
     /\ count_ts_tv ref_snps strong_snps
        = Returns (Summary.transitions r, Summary.transversions r)
     /\ Summary.snps r = count_nonzero snps)
  /\ Summary.name r = ScaffoldCallData.name scaffold
  /\ Summary.total_callable acc'
     = Summary.total_callable acc + Summary.callable r
  /\ Summary.total_confirmed acc'
     = Summary.total_confirmed acc + Summary.confirmed r
  /\ Summary.total_snps acc' = Summary.total_snps acc + Summary.snps r
  /\ Summary.total_multi acc' = Summary.total_multi acc + Summary.multi r
  /\ Summary.total_lowmq acc' = Summary.total_lowmq acc + Summary.lowmq r
  /\ Summary.total_high_cov acc'
     = Summary.total_high_cov acc + Summary.high r
  /\ Summary.total_gaps acc' = Summary.total_gaps acc + Summary.gapCount r
  /\ Summary.total_gap_length acc'
     = Summary.total_gap_length acc + Summary.gapLength r
  /\ Summary.total_ts acc' = Summary.total_ts acc + Summary.transitions r
  /\ Summary.total_tv acc' = Summary.total_tv acc + Summary.transversions r.
Proof.
  unfold Summary.scaffold_step. intros H.
  bind_inv H strong E1. apply of_res_Returns, of_option_Ok in E1.
  bind_inv H confirmed E2.
  bind_inv H snps E3. apply of_res_Returns in E3.
  bind_inv H callable_pct E4.
  bind_inv H cov E5. bind_inv H normal E6. bind_inv H lowmq E7.
  bind_inv H coverage E8. bind_inv H with_lowmq E9.
  bind_inv H median_coverage E10.
  bind_inv H confirmed_pct E11. bind_inv H snp_pct E12.
  bind_inv H multi_pct E13. bind_inv H lowmq_pct E14.
  bind_inv H high_pct E15.
  bind_inv H ref_snps E16. apply of_res_Returns in E16.
  bind_inv H strong_snps E17. apply of_res_Returns in E17.
  bind_inv H tstv E18. destruct tstv as [transitions transversions].
  bind_inv H ts_pct E19. bind_inv H tv_pct E20.
  bind_inv H abundance E21.
  injection H as <- <-. cbn.
  split; [|by repeat split].
  by exists strong, snps, ref_snps, strong_snps.
Qed.

(** The loop adds one dictionary per scaffold, in their order, and each
    counter grows by the sum of the entries of these dictionaries. *)
Lemma summarize_loop_inv (abun : list (string * Q))
    (scaffolds : list ScaffoldCallData.t) :
  forall (acc acc' : Summary.totals) (yielded out : list Summary.row),
    Summary.summarize_loop pct repetitiveness_of abun scaffolds acc yielded
    = Returns (acc', out) ->
    exists per,
      out = yielded ++ per
      /\ Forall2 (fun scaffold r =>
                    exists a a',
                      Summary.scaffold_step pct repetitiveness_of abun a
                                            scaffold
                      = Returns (a', r))
                 scaffolds per
      /\ Summary.total_callable acc'
         = Summary.total_callable acc + np_sum (map Summary.callable per)
      /\ Summary.total_confirmed acc'
         = Summary.total_confirmed acc + np_sum (map Summary.confirmed per)
      /\ Summary.total_snps acc'
         = Summary.total_snps acc + np_sum (map Summary.snps per)
      /\ Summary.total_multi acc'
         = Summary.total_multi acc + np_sum (map Summary.multi per)
      /\ Summary.total_lowmq acc'
         = Summary.total_lowmq acc + np_sum (map Summary.lowmq per)
      /\ Summary.total_high_cov acc'
         = Summary.total_high_cov acc + np_sum (map Summary.high per)
      /\ Summary.total_gaps acc'
         = Summary.total_gaps acc + np_sum (map Summary.gapCount per)
      /\ Summary.total_gap_length acc'
         = Summary.total_gap_length acc + np_sum (map Summary.gapLength per)
      /\ Summary.total_ts acc'
         = Summary.total_ts acc + np_sum (map Summary.transitions per)
      /\ Summary.total_tv acc'
         = Summary.total_tv acc + np_sum (map Summary.transversions per).
Proof.
  induction scaffolds as [|scaffold rest IH]; intros acc acc' yielded out H.
  - simpl in H. injection H as <- <-. exists []. rewrite app_nil_r.
    unfold np_sum; simpl. repeat split; try lia. constructor.
  - cbn [Summary.summarize_loop] in H.
    bind_inv H step E. destruct step as [acc1 r].
    apply IH in H
      as (per & -> & HF & H1 & H2 & H3 & H4 & H5 & H6 & H7 & H8 & H9 & H10).
    destruct (scaffold_step_inv _ _ _ _ _ E)
      as (_ & _ & G1 & G2 & G3 & G4 & G5 & G6 & G7 & G8 & G9 & G10).
    exists (r :: per). rewrite <- app_assoc. split; [done|].
    split; [constructor; [by exists acc, acc1|done]|].
    unfold np_sum in *. cbn [map foldr].
    repeat split; lia.
Qed.

(** What [summarize] returns when it runs to its end. *)
Lemma summarize_inv (self : VariantCallData.t) (rows : list Summary.row) :
  Summary.summarize pct repetitiveness_of self = Returns rows ->
  exists abun per tot,
    rows = per ++ [tot]
    /\ Forall2 (fun scaffold r =>
                  exists a a',
                    Summary.scaffold_step pct repetitiveness_of abun a
                                          scaffold
                    = Returns (a', r))
               (map snd (VariantCallData.scaffolds_data self)) per
    /\ Summary.name tot = "TOTAL"%string
    /\ Summary.callable tot = np_sum (map Summary.callable per)
    /\ Summary.confirmed tot = np_sum (map Summary.confirmed per)
    /\ Summary.snps tot = np_sum (map Summary.snps per)
    /\ Summary.multi tot = np_sum (map Summary.multi per)
    /\ Summary.lowmq tot = np_sum (map Summary.lowmq per)
    /\ Summary.high tot = np_sum (map Summary.high per)
    /\ Summary.gapCount tot = np_sum (map Summary.gapCount per)
    /\ Summary.gapLength tot = np_sum (map Summary.gapLength per)
    /\ Summary.transitions tot = np_sum (map Summary.transitions per)
    /\ Summary.transversions tot = np_sum (map Summary.transversions per).
Proof.
  unfold Summary.summarize. intros H.
  bind_inv H abun E1. bind_inv H loop E2. destruct loop as [acc yielded].
  bind_inv H avg E3. bind_inv H coverage E4.
  bind_inv H p1 P1. bind_inv H p2 P2. bind_inv H p3 P3. bind_inv H p4 P4.
  bind_inv H p5 P5. bind_inv H p6 P6. bind_inv H p7 P7. bind_inv H p8 P8.
  injection H as <-.
  apply summarize_loop_inv in E2
    as (per & -> & HF & H1 & H2 & H3 & H4 & H5 & H6 & H7 & H8 & H9 & H10).
  eexists abun, per, _. split; [reflexivity|]. split; [exact HF|].
  cbn. cbn in H1, H2, H3, H4, H5, H6, H7, H8, H9, H10.
  repeat split; lia.
Qed.

(** ** The abundances *)

Lemma dict_get_set_is_Some {V} (d : list (string * V)) (k k' : string) (v : V) :
  is_Some (dict_get (dict_set d k v) k')
  <-> k' = k \/ is_Some (dict_get d k').
Proof.
  induction d as [|[k0 v0] d IH]; simpl.
  - destruct (String.eqb_spec k k') as [->|Hne].
    + split; [by left|eauto].
    + split; [by intros [x Hx]|]. intros [->|[x Hx]]; done.
  - destruct (String.eqb_spec k0 k) as [->|Hne]; simpl.
    + destruct (String.eqb_spec k k') as [->|Hne]; [split; eauto|].
      split; [by right|]. intros [->|H]; done.
    + destruct (String.eqb_spec k0 k'); [split; eauto|].
      exact IH.
Qed.

Lemma dict_set_Forall {V} (P : V -> Prop) (d : list (string * V))
    (k : string) (v : V) :
  Forall (fun kv => P (snd kv)) d -> P v ->
  Forall (fun kv => P (snd kv)) (dict_set d k v).
Proof.
  intros Hd Hv. induction Hd as [|[k0 v0] d H0 Hd IH]; simpl.
  - by repeat constructor.
  - destruct (String.eqb k0 k); constructor; done.
Qed.

Lemma dict_set_nonempty {V} (d : list (string * V)) (k : string) (v : V) :
  dict_set d k v <> [].
Proof. destruct d as [|[k0 v0] d]; simpl; [done|]. by destruct (String.eqb k0 k). Qed.

(** A comprehension whose value never fails has every scaffold's name
    as a key. *)
Lemma by_name_Ok_keys (g : ScaffoldCallData.t -> Q)
    (scaffolds : list ScaffoldCallData.t) :
  forall d,
  exists d',
    Summary.by_name (fun scaffold => Ok (g scaffold)) scaffolds d = Ok d'
    /\ forall k, is_Some (dict_get d' k)
                 <-> k ∈ map ScaffoldCallData.name scaffolds
                     \/ is_Some (dict_get d k).
Proof.
  induction scaffolds as [|scaffold rest IH]; intros d; simpl.
  - exists d. split; [done|]. intros k. rewrite elem_of_nil. tauto.
  - destruct (IH (dict_set d (ScaffoldCallData.name scaffold) (g scaffold)))
      as (d' & -> & Hk).
    exists d'. split; [done|]. intros k.
    rewrite Hk, dict_get_set_is_Some, elem_of_cons. tauto.
Qed.

(** The abundances before the normalisation, when no scaffold has a
    read: a division by zero, or zeros only. *)
Lemma by_name_no_reads (uniq_len : list (string * Q))
    (scaffolds : list ScaffoldCallData.t) :
  (forall scaffold, scaffold ∈ scaffolds ->
     ScaffoldCallData.read_count scaffold = 0
     /\ is_Some (dict_get uniq_len (ScaffoldCallData.name scaffold))) ->
  forall d,
    Forall (fun kv => snd kv == 0)%Q d ->
    (scaffolds <> [] \/ d <> []) ->
    Summary.by_name
      (fun scaffold =>
         let* len :=
           of_option KeyError
             (dict_get uniq_len (ScaffoldCallData.name scaffold)) in
         py_div (inject_Z (ScaffoldCallData.read_count scaffold)) len)
      scaffolds d = Raise ZeroDivisionError
    \/ exists d',
         Summary.by_name
           (fun scaffold =>
              let* len :=
                of_option KeyError
                  (dict_get uniq_len (ScaffoldCallData.name scaffold)) in
              py_div (inject_Z (ScaffoldCallData.read_count scaffold)) len)
           scaffolds d = Ok d'
         /\ Forall (fun kv => snd kv == 0)%Q d' /\ d' <> [].
Proof.
  induction scaffolds as [|scaffold rest IH]; intros Hall d Hd Hne.
  - right. exists d. simpl. split; [reflexivity|]. split; [exact Hd|].
    destruct Hne as [Hne|Hne]; [by destruct Hne|exact Hne].
  - cbn [Summary.by_name].
    destruct (Hall scaffold) as [Hrc [len Hlen]]; [by left|].
    rewrite Hlen, Hrc. cbn [of_option res_bind]. unfold py_div at 1 3.
    destruct (Qeq_bool len 0) eqn:Hz; [by left|]. cbn [res_bind].
    apply IH.
    + intros s Hs. apply Hall. by right.
    + apply (dict_set_Forall (fun v => v == 0)%Q); [exact Hd|].
      unfold Qdiv. rewrite Qmult_0_l. reflexivity.
    + right. apply dict_set_nonempty.
Qed.

Lemma py_sumQ_zeros (l : list Q) :
  Forall (fun x => x == 0)%Q l -> (py_sumQ l == 0)%Q.
Proof.
  unfold py_sumQ. intros H.
  assert (G : forall b, (b == 0)%Q -> (fold_left Qplus l b == 0)%Q);
    [|by apply G].
  induction H as [|x l Hx Hl IH]; intros b Hb; simpl; [done|].
  apply IH. rewrite Hb, Hx. reflexivity.
Qed.

(** Without a read on any scaffold the abundances cannot be
    normalised. *)
Lemma abundances_no_reads (scaffolds : list ScaffoldCallData.t) :
  scaffolds <> [] ->
  (forall scaffold, scaffold ∈ scaffolds ->
     ScaffoldCallData.read_count scaffold = 0) ->
  Summary.abundances repetitiveness_of scaffolds = Raise ZeroDivisionError.
Proof.
  intros Hne Hall. unfold Summary.abundances.
  destruct (by_name_Ok_keys
              (fun scaffold =>
                 inject_Z (ScaffoldCallData.length scaffold)
                 - inject_Z (ScaffoldCallData.length scaffold)
                   * repetitiveness_of scaffold)%Q scaffolds [])
    as (uniq_len & -> & Hk).
  cbn [res_bind].
  destruct (by_name_no_reads uniq_len scaffolds) with (d := @nil (string * Q))
    as [->|(abun & -> & Hz & Hnil)]; [|constructor|by left|done|].
  { intros scaffold Hin. split; [by apply Hall|].
    apply Hk. left. apply list_elem_of_fmap. by exists scaffold. }
  cbn [res_bind].
  assert (Hs : Qeq_bool (py_sumQ (map snd abun)) 0 = true).
  { apply Qeq_bool_iff, py_sumQ_zeros. by apply Forall_fmap. }
  destruct abun as [|kv abun]; [done|].
  cbn [mapM_res]. unfold py_div. rewrite Hs. reflexivity.
Qed.

(** ** Which positions count as SNPs *)

Lemma single_odd (x : Z) :
  Summary.single x = true -> Z.odd x = true -> x = 1.
Proof.
  unfold Summary.single. intros H Hodd.
  apply andb_true_iff in H as [Hland Hpos].
  apply Z.eqb_eq in Hland. apply Z.ltb_lt in Hpos.
  destruct (Z.odd_spec x) as [[k Hk] _]; [done|]. subst x.
  replace (2 * k + 1 - 1) with (2 * k) in Hland by lia.
  assert (Hk0 : k = 0); [|lia].
  apply Z.bits_inj'. intros n Hn. rewrite Z.bits_0.
  assert (E : Z.testbit (Z.land (2 * k + 1) (2 * k)) (Z.succ n) = false)
    by (rewrite Hland; apply Z.bits_0).
  rewrite Z.land_spec, Z.testbit_odd_succ, Z.testbit_even_succ in E by done.
  by rewrite andb_diag in E.
Qed.

(** One entry of [snps] is not zero exactly where the strong call is
    the single allele A and the reference lacks A. *)
Lemma snps_entry (x m : Z) :
  negb (Z.land (Z.land x (255 - m)) (if Summary.single x then 1 else 0) =? 0)
  = (x =? Allele.A) && (Z.land m Allele.A =? 0).
Proof.
  unfold Allele.A.
  assert (B : forall y, Z.land y 1 = if Z.odd y then 1 else 0).
  { intros y. change 1 with (Z.ones 1) at 1.
    rewrite Z.land_ones by lia. change (2 ^ 1) with 2.
    rewrite Zmod_odd. done. }
  rewrite (B m).
  destruct (Summary.single x) eqn:Hs.
  - rewrite B, <- (Z.bit0_odd (Z.land _ _)), Z.land_spec, !Z.bit0_odd,
      Z.odd_sub.
    change (Z.odd 255) with true.
    destruct (Z.odd x) eqn:Hx.
    + rewrite (single_odd x Hs Hx). simpl. by destruct (Z.odd m).
    + simpl. destruct (Z.eqb_spec x 1) as [->|]; done.
  - rewrite Z.land_0_r. simpl.
    destruct (Z.eqb_spec x 1) as [->|]; done.
Qed.

Lemma snps_of_equal_length (strong refmask : list Z) :
  Datatypes.length strong = Datatypes.length refmask ->
  Summary.snps_of strong refmask (map Summary.single strong)
  = Ok (zip_with (fun x m =>
                    Z.land (Z.land x (255 - m))
                           (if Summary.single x then 1 else 0))
                 strong refmask).
Proof.
  intros Hlen. unfold Summary.snps_of, np_zip.
  rewrite Hlen, Nat.eqb_refl. cbn [res_bind].
  rewrite length_zip_with, length_fmap, <- Hlen, Nat.min_id, Nat.eqb_refl.
  f_equal. clear Hlen. revert refmask.
  induction strong as [|x strong IH]; intros [|m refmask]; simpl; try done.
  by rewrite IH.
Qed.

Lemma count_nonzero_snps (strong refmask : list Z) :
  count_nonzero
    (zip_with (fun x m =>
                 Z.land (Z.land x (255 - m))
                        (if Summary.single x then 1 else 0))
              strong refmask)
  = Zlen (List.filter
            (fun xm => (fst xm =? Allele.A) && (Z.land (snd xm) Allele.A =? 0))
            (zip strong refmask)).
Proof.
  unfold count_nonzero, Zlen. f_equal. revert refmask.
  induction strong as [|x strong IH]; intros [|m refmask]; try done.
  cbn [zip_with zip List.filter fst snd]. rewrite snps_entry.
  destruct ((x =? Allele.A) && (Z.land m Allele.A =? 0)); simpl;
    by rewrite IH.
Qed.

Lemma mapM_res_length {A B} (f : A -> res B) (l : list A) (l' : list B) :
  mapM_res f l = Ok l' -> Datatypes.length l' = Datatypes.length l.
Proof.
  revert l'. induction l as [|x l IH]; intros l' H; simpl in H.
  - by injection H as <-.
  - destruct (f x); [|done]. cbn [res_bind] in H.
    destruct (mapM_res f l); [|done]. cbn [res_bind] in H.
    injection H as <-. simpl. f_equal. by apply IH.
Qed.

(** What the dictionary of one scaffold says about SNPs, transitions
    and transversions. *)
Lemma scaffold_step_snps (abun : list (string * Q)) (acc acc' : Summary.totals)
    (scaffold : ScaffoldCallData.t) (r : Summary.row) (strong : list Z) :
  Summary.scaffold_step pct repetitiveness_of abun acc scaffold
  = Returns (acc', r) ->
  ScaffoldCallData.strong scaffold = Some strong ->
  Datatypes.length strong
  = Datatypes.length (ScaffoldCallData.refmask scaffold) ->
  Summary.snps r
  = Zlen (List.filter
            (fun xm => (fst xm =? Allele.A) && (Z.land (snd xm) Allele.A =? 0))
            (zip strong (ScaffoldCallData.refmask scaffold)))
  /\ Summary.transitions r + Summary.transversions r = Zlen strong.
Proof.
  intros H Hstrong Hlen.
  destruct (scaffold_step_inv _ _ _ _ _ H)
    as ((strong' & snps & ref_snps & strong_snps
         & E1 & E2 & E3 & E4 & E5 & E6) & _).
  rewrite Hstrong in E1. injection E1 as <-.
  rewrite snps_of_equal_length in E2 by done. injection E2 as <-.
  split; [by rewrite E6, count_nonzero_snps|].
  apply mapM_res_length in E3, E4.
  rewrite length_zip_with, <- Hlen, Nat.min_id in E3, E4.
  unfold count_ts_tv, Allele.t in E5. rewrite E3, E4, Nat.eqb_refl in E5.
  injection E5 as E5.
  pose proof (count_ts_tv_loop_total (zip_py ref_snps strong_snps) 0 0) as T.
  cbv zeta in T. rewrite E5 in T. cbn [fst snd] in T.
  destruct T as (_ & _ & T). rewrite T. unfold Zlen.
  rewrite zip_py_length by (unfold Allele.t; by rewrite E3, E4).
  unfold Allele.t. lia.
Qed.

End SummaryFacts.

(** X27.  [VariantCallData.summarize] when no scaffold has a uniquely
    mapped read ([read_count] is 0 for all of them, as it is before any
    read has been recorded): it raises [ZeroDivisionError], whatever
    else the call data hold.  With at least one scaffold the exception
    comes from the abundances, before the first dictionary is yielded;
    without any scaffold, from the average repetitiveness. *)
Theorem summarize_without_reads_fails (pct : Z -> Z -> outcome Q)
    (repetitiveness_of : ScaffoldCallData.t -> Q) (self : VariantCallData.t) :
  (forall scaffold,
     scaffold ∈ map snd (VariantCallData.scaffolds_data self) ->
     ScaffoldCallData.read_count scaffold = 0) ->
  Summary.summarize pct repetitiveness_of self = Raises ZeroDivisionError.
Proof.
  intros Hall. unfold Summary.summarize.
  destruct (map snd (VariantCallData.scaffolds_data self))
    as [|scaffold rest] eqn:E.
  - reflexivity.
  - rewrite abundances_no_reads; [reflexivity|done|exact Hall].
Qed.

Lemma summarize_without_reads_fails_witness :
  Summary.summarize Samples.pct100 (fun _ => 0%Q) Samples.vcd3
  = Raises ZeroDivisionError.
Proof.
  apply (summarize_without_reads_fails Samples.pct100 (fun _ => 0%Q)
                                       Samples.vcd3).
  intros scaffold Hin. simpl in Hin.
  apply list_elem_of_singleton in Hin. by subst scaffold.
Defined.

(** X28.  When [VariantCallData.summarize] runs to its end, it has
    yielded one dictionary per scaffold, in the order of the scaffolds
    and under their names, and then the dictionary named TOTAL; each
    count of TOTAL (callable, confirmed, snps, multi, lowmq, high,
    gapCount, gapLength, transitions, transversions) is the sum of that
    count over the dictionaries of the scaffolds. *)
Theorem summarize_total_row (pct : Z -> Z -> outcome Q)
    (repetitiveness_of : ScaffoldCallData.t -> Q) (self : VariantCallData.t)
    (rows : list Summary.row) :
  Summary.summarize pct repetitiveness_of self = Returns rows ->
  exists per tot,
    rows = per ++ [tot]
    /\ map Summary.name per
       = map ScaffoldCallData.name
             (map snd (VariantCallData.scaffolds_data self))
    /\ Summary.name tot = "TOTAL"%string
    /\ Summary.callable tot = np_sum (map Summary.callable per)
    /\ Summary.confirmed tot = np_sum (map Summary.confirmed per)
    /\ Summary.snps tot = np_sum (map Summary.snps per)
    /\ Summary.multi tot = np_sum (map Summary.multi per)
    /\ Summary.lowmq tot = np_sum (map Summary.lowmq per)
    /\ Summary.high tot = np_sum (map Summary.high per)
    /\ Summary.gapCount tot = np_sum (map Summary.gapCount per)
    /\ Summary.gapLength tot = np_sum (map Summary.gapLength per)
    /\ Summary.transitions tot = np_sum (map Summary.transitions per)
    /\ Summary.transversions tot = np_sum (map Summary.transversions per).
Proof.
  intros H.
  destruct (summarize_inv _ _ _ _ H) as (abun & per & tot & -> & HF & Hrest).
  exists per, tot. split; [done|]. split; [|exact Hrest].
  clear H Hrest.
  induction HF as [|scaffold r scaffolds per (a & a' & Hstep) HF IH];
    [done|].
  simpl. f_equal; [|exact IH].
  by destruct (scaffold_step_inv _ _ _ _ _ _ _ Hstep) as (_ & Hname & _).
Qed.

Lemma summarize_total_row_witness :
  exists rows,
    Summary.summarize Samples.pct100 (fun _ => 0%Q) Samples.vcd_called
    = Returns rows
    /\ exists per tot,
         rows = per ++ [tot]
         /\ map Summary.name per = ["s1"%string]
         /\ Summary.name tot = "TOTAL"%string
         /\ Summary.callable tot = np_sum (map Summary.callable per)
         /\ Summary.confirmed tot = np_sum (map Summary.confirmed per)
         /\ Summary.snps tot = np_sum (map Summary.snps per)
         /\ Summary.multi tot = np_sum (map Summary.multi per)
         /\ Summary.lowmq tot = np_sum (map Summary.lowmq per)
         /\ Summary.high tot = np_sum (map Summary.high per)
         /\ Summary.gapCount tot = np_sum (map Summary.gapCount per)
         /\ Summary.gapLength tot = np_sum (map Summary.gapLength per)
         /\ Summary.transitions tot = np_sum (map Summary.transitions per)
         /\ Summary.transversions tot
            = np_sum (map Summary.transversions per).
Proof.
  eexists. split; [vm_compute; reflexivity|].
  eapply (summarize_total_row Samples.pct100 (fun _ => 0%Q)
                              Samples.vcd_called).
  vm_compute; reflexivity.
Defined.

(** X29.  The number [snps] in the dictionary that
    [VariantCallData.summarize] yields for a scaffold: the boolean array
    [singles] enters [(strong & ~refmask) & singles] as the integers 1
    and 0, so what is counted are the positions whose strong call is
    exactly the allele A while the reference lacks A.  A single strong
    call of C, G, T, an insertion or a deletion is never counted. *)
Theorem summarize_snps_are_A_calls (pct : Z -> Z -> outcome Q)
    (repetitiveness_of : ScaffoldCallData.t -> Q) (self : VariantCallData.t)
    (rows : list Summary.row) (i : nat) (scaffold : ScaffoldCallData.t)
    (r : Summary.row) (strong : list Z) :
  Summary.summarize pct repetitiveness_of self = Returns rows ->
  map snd (VariantCallData.scaffolds_data self) !! i = Some scaffold ->
  rows !! i = Some r ->
  ScaffoldCallData.strong scaffold = Some strong ->
  Datatypes.length strong
  = Datatypes.length (ScaffoldCallData.refmask scaffold) ->
  Summary.snps r
  = Zlen (List.filter
            (fun xm => (fst xm =? Allele.A) && (Z.land (snd xm) Allele.A =? 0))
            (zip strong (ScaffoldCallData.refmask scaffold))).
Proof.
  intros H Hsc Hr Hstrong Hlen.
  destruct (summarize_inv _ _ _ _ H) as (abun & per & tot & -> & HF & _).
  pose proof (Forall2_length _ _ _ HF) as Hn.
  rewrite lookup_app_l in Hr
    by (rewrite <- Hn; by apply lookup_lt_Some with scaffold).
  destruct (Forall2_lookup_lr _ _ _ _ _ _ HF Hsc Hr) as (a & a' & Hstep).
  by destruct (scaffold_step_snps _ _ _ _ _ _ _ _ Hstep Hstrong Hlen).
Qed.

Lemma summarize_snps_are_A_calls_witness :
  exists rows r,
    Summary.summarize Samples.pct100 (fun _ => 0%Q) Samples.vcd_called
    = Returns rows
    /\ rows !! 0%nat = Some r
    /\ Summary.snps r = 1.
Proof.
  eexists _, _. split; [vm_compute; reflexivity|].
  split; [reflexivity|].
  eapply (summarize_snps_are_A_calls Samples.pct100 (fun _ => 0%Q)
            Samples.vcd_called _ 0%nat Samples.scd_called _ [1; 2; 1; 0]);
    [vm_compute; reflexivity|reflexivity|reflexivity|reflexivity
    |reflexivity].
Defined.

(** X30.  The transitions and transversions in the dictionary that
    [VariantCallData.summarize] yields for a scaffold: [snps] is an
    array of integers, so [refmask[snps]] and [strong[snps]] take one
    entry per position of the scaffold, and the two numbers add up to
    the number of positions, whatever the number of SNPs. *)
Theorem summarize_ts_tv_cover_scaffold (pct : Z -> Z -> outcome Q)
    (repetitiveness_of : ScaffoldCallData.t -> Q) (self : VariantCallData.t)
    (rows : list Summary.row) (i : nat) (scaffold : ScaffoldCallData.t)
    (r : Summary.row) (strong : list Z) :
  Summary.summarize pct repetitiveness_of self = Returns rows ->
  map snd (VariantCallData.scaffolds_data self) !! i = Some scaffold ->
  rows !! i = Some r ->
  ScaffoldCallData.strong scaffold = Some strong ->
  Datatypes.length strong
  = Datatypes.length (ScaffoldCallData.refmask scaffold) ->
  Summary.transitions r + Summary.transversions r = Zlen strong.
Proof.
  intros H Hsc Hr Hstrong Hlen.
  destruct (summarize_inv _ _ _ _ H) as (abun & per & tot & -> & HF & _).
  pose proof (Forall2_length _ _ _ HF) as Hn.
  rewrite lookup_app_l in Hr
    by (rewrite <- Hn; by apply lookup_lt_Some with scaffold).
  destruct (Forall2_lookup_lr _ _ _ _ _ _ HF Hsc Hr) as (a & a' & Hstep).
  by destruct (scaffold_step_snps _ _ _ _ _ _ _ _ Hstep Hstrong Hlen).
Qed.

Lemma summarize_ts_tv_cover_scaffold_witness :
  exists rows r,
    Summary.summarize Samples.pct100 (fun _ => 0%Q) Samples.vcd_called
    = Returns rows
    /\ rows !! 0%nat = Some r
    /\ Summary.snps r = 1
    /\ Summary.transitions r + Summary.transversions r = 4.
Proof.
  eexists _, _. split; [vm_compute; reflexivity|].
  split; [reflexivity|]. split; [reflexivity|].
  eapply (summarize_ts_tv_cover_scaffold Samples.pct100 (fun _ => 0%Q)
            Samples.vcd_called _ 0%nat Samples.scd_called _ [1; 2; 1; 0]);
    [vm_compute; reflexivity|reflexivity|reflexivity|reflexivity
    |reflexivity].
Defined.
